(** * The authentication and authorization core of the shop server

    A shallow embedding of [helper/authHelpers.js], [middlewares/validate.js]
    and the user router (the file that mounts [/users], [/signup], [/signin],
    ... on [express.Router()]), followed by the properties the specification
    states about them.

    Conventions of the embedding.
    - A JavaScript string is the [string] of its UTF-8 encoding, the form in
      which requests carry it (a surrogate that stands alone, which a JSON
      escape can produce, as the three bytes of its code point); [undefined]
      is [None].  [Js.length] counts its UTF-16 code units, as [.length]
      does, and [Js.trim] strips the white space of all of Unicode.  The
      patterns of the sources are matched over the bytes: their classes are
      ASCII, and [.] is transcribed so as to refuse the encodings of the
      line terminators.
    - A handler is a function from the process environment, the outside
      world's answers to this request (clock, random values, third-party
      services), the collections and the request to the new collections and
      the response.  An exception is the [Throw] case of [result].
    - Third-party packages (bcrypt, jsonwebtoken's codec, validator, the
      Mongoose schema of [UserModel], which is not part of the sources) are
      the fields of the class [Libraries]; every definition and theorem is
      parametric in them. *)

From Stdlib Require Import String Ascii List ZArith Bool Lia DecimalString.
Import ListNotations.
Open Scope string_scope.
Set Warnings "-register-all".

(** ** JavaScript values *)

Module Js.

(** [!!s] for a string: the empty string is falsy. *)
Definition truthy (s : string) : bool :=
  match s with EmptyString => false | String _ _ => true end.

(** [!!v] for a value that is a string or [undefined]. *)
Definition truthy_opt (v : option string) : bool :=
  match v with Some s => truthy s | None => false end.

(** [!!a] for an array: every object is truthy, the empty array included. *)
Definition truthy_array {A : Type} (a : list A) : bool := true.

(** [a || b] on values that are strings or [undefined]. *)
Definition or_else (a b : option string) : option string :=
  if truthy_opt a then a else b.

(** [a || b] where [b] is a string. *)
Definition or_default (a : option string) (b : string) : string :=
  match a with
  | Some s => if truthy s then s else b
  | None => b
  end.

(** [a === b] on values that are strings or [undefined]. *)
Definition strict_eq (a b : option string) : bool :=
  match a, b with
  | Some x, Some y => String.eqb x y
  | None, None => true
  | _, _ => false
  end.

(** [s.split(sep)] for a separator of one character. *)
Fixpoint split (sep : ascii) (s : string) : list string :=
  match s with
  | EmptyString => [EmptyString]
  | String c s' =>
      if Ascii.eqb c sep then EmptyString :: split sep s'
      else match split sep s' with
           | w :: ws => String c w :: ws
           | [] => [String c EmptyString]
           end
  end.

(** The white space of one byte: TAB, LF, VT, FF, CR and the space. *)
Definition is_space (c : ascii) : bool :=
  let n := nat_of_ascii c in
  (n =? 32)%nat || ((9 <=? n)%nat && (n <=? 13)%nat).

(** [s.length]: the UTF-16 code units of the text that [s] encodes.  A
    character of one to three bytes is one unit and a character of four
    bytes is a surrogate pair; bytes 128 to 191 continue a character. *)
Definition units (c : ascii) : nat :=
  let n := nat_of_ascii c in
  if (n <? 128)%nat then 1%nat
  else if (n <? 192)%nat then 0%nat
  else if (n <? 240)%nat then 1%nat
  else 2%nat.

Fixpoint length (s : string) : nat :=
  match s with
  | EmptyString => 0%nat
  | String c s' => (units c + length s')%nat
  end.

Definition bytes (l : list nat) : string :=
  fold_right (fun n s => String (ascii_of_nat n) s) EmptyString l.

(** The encodings of the characters that [\s] matches and [trim()] strips:
    the white space of one byte, U+00A0, U+1680, U+2000 to U+200A, U+2028,
    U+2029, U+202F, U+205F, U+3000 and U+FEFF. *)
Definition white_space : list string :=
  map bytes
      ([ [9]; [10]; [11]; [12]; [13]; [32]; [194; 160]; [225; 154; 128] ]
       ++ map (fun n => [226; 128; n]) (seq 128 11)
       ++ [ [226; 128; 168]; [226; 128; 169]; [226; 128; 175]; [226; 129; 159];
            [227; 128; 128]; [239; 187; 191] ])%list.

(** What follows [p] in [s], when [s] starts with [p]. *)
Fixpoint strip_prefix (p s : string) : option string :=
  match p, s with
  | EmptyString, _ => Some s
  | String a p', String b s' => if Ascii.eqb a b then strip_prefix p' s' else None
  | String _ _, EmptyString => None
  end.

Fixpoint strip_first (ps : list string) (s : string) : option string :=
  match ps with
  | [] => None
  | p :: ps' =>
      match strip_prefix p s with
      | Some t => Some t
      | None => strip_first ps' s
      end
  end.

(** What follows the white-space character [s] starts with, if it starts
    with one. *)
Definition after_space (s : string) : option string := strip_first white_space s.

(** [s.trimStart()]; [n] bounds the characters to strip. *)
Fixpoint trim_start_upto (n : nat) (s : string) : string :=
  match n with
  | O => s
  | S n' =>
      match after_space s with
      | Some t => trim_start_upto n' t
      | None => s
      end
  end.

Definition trim_start (s : string) : string := trim_start_upto (String.length s) s.

(** Nothing but white space. *)
Definition blank (s : string) : bool :=
  match trim_start s with EmptyString => true | String _ _ => false end.

(** [s.trimEnd()]: the string up to where only white space follows. *)
Fixpoint trim_end (s : string) : string :=
  match s with
  | EmptyString => EmptyString
  | String c s' => if blank s then EmptyString else String c (trim_end s')
  end.

(** Lower case for the letters of ASCII, which is how route paths and the
    hexadecimal digits of an id compare; the other bytes stay. *)
Definition lower_ascii (c : ascii) : ascii :=
  let n := nat_of_ascii c in
  if (65 <=? n)%nat && (n <=? 90)%nat then ascii_of_nat (n + 32) else c.

Fixpoint toLowerCase (s : string) : string :=
  match s with
  | EmptyString => EmptyString
  | String c s' => String (lower_ascii c) (toLowerCase s')
  end.

(** [l.join("")] *)
Definition join (l : list string) : string := fold_right String.append "" l.

(** A number as a decimal string, as a template literal prints it. *)
Definition of_int (n : Z) : string := DecimalString.NilZero.string_of_int (Z.to_int n).

(** [s.trim()] *)
Definition trim (s : string) : string := trim_end (trim_start s).

(** [s.replace(/\s/g, '')]; [n] bounds the characters to look at. *)
Fixpoint remove_spaces_upto (n : nat) (s : string) : string :=
  match n with
  | O => s
  | S n' =>
      match after_space s with
      | Some t => remove_spaces_upto n' t
      | None =>
          match s with
          | EmptyString => EmptyString
          | String c s' => String c (remove_spaces_upto n' s')
          end
      end
  end.

Definition remove_spaces (s : string) : string := remove_spaces_upto (String.length s) s.

End Js.

(** ** Regular expressions

    The patterns of the sources are transcribed constructor by constructor
    and run by Brzozowski derivatives. *)

Module Regex.

Inductive t : Type :=
| Void
| Eps
| Chr (p : ascii -> bool)
| Seq (r s : t)
| Alt (r s : t)
| Star (r : t)
| Both (r s : t).

Fixpoint nullable (r : t) : bool :=
  match r with
  | Void => false
  | Eps => true
  | Chr _ => false
  | Seq r s => nullable r && nullable s
  | Alt r s => nullable r || nullable s
  | Star _ => true
  | Both r s => nullable r && nullable s
  end.

Definition seq (r s : t) : t :=
  match r, s with
  | Void, _ => Void
  | _, Void => Void
  | Eps, _ => s
  | _, _ => Seq r s
  end.

Definition alt (r s : t) : t :=
  match r, s with
  | Void, _ => s
  | _, Void => r
  | _, _ => Alt r s
  end.

Definition both (r s : t) : t :=
  match r, s with
  | Void, _ => Void
  | _, Void => Void
  | _, _ => Both r s
  end.

Fixpoint deriv (c : ascii) (r : t) : t :=
  match r with
  | Void => Void
  | Eps => Void
  | Chr p => if p c then Eps else Void
  | Seq r s =>
      alt (seq (deriv c r) s) (if nullable r then deriv c s else Void)
  | Alt r s => alt (deriv c r) (deriv c s)
  | Star r' => seq (deriv c r') (Star r')
  | Both r s => both (deriv c r) (deriv c s)
  end.

(** The whole string is in the language: a pattern between [^] and [$]. *)
Fixpoint accepts (r : t) (s : string) : bool :=
  match s with
  | EmptyString => nullable r
  | String c s' => accepts (deriv c r) s'
  end.

Definition any : t := Chr (fun _ => true).

Definition byte (n : nat) : t := Chr (fun c => (nat_of_ascii c =? n)%nat).
Definition byte_but (ns : list nat) : t :=
  Chr (fun c => negb (existsb (Nat.eqb (nat_of_ascii c)) ns)).

(** [.]: any character but a line terminator, LF, CR, U+2028 and U+2029.
    Over the bytes of well-formed text: a byte that is none of 10, 13 and
    226, or 226 with what follows it, unless that makes 226 128 168 or
    226 128 169, the encodings of U+2028 and U+2029. *)
Definition dot : t :=
  Alt (byte_but [10; 13; 226]%nat)
      (Seq (byte 226)
           (Alt (byte_but [128]%nat)
                (Seq (byte 128) (byte_but [168; 169]%nat)))).

Definition between (lo hi : string) : ascii -> bool :=
  fun c =>
    match lo, hi with
    | String a _, String b _ =>
        (nat_of_ascii a <=? nat_of_ascii c)%nat && (nat_of_ascii c <=? nat_of_ascii b)%nat
    | _, _ => false
    end.

Fixpoint one_of (cs : string) (c : ascii) : bool :=
  match cs with
  | EmptyString => false
  | String d cs' => Ascii.eqb c d || one_of cs' c
  end.

Definition upper : ascii -> bool := between "A" "Z".
Definition lower : ascii -> bool := between "a" "z".
Definition digit : ascii -> bool := between "0" "9".

Definition opt (r : t) : t := Alt Eps r.
Definition plus (r : t) : t := Seq r (Star r).

(** [r{n}] *)
Fixpoint times (n : nat) (r : t) : t :=
  match n with O => Eps | S n' => Seq r (times n' r) end.

(** [r{0,n}] *)
Fixpoint upto (n : nat) (r : t) : t :=
  match n with O => Eps | S n' => opt (Seq r (upto n' r)) end.

(** [r{lo,hi}] *)
Definition range (lo hi : nat) (r : t) : t := Seq (times lo r) (upto (hi - lo) r).

(** [/r/.test(s)] for a pattern without anchors: some substring matches. *)
Definition test (r : t) (s : string) : bool :=
  accepts (Seq (Star any) (Seq r (Star any))) s.

(** [(?=.*r)] at the start of an anchored pattern: the string has the form
    [.*r] followed by anything. *)
Definition ahead (r : t) : t := Seq (Star dot) (Seq r (Star any)).

End Regex.

(** ** JSON bodies *)

Inductive json : Type :=
| JNull
| JBool (b : bool)
| JNum (n : Z)
| JStr (s : string)
| JArr (l : list json)
| JObj (fields : list (string * json)).

Definition obj_get (k : string) (o : json) : option json :=
  match o with
  | JObj fs =>
      match find (fun kv => String.eqb (fst kv) k) fs with
      | Some kv => Some (snd kv)
      | None => None
      end
  | _ => None
  end.

(** [delete o.k] *)
Definition obj_delete (k : string) (o : json) : json :=
  match o with
  | JObj fs => JObj (filter (fun kv => negb (String.eqb (fst kv) k)) fs)
  | _ => o
  end.

Definition has_field (k : string) (o : json) : bool :=
  match obj_get k o with Some _ => true | None => false end.

(** A field whose value is [undefined] is left out by [JSON.stringify]. *)
Definition opt_field (k : string) (v : option string) : list (string * json) :=
  match v with Some s => [(k, JStr s)] | None => [] end.

(** ** Exceptions *)

Inductive exn : Type :=
| JsonWebTokenError   (* jsonwebtoken: malformed token, bad signature, no key *)
| TokenExpiredError   (* jsonwebtoken: the [exp] claim has passed *)
| SignError           (* jsonwebtoken: [sign] refused its arguments *)
| CastError           (* mongoose: the id is not an ObjectId *)
| StoreError          (* mongoose: a validator or a unique index refused the write *)
| CloudinaryError     (* cloudinary: the call failed *)
| OrderStoreError     (* mongoose: deleting the orders failed *)
| MulterError         (* multer: the upload was refused *)
| TypeError.          (* a property of [undefined] was read, or a call of what is no function *)

Inductive result (A : Type) : Type :=
| Ok (a : A)
| Throw (e : exn).
Arguments Ok {A} a.
Arguments Throw {A} e.


(** ** Documents of the user collection *)

Module User.

Record t : Type := mk {
  _id : string;
  username : string;
  phone : string;
  email : option string;
  password : string;
  fullName : string;
  role : string;
  isActive : bool;
  rememberMe : option bool;
  avatar : option string
}.

(** [doc.toObject()], which is also what [res.json(doc)] serializes. *)
Definition toObject (u : t) : json :=
  JObj ([ ("_id", JStr (_id u));
          ("username", JStr (username u));
          ("phone", JStr (phone u)) ]
        ++ opt_field "email" (email u)
        ++ [ ("password", JStr (password u));
             ("fullName", JStr (fullName u));
             ("role", JStr (role u));
             ("isActive", JBool (isActive u)) ]
        ++ match rememberMe u with Some b => [("rememberMe", JBool b)] | None => [] end
        ++ opt_field "avatar" (avatar u)).

(** A document fetched with [.select("-password")], serialized. *)
Definition without_password (u : t) : json := obj_delete "password" (toObject u).

Definition set_password (p : string) (u : t) : t :=
  mk (_id u) (username u) (phone u) (email u) p (fullName u) (role u)
     (isActive u) (rememberMe u) (avatar u).

Definition set_rememberMe (r : option bool) (u : t) : t :=
  mk (_id u) (username u) (phone u) (email u) (password u) (fullName u) (role u)
     (isActive u) r (avatar u).

End User.

(** ** Session tokens *)

Module Jwt.

(** The decoded payload: what [generateToken] puts in, and the registered
    claims [iat] and [exp] (seconds).  Only [generateToken] signs tokens, and
    it signs [{ id: user._id, username, role }], which JSON carries as
    strings: the [id] of a token that verifies is never [undefined]. *)
Record claims : Type := mkClaims {
  id : string;
  username : string;
  role : string;
  iat : Z;
  exp : option Z
}.

(** A well-formed token: its payload, the key its signature verifies
    under, and the [alg] of its header, the algorithm of that signature. *)
Record t : Type := mk {
  payload : claims;
  signed_with : string;
  alg : string
}.

End Jwt.

(** ** Third-party code

    What the sources call in packages, the schema of [UserModel], and the
    Unicode tables of the runtime. *)

Class Libraries : Type := {
  (** bcrypt: [hash(data, rounds)] with the salt it drew, and [compare]. *)
  bcrypt_hash : string -> string -> string;
  bcrypt_compare : string -> string -> bool;
  (** jsonwebtoken: the compact serialization and its parser ([None] on a
      string that is not a well-formed token). *)
  jwt_encode : Jwt.t -> string;
  jwt_decode : string -> option Jwt.t;
  (** ms: the milliseconds of a time span other than the two literals of
      [generateToken]. *)
  ms_configured : string -> option Z;
  (** validator: [isEmail(s)] and [isMobilePhone(s, "vi-VN")]. *)
  validator_isEmail : string -> bool;
  validator_isMobilePhone_viVN : string -> bool;
  (** bson: the hexadecimal form of what is read as an ObjectId besides 24
      hexadecimal digits (a string of 12 bytes, in some versions). *)
  objectid_other : string -> option string;
  (** mongoose: the schema's validators and unique indexes, asked whether a
      document may be written next to the other documents of the collection. *)
  schema_accepts : list User.t -> User.t -> bool;
  (** mongoose: the schema's defaults. *)
  default_role : string;
  default_isActive : bool;
  default_rememberMe : option bool;
  default_avatar : option string;
  (** Joi: the built-in message of an error code on a key. *)
  joi_message : string -> string -> string;
  (** The [message] of an exception. *)
  exn_message : exn -> string;
  (** The runtime's [String.prototype.toLowerCase], the case mapping of all
      of Unicode. *)
  unicode_toLowerCase : string -> string
}.

(** ** Requests and responses *)

Module Body.

(** [req.body]: the fields the handlers read. *)
Record t : Type := mk {
  username : option string;
  phone : option string;
  password : option string;
  fullName : option string;
  confirmPassword : option string;
  usernameOrPhone : option string;
  rememberMe : option bool;
  email : option string;
  images : option string;
  role : option string;
  isActive : option bool;
  currentPassword : option string;
  newPassword : option string
}.

Definition empty : t :=
  mk None None None None None None None None None None None None None.

End Body.

Module Req.

Record t : Type := mk {
  cookies_token : option string;      (* req.cookies.token *)
  authorization : option string;      (* req.headers.authorization *)
  params_id : option string;          (* req.params.id *)
  query_page : option Z;              (* parseInt(req.query.page, 10), NaN as None *)
  body : Body.t;
  file : option string;               (* req.file.path *)
  user : option Jwt.claims            (* req.user *)
}.

Definition set_user (d : Jwt.claims) (r : t) : t :=
  mk (cookies_token r) (authorization r) (params_id r) (query_page r) (body r)
     (file r) (Some d).

Definition set_params_id (i : option string) (r : t) : t :=
  mk (cookies_token r) (authorization r) i (query_page r) (body r)
     (file r) (user r).

End Req.

Record cookie_options : Type := {
  httpOnly : bool;
  secure : bool;
  sameSite : string;
  maxAge : option Z
}.

Inductive cookie_op : Type :=
| SetCookie (name value : string) (o : cookie_options)
| ClearCookie (name : string) (o : cookie_options).

Module Res.

Record t : Type := mk {
  cookies : list cookie_op;
  status : Z;
  body : json
}.

(** [res.status(n).json(b)] *)
Definition send (n : Z) (b : json) : t := mk [] n b.

(** A cookie operation made before the response was sent. *)
Definition with_cookie (c : cookie_op) (r : t) : t :=
  mk (c :: cookies r) (status r) (body r).

End Res.

(** What a middleware does with a request. *)
Inductive step : Type :=
| Next (req : Req.t)     (* it called [next()] *)
| Done (res : Res.t)     (* it sent a response *)
| Crash (e : exn).       (* it threw *)

(** The process environment. *)
Record ProcessEnv : Type := {
  JWT_SECRET : option string;
  TOKEN_EXPIRATION : option string;
  NODE_ENV : option string
}.

(** The outside world's answers while one request is handled. *)
Record World : Type := {
  Date_now : Z;                      (* milliseconds *)
  new_ObjectId : string;             (* the [_id] of a new document *)
  bcrypt_salt : string;              (* the salt [bcrypt.hash] draws *)
  randomPhone : string;              (* `034${Math.floor(1000000 + Math.random() * 9000000)}` *)
  randomPassword : string;           (* Math.random().toString(36).slice(-8) *)
  rate_limited : bool;               (* the limiter's window is full *)
  upload_refused : bool;             (* multer passes an error on instead of the request *)
  cloudinary_destroy : bool;         (* uploader.destroy succeeds *)
  cloudinary_upload : option string; (* uploader.upload: the secure_url, or it throws *)
  orders_deleteMany : bool           (* OrderModel.deleteMany succeeds *)
}.

(** The collections. *)
Record Db : Type := {
  users : list User.t;
  orders : list string               (* the [userId] of each order *)
}.

(** ** helper/authHelpers.js *)

Section AuthHelpers.

Context {L : Libraries}.

Definition isValidEmail (email : string) : bool := validator_isEmail email.

Definition isValidPhone (phone : string) : bool := validator_isMobilePhone_viVN phone.

(** The class of special characters of the fifth test; character 34 is
    the double quote, which stands between [?] and [:] in the source. *)
Definition special (c : ascii) : bool :=
  Regex.one_of "!@#$%^&*(),.?:{}|<>" c || Ascii.eqb c (ascii_of_nat 34).

Definition msg_minLength : string := "Mật khẩu phải chứa ít nhất 8 ký tự.".
Definition msg_uppercase : string := "Mật khẩu phải chứa ít nhất một chữ cái viết hoa.".
Definition msg_lowercase : string := "Mật khẩu phải chứa ít nhất một chữ cái viết thường.".
Definition msg_digit : string := "Mật khẩu phải chứa ít nhất một chữ số.".
Definition msg_special : string :=
  "Mật khẩu phải chứa ít nhất một ký tự đặc biệt (!@#$%^&*...).".

(** [errors.push(m)] when [c] holds. *)
Definition push_if (c : bool) (m : string) (errors : list string) : list string :=
  if c then errors ++ [m] else errors.

Definition isValidPassword (password : string) : list string :=
  let errors := [] in
  let minLength := 8%nat in
  let errors := push_if (Js.length password <? minLength)%nat msg_minLength errors in
  let errors := push_if (negb (Regex.test (Regex.Chr Regex.upper) password)) msg_uppercase errors in
  let errors := push_if (negb (Regex.test (Regex.Chr Regex.lower) password)) msg_lowercase errors in
  let errors := push_if (negb (Regex.test (Regex.Chr Regex.digit) password)) msg_digit errors in
  let errors := push_if (negb (Regex.test (Regex.Chr special) password)) msg_special errors in
  errors.

Definition handleError (error : exn) : Res.t :=
  Res.send 500 (JObj [ ("success", JBool false);
                       ("message", JStr "Internal server error");
                       ("error", JStr (exn_message error)) ]).

(** [bcrypt.hash(password, 10)], with the salt the call draws. *)
Definition hashPassword (salt password : string) : string := bcrypt_hash password salt.

Definition checkPassword (password hashedPassword : string) : bool :=
  bcrypt_compare password hashedPassword.

(** [ms(s)]: milliseconds. *)
Definition ms (s : string) : option Z :=
  if String.eqb s "7d" then Some (7 * 24 * 60 * 60 * 1000)%Z
  else if String.eqb s "1h" then Some (60 * 60 * 1000)%Z
  else ms_configured s.

(** [Math.floor(Date.now() / 1000)]: jsonwebtoken's clock, in seconds. *)
Definition clock (w : World) : Z := (Date_now w / 1000)%Z.

(** [jwt.sign({id, username, role}, secret, {expiresIn})]: it refuses a
    missing key and a time span [ms] does not read; [exp] is
    [Math.floor(iat + ms(expiresIn) / 1000)], and the algorithm is the
    default one, HS256. *)
Definition jwt_sign (id username role : string) (secret : option string)
    (expiresIn : string) (w : World) : result string :=
  match secret with
  | Some key =>
      if Js.truthy key then
        match ms expiresIn with
        | Some span =>
            let iat := clock w in
            Ok (jwt_encode
                  (Jwt.mk (Jwt.mkClaims id username role iat (Some (iat + span / 1000)%Z))
                          key "HS256"))
        | None => Throw SignError
        end
      else Throw SignError
  | None => Throw SignError
  end.

(** [jwt.verify(token, secret, { algorithms })]: the decoded payload, or
    the exception.  The [alg] of the header has to be one of [algorithms]. *)
Definition jwt_verify_with (algorithms : list string) (token : string)
    (secret : option string) (w : World) : result Jwt.claims :=
  match secret with
  | Some key =>
      if Js.truthy key then
        match jwt_decode token with
        | Some t =>
            if existsb (String.eqb (Jwt.alg t)) algorithms then
              if String.eqb (Jwt.signed_with t) key then
                match Jwt.exp (Jwt.payload t) with
                | Some e =>
                    if (e <=? clock w)%Z then Throw TokenExpiredError
                    else Ok (Jwt.payload t)
                | None => Ok (Jwt.payload t)
                end
              else Throw JsonWebTokenError
            else Throw JsonWebTokenError
        | None => Throw JsonWebTokenError
        end
      else Throw JsonWebTokenError
  | None => Throw JsonWebTokenError
  end.

(** [jwt.verify(token, secret)]: with a shared secret for a key, the
    algorithms allowed when none are named are the three of HMAC. *)
Definition jwt_verify (token : string) (secret : option string) (w : World)
  : result Jwt.claims :=
  jwt_verify_with ["HS256"; "HS384"; "HS512"] token secret w.

Definition expirationTime (penv : ProcessEnv) (user : User.t) : string :=
  match User.rememberMe user with
  | Some true => "7d"
  | _ => Js.or_default (TOKEN_EXPIRATION penv) "1h"
  end.

Definition generateToken (penv : ProcessEnv) (w : World) (user : User.t) : result string :=
  jwt_sign (User._id user) (User.username user) (User.role user)
           (JWT_SECRET penv) (expirationTime penv user) w.

Definition production (penv : ProcessEnv) : bool :=
  Js.strict_eq (NODE_ENV penv) (Some "production").

(** The options every [clearCookie("token", ...)] of the sources passes. *)
Definition clear_options (penv : ProcessEnv) : cookie_options :=
  {| httpOnly := true;
     secure := production penv;
     sameSite := if production penv then "None" else "Lax";
     maxAge := None |}.

(** The options every [res.cookie("token", token, ...)] of the sources passes. *)
Definition session_options (penv : ProcessEnv) : cookie_options :=
  {| httpOnly := true;
     secure := production penv;
     sameSite := if production penv then "None" else "Lax";
     maxAge := Some (7 * 24 * 60 * 60 * 1000)%Z |}.

(** [req.headers.authorization?.split(" ")[1]] *)
Definition tokenFromHeader (req : Req.t) : option string :=
  match Req.authorization req with
  | Some h => nth_error (Js.split " "%char h) 1
  | None => None
  end.

Definition msg_please_sign_in : string := "Vui lòng đăng nhập!".
Definition msg_session_invalid : string :=
  "Phiên đăng nhập không hợp lệ hoặc đã hết hạn!".

(** [tokenFromCookie || tokenFromHeader] *)
Definition token_of (req : Req.t) : option string :=
  let tokenFromCookie := Req.cookies_token req in
  Js.or_else tokenFromCookie (tokenFromHeader req).

Definition verifyToken (penv : ProcessEnv) (w : World) (req : Req.t) : step :=
  let token := token_of req in
  match token with
  | Some token' =>
      if Js.truthy token' then
        match jwt_verify token' (JWT_SECRET penv) w with
        | Ok decoded => Next (Req.set_user decoded req)
        | Throw _ =>
            Done (Res.with_cookie (ClearCookie "token" (clear_options penv))
                    (Res.send 401 (JObj [ ("success", JBool false);
                                          ("message", JStr msg_session_invalid) ])))
        end
      else
        Done (Res.send 401 (JObj [ ("success", JBool false);
                                   ("message", JStr msg_please_sign_in);
                                   ("type", JStr "error") ]))
  | None =>
      Done (Res.send 401 (JObj [ ("success", JBool false);
                                 ("message", JStr msg_please_sign_in);
                                 ("type", JStr "error") ]))
  end.

Definition msg_forbidden : string := "Bạn không có quyền thực hiện hành động này.".

Definition checkAdminOrOwner (req : Req.t) : step :=
  let id := Req.params_id req in
  match Req.user req with
  | Some user =>
      let userIdFromToken := Jwt.id user in
      let userRoleFromToken := Jwt.role user in
      if String.eqb userRoleFromToken "admin" || Js.strict_eq (Some userIdFromToken) id
      then Next req
      else Done (Res.send 403 (JObj [ ("success", JBool false);
                                      ("message", JStr msg_forbidden) ]))
  | None => Crash TypeError
  end.

End AuthHelpers.

(** ** middlewares/validate.js and middlewares/authRateLimit.js *)

(** An entry of Joi's [error.details]: the built-in message of a code on a
    key, or the message the schema sets. *)
Inductive detail : Type :=
| Builtin (key code : string)
| Custom (message : string).

(** A rule of a Joi string schema: its error code, its test and the message
    [.message()] attaches to it. *)
Record rule : Type := {
  code : string;
  holds : string -> bool;
  message : option string
}.

Section Validate.

Context {L : Libraries}.

Definition detail_message (d : detail) : string :=
  match d with
  | Builtin key code => joi_message key code
  | Custom m => m
  end.

(** [Joi.string()....required()] under [abortEarly: false]: a missing value
    and an empty string are one error each; otherwise every rule that fails
    reports. *)
Definition joi_string (key : string) (trim : bool) (rules : list rule)
    (value : option string) : list detail :=
  match value with
  | None => [Builtin key "any.required"]
  | Some raw =>
      let s := if trim then Js.trim raw else raw in
      if Js.truthy s then
        flat_map (fun r =>
                    if holds r s then []
                    else [match message r with
                          | Some m => Custom m
                          | None => Builtin key (code r)
                          end])
                 rules
      else [Builtin key "string.empty"]
  end.

Definition joi_alphanum : rule :=
  {| code := "string.alphanum";
     holds := Regex.accepts (Regex.plus (Regex.Chr (fun c =>
                Regex.lower c || Regex.upper c || Regex.digit c)));
     message := None |}.

Definition joi_min (n : nat) : rule :=
  {| code := "string.min"; holds := fun s => (n <=? Js.length s)%nat; message := None |}.

Definition joi_max (n : nat) : rule :=
  {| code := "string.max"; holds := fun s => (Js.length s <=? n)%nat; message := None |}.

Definition joi_pattern (r : Regex.t) (m : option string) : rule :=
  {| code := "string.pattern.base"; holds := Regex.accepts r; message := m |}.

(** [/^(0|\+?\d{1,3})[0-9]{9,14}$/] *)
Definition phone_pattern : Regex.t :=
  Regex.Seq
    (Regex.Alt (Regex.Chr (Ascii.eqb "0"))
               (Regex.Seq (Regex.opt (Regex.Chr (Ascii.eqb "+")))
                          (Regex.range 1 3 (Regex.Chr Regex.digit))))
    (Regex.range 9 14 (Regex.Chr Regex.digit)).

(** [/^(?=.*[A-Z])(?=.*[a-z])(?=.*\d).+$/] *)
Definition password_pattern : Regex.t :=
  Regex.Both (Regex.ahead (Regex.Chr Regex.upper))
    (Regex.Both (Regex.ahead (Regex.Chr Regex.lower))
       (Regex.Both (Regex.ahead (Regex.Chr Regex.digit))
          (Regex.plus Regex.dot))).

Definition msg_password_pattern : string :=
  "Mật khẩu phải có ít nhất 1 chữ hoa, 1 chữ thường và 1 số".
Definition msg_confirm_mismatch : string := "Mật khẩu xác nhận không khớp".
Definition msg_signup_invalid : string := "Dữ liệu đăng ký không hợp lệ".
Definition msg_signin_invalid : string := "Dữ liệu đăng nhập không hợp lệ".

(** [Joi.any().valid(Joi.ref("password")).required()] with its message for
    [any.only]. *)
Definition joi_confirm (password value : option string) : list detail :=
  match value with
  | None => [Builtin "confirmPassword" "any.required"]
  | Some _ => if Js.strict_eq value password then [] else [Custom msg_confirm_mismatch]
  end.

Definition signup_details (b : Body.t) : list detail :=
  joi_string "username" true [joi_alphanum; joi_min 3; joi_max 30] (Body.username b)
  ++ joi_string "phone" false [joi_pattern phone_pattern None] (Body.phone b)
  ++ joi_string "fullName" true [joi_min 3; joi_max 100] (Body.fullName b)
  ++ joi_string "password" false
       [joi_min 8; joi_max 64; joi_pattern password_pattern (Some msg_password_pattern)]
       (Body.password b)
  ++ joi_confirm (Body.password b) (Body.confirmPassword b).

Definition invalid (m : string) (details : list detail) : Res.t :=
  Res.send 400 (JObj [ ("success", JBool false);
                       ("message", JStr m);
                       ("details", JArr (map (fun d => JStr (detail_message d)) details)) ]).

Definition validateSignup (req : Req.t) : step :=
  match signup_details (Req.body req) with
  | [] => Next req
  | details => Done (invalid msg_signup_invalid details)
  end.

(** [Joi.alternatives().try(a, b).required()]: one [alternatives.match]
    error when neither schema accepts the value. *)
Definition joi_usernameOrPhone (value : option string) : list detail :=
  match value with
  | None => [Builtin "usernameOrPhone" "any.required"]
  | Some _ =>
      match joi_string "usernameOrPhone" true [joi_alphanum; joi_min 3; joi_max 30] value,
            joi_string "usernameOrPhone" false [joi_pattern phone_pattern None] value with
      | [], _ => []
      | _, [] => []
      | _, _ => [Builtin "usernameOrPhone" "alternatives.match"]
      end
  end.

Definition signin_details (b : Body.t) : list detail :=
  joi_usernameOrPhone (Body.usernameOrPhone b)
  ++ joi_string "password" false [joi_min 6; joi_max 64] (Body.password b).

Definition validateSignin (req : Req.t) : step :=
  match signin_details (Req.body req) with
  | [] => Next req
  | details => Done (invalid msg_signin_invalid details)
  end.

(** [authLimiter]: the limiter answers 429 with its message once the window
    is full. *)
Definition authLimiter (w : World) (req : Req.t) : step :=
  if rate_limited w then
    Done (Res.send 429
            (JObj [ ("success", JBool false);
                    ("message",
                     JStr "Quá nhiều yêu cầu đăng nhập. Vui lòng thử lại sau 1 phút.") ]))
  else Next req.

End Validate.

(** ** Handlers: collections and exceptions

    A handler body runs over the collections and may throw; what it wrote
    before throwing stays written. *)

Definition M (A : Type) : Type := Db -> Db * result A.

Definition ret {A : Type} (a : A) : M A := fun db => (db, Ok a).

Definition throw {A : Type} (e : exn) : M A := fun db => (db, Throw e).

Definition lift {A : Type} (r : result A) : M A := fun db => (db, r).

Definition bind {A B : Type} (m : M A) (k : A -> M B) : M B :=
  fun db =>
    match m db with
    | (db', Ok a) => k a db'
    | (db', Throw e) => (db', Throw e)
    end.

Notation "x <- m ;; k" := (bind m (fun x => k))
  (at level 61, m at next level, right associativity).
Notation "m ;;; k" := (bind m (fun _ => k))
  (at level 61, right associativity).

(** [try { body } catch (error) { handler }] around a whole handler. *)
Definition try_catch (body : M Res.t) (handler : exn -> Res.t) (db : Db) : Db * Res.t :=
  match body db with
  | (db', Ok res) => (db', res)
  | (db', Throw e) => (db', handler e)
  end.

(** ** Mongoose *)

Section Mongoose.

Context {L : Libraries}.

(** [/^[0-9a-fA-F]{24}$/] *)
Definition hex24 : Regex.t :=
  Regex.times 24 (Regex.Chr (fun c =>
    Regex.digit c || Regex.between "a" "f" c || Regex.between "A" "F" c)).

(** The ObjectId a string is cast to, in its hexadecimal form. *)
Definition ObjectId_cast (s : string) : option string :=
  if Regex.accepts hex24 s then Some (Js.toLowerCase s) else objectid_other s.

Definition ObjectId_isValid (s : string) : bool :=
  match ObjectId_cast s with Some _ => true | None => false end.

Definition has_id (oid : string) (u : User.t) : bool := String.eqb (User._id u) oid.

Definition set_users (l : list User.t) (db : Db) : Db :=
  {| users := l; orders := orders db |}.

(** [UserModel.findOne(filter)]: the first document the filter selects. *)
Definition findOne (filter : User.t -> bool) : M (option User.t) :=
  fun db => (db, Ok (find filter (users db))).

(** [UserModel.findById(id)]: a [CastError] when [id] is no ObjectId. *)
Definition findById (id : string) : M (option User.t) :=
  fun db =>
    match ObjectId_cast id with
    | Some oid => (db, Ok (find (has_id oid) (users db)))
    | None => (db, Throw CastError)
    end.

Definition others (oid : string) (l : list User.t) : list User.t :=
  filter (fun u => negb (has_id oid u)) l.

Definition replace (u : User.t) (l : list User.t) : list User.t :=
  map (fun v => if has_id (User._id u) v then u else v) l.

(** [doc.save()] on a new document. *)
Definition insert (u : User.t) : M unit :=
  fun db =>
    if existsb (has_id (User._id u)) (users db) then (db, Throw StoreError)
    else if schema_accepts (users db) u then (set_users (users db ++ [u]) db, Ok tt)
    else (db, Throw StoreError).

(** [doc.save()] on a document that was fetched and changed. *)
Definition save (u : User.t) : M unit :=
  fun db =>
    if schema_accepts (others (User._id u) (users db)) u
    then (set_users (replace u (users db)) db, Ok tt)
    else (db, Throw StoreError).

(** [UserModel.findByIdAndUpdate(id, data, {new: true, runValidators: true})],
    with the update as a function of the stored document. *)
Definition findByIdAndUpdate (id : string) (update : User.t -> User.t)
  : M (option User.t) :=
  fun db =>
    match ObjectId_cast id with
    | Some oid =>
        match find (has_id oid) (users db) with
        | Some u =>
            let u' := update u in
            if schema_accepts (others oid (users db)) u'
            then (set_users (replace u' (users db)) db, Ok (Some u'))
            else (db, Throw StoreError)
        | None => (db, Ok None)
        end
    | None => (db, Throw CastError)
    end.

(** [UserModel.findByIdAndDelete(id)] *)
Definition findByIdAndDelete (id : string) : M unit :=
  fun db =>
    match ObjectId_cast id with
    | Some oid => (set_users (others oid (users db)) db, Ok tt)
    | None => (db, Throw CastError)
    end.

(** [UserModel.countDocuments()] *)
Definition countDocuments : M Z :=
  fun db => (db, Ok (Z.of_nat (List.length (users db)))).

(** [UserModel.find().select("-password").skip(n).limit(m).exec()] *)
Definition find_page (n m : Z) : M (list User.t) :=
  fun db => (db, Ok (firstn (Z.to_nat m) (skipn (Z.to_nat n) (users db)))).

(** [OrderModel.find({ userId: id })] *)
Definition orders_of (id : string) : M (list string) :=
  fun db =>
    match ObjectId_cast id with
    | Some oid => (db, Ok (filter (String.eqb oid) (orders db)))
    | None => (db, Throw CastError)
    end.

(** [OrderModel.deleteMany({ userId: id })] *)
Definition deleteMany_orders (w : World) (id : string) : M unit :=
  fun db =>
    match ObjectId_cast id with
    | Some oid =>
        if orders_deleteMany w
        then ({| users := users db;
                 orders := filter (fun o => negb (String.eqb oid o)) (orders db) |}, Ok tt)
        else (db, Throw OrderStoreError)
    | None => (db, Throw CastError)
    end.

(** [cloudinary.uploader.destroy(publicId)] *)
Definition cloudinary_uploader_destroy (w : World) : M unit :=
  fun db => if cloudinary_destroy w then (db, Ok tt) else (db, Throw CloudinaryError).

End Mongoose.

(** ** The user router *)

Section UserRoutes.

Context {L : Libraries}.

Variable penv : ProcessEnv.
Variable w : World.

(** [{ success: false, message: m }] *)
Definition failure (m : string) : json :=
  JObj [ ("success", JBool false); ("message", JStr m) ].

(** [{ success: false, message: m, type: "error" }] *)
Definition failure_typed (m : string) : json :=
  JObj [ ("success", JBool false); ("message", JStr m); ("type", JStr "error") ].

(** [{ success: false, message: m, error: error.message }] *)
Definition failure_with (m : string) (error : exn) : json :=
  JObj [ ("success", JBool false); ("message", JStr m);
         ("error", JStr (exn_message error)) ].

(** [res.cookie("token", token, {...})] before the response is sent. *)
Definition set_session_cookie (token : string) (res : Res.t) : Res.t :=
  Res.with_cookie (SetCookie "token" token (session_options penv)) res.

(** [const { id } = req.params] on a route whose path has [:id]. *)
Definition param_id (req : Req.t) : M string :=
  match Req.params_id req with
  | Some id => ret id
  | None => throw TypeError
  end.

(** GET /users *)
Definition get_users (req : Req.t) : Db -> Db * Res.t :=
  try_catch
    (let page := match Req.query_page req with
                 | Some 0%Z | None => 1%Z
                 | Some n => n
                 end in
     let perPage := 12%Z in
     if (page <? 1)%Z then ret (Res.send 400 (failure "Invalid page number"))
     else
       totalUsers <- countDocuments ;;
       let totalPages := ((totalUsers + perPage - 1) / perPage)%Z in
       if (totalPages <? page)%Z then ret (Res.send 404 (failure "Page not found"))
       else
         userList <- find_page ((page - 1) * perPage) perPage ;;
         if (List.length userList =? 0)%nat then
           ret (Res.send 200 (JObj [ ("success", JBool true);
                                     ("message", JStr "No users available") ]))
         else
           ret (Res.send 200 (JObj [ ("success", JBool true);
                                     ("users", JArr (map User.without_password userList));
                                     ("totalPages", JNum totalPages);
                                     ("currentPage", JNum page);
                                     ("totalItems", JNum totalUsers);
                                     ("perPage", JNum perPage) ])))
    (fun error => Res.send 500 (failure_with "An error occurred while fetching users" error)).

(** GET /:id *)
Definition get_user (req : Req.t) : Db -> Db * Res.t :=
  try_catch
    (id <- param_id req ;;
     if negb (Regex.accepts hex24 id) then ret (Res.send 400 (failure "ID không hợp lệ."))
     else
       user <- findById id ;;
       match user with
       | None => ret (Res.send 404 (failure "Không tìm thấy người dùng."))
       | Some user =>
           ret (Res.send 200
                  (JObj [ ("success", JBool true);
                          ("message", JStr "Lấy thông tin người dùng thành công.");
                          ("user", User.without_password user) ]))
       end)
    handleError.

(** DELETE /:id *)
Definition delete_user (req : Req.t) : Db -> Db * Res.t :=
  try_catch
    (id <- param_id req ;;
     user <- findById id ;;
     match user with
     | None => ret (Res.send 404 (failure "Người dùng không tồn tại."))
     | Some user =>
         (if Js.truthy_opt (User.avatar user) then cloudinary_uploader_destroy w
          else ret tt) ;;;
         findByIdAndDelete id ;;;
         ret (Res.send 200 (JObj [ ("success", JBool true);
                                   ("message", JStr "Người dùng đã được xóa thành công.") ]))
     end)
    (fun error => Res.send 500 (failure_with "Internal server error." error)).

(** [checkRequiredFields] of the signup handler. *)
Fixpoint checkRequiredFields (fields : list (string * option string)) : option string :=
  match fields with
  | [] => None
  | (key, value) :: rest =>
      if negb (Js.truthy_opt value) then Some (key ++ " là bắt buộc.")
      else checkRequiredFields rest
  end.

(** A field of the body that was checked to be there. *)
Definition the (v : option string) : string :=
  match v with Some s => s | None => "" end.

(** [new UserModel({ username, phone, password, fullName, email })] *)
Definition new_signup_user (username phone password fullName email : string) : User.t :=
  User.mk (new_ObjectId w) username phone (Some email) password fullName
          default_role default_isActive default_rememberMe default_avatar.

(** POST /signup, after its middlewares *)
Definition post_signup (req : Req.t) : Db -> Db * Res.t :=
  try_catch
    (let b := Req.body req in
     let missingField :=
       checkRequiredFields [ ("username", Body.username b);
                             ("phone", Body.phone b);
                             ("password", Body.password b);
                             ("fullName", Body.fullName b);
                             ("confirmPassword", Body.confirmPassword b) ] in
     match missingField with
     | Some m => ret (Res.send 400 (failure_typed m))
     | None =>
         let username := the (Body.username b) in
         let phone := the (Body.phone b) in
         let password := the (Body.password b) in
         let fullName := the (Body.fullName b) in
         if negb (Js.strict_eq (Body.password b) (Body.confirmPassword b)) then
           ret (Res.send 400 (failure_typed "Mật khẩu và xác nhận mật khẩu không khớp."))
         else if negb (isValidPhone phone) then
           ret (Res.send 400 (failure_typed "Số điện thoại không hợp lệ."))
         else
           let passwordErrors := isValidPassword password in
           if (0 <? List.length passwordErrors)%nat then
             ret (Res.send 400 (JObj [ ("success", JBool false);
                                       ("message", JStr "Mật khẩu không hợp lệ.");
                                       ("errors", JArr (map JStr passwordErrors));
                                       ("type", JStr "error") ]))
           else
             existingUser <- findOne (fun u => String.eqb (User.username u) username) ;;
             match existingUser with
             | Some _ => ret (Res.send 400 (failure_typed "Tên người dùng đã tồn tại."))
             | None =>
                 existingPhone <- findOne (fun u => String.eqb (User.username u) username
                                                    || String.eqb (User.phone u) phone) ;;
                 match existingPhone with
                 | Some _ => ret (Res.send 400 (failure_typed "Số điện thoại đã tồn tại."))
                 | None =>
                     let hashedPassword := hashPassword (bcrypt_salt w) password in
                     let tempEmail := "temp_" ++ Js.of_int (Date_now w) ++ "@example.com" in
                     let newUser :=
                       new_signup_user username phone hashedPassword fullName tempEmail in
                     insert newUser ;;;
                     let sanitizedUser := obj_delete "password" (User.toObject newUser) in
                     token <- lift (generateToken penv w newUser) ;;
                     ret (set_session_cookie token
                            (Res.send 201 (JObj [ ("message", JStr "Đăng ký thành công");
                                                  ("user", sanitizedUser);
                                                  ("token", JStr token) ])))
                 end
             end
     end)
    handleError.

Definition msg_credentials : string :=
  "Tên đăng nhập, số điện thoại hoặc mật khẩu không đúng.".

(** [/^[0-9]{10,15}$/] *)
Definition digits_10_15 : Regex.t := Regex.range 10 15 (Regex.Chr Regex.digit).

(** [UserModel.findOne(isPhone ? { phone } : { username })] *)
Definition find_by_usernameOrPhone (usernameOrPhone : string) : M (option User.t) :=
  let isPhone := Regex.accepts digits_10_15 usernameOrPhone in
  findOne (fun u => if isPhone then String.eqb (User.phone u) usernameOrPhone
                    else String.eqb (User.username u) usernameOrPhone).

(** POST /signin, after its middlewares *)
Definition post_signin (req : Req.t) : Db -> Db * Res.t :=
  try_catch
    (let b := Req.body req in
     if negb (Js.truthy_opt (Body.usernameOrPhone b)) then
       ret (Res.send 400 (failure "Tên đăng nhập hoặc số điện thoại là bắt buộc."))
     else if negb (Js.truthy_opt (Body.password b)) then
       ret (Res.send 400 (failure "Mật khẩu là bắt buộc."))
     else
       let usernameOrPhone := the (Body.usernameOrPhone b) in
       let password := the (Body.password b) in
       user <- find_by_usernameOrPhone usernameOrPhone ;;
       match user with
       | None => ret (Res.send 400 (failure msg_credentials))
       | Some user =>
           let isMatch := checkPassword password (User.password user) in
           if negb isMatch then ret (Res.send 400 (failure msg_credentials))
           else if negb (User.isActive user) then
             ret (Res.send 403 (failure "Tài khoản của bạn đã bị vô hiệu hóa."))
           else
             let sanitizedUser := obj_delete "password" (User.toObject user) in
             token <- lift (generateToken penv w user) ;;
             ret (set_session_cookie token
                    (Res.send 200 (JObj [ ("success", JBool true);
                                          ("message", JStr "Đăng nhập thành công.");
                                          ("user", sanitizedUser);
                                          ("token", JStr token) ])))
       end)
    handleError.

(** POST /authentication/signin *)
Definition post_admin_signin (req : Req.t) : Db -> Db * Res.t :=
  try_catch
    (let b := Req.body req in
     if negb (Js.truthy_opt (Body.usernameOrPhone b)) then
       ret (Res.send 400 (failure "Tên đăng nhập hoặc số điện thoại là bắt buộc."))
     else if negb (Js.truthy_opt (Body.password b)) then
       ret (Res.send 400 (failure "Mật khẩu là bắt buộc."))
     else
       let usernameOrPhone := the (Body.usernameOrPhone b) in
       let password := the (Body.password b) in
       user <- find_by_usernameOrPhone usernameOrPhone ;;
       match user with
       | None => ret (Res.send 400 (failure msg_credentials))
       | Some user =>
           let isMatch := checkPassword password (User.password user) in
           if negb isMatch then ret (Res.send 400 (failure msg_credentials))
           else if negb (User.isActive user) then
             ret (Res.send 403 (failure "Tài khoản của bạn đã bị vô hiệu hóa."))
           else if negb (String.eqb (User.role user) "admin") then
             ret (Res.send 403 (failure "Bạn không có quyền truy cập (admin only)."))
           else
             let user := User.set_rememberMe (Body.rememberMe b) user in
             save user ;;;
             token <- lift (generateToken penv w user) ;;
             let sanitizedUser := obj_delete "password" (User.toObject user) in
             ret (set_session_cookie token
                    (Res.send 200 (JObj [ ("success", JBool true);
                                          ("message", JStr "Đăng nhập thành công.");
                                          ("user", sanitizedUser);
                                          ("token", JStr token) ])))
       end)
    handleError.

(** [new UserModel({ username, fullName, email, phone, password, avatar,
    role: "user", isActive: true })] of the federated sign-in. *)
Definition new_google_user (fullName : string) (email images : option string) : User.t :=
  let username := unicode_toLowerCase (Js.join (Js.split " "%char fullName)) in
  User.mk (new_ObjectId w) ("temp_" ++ username) (randomPhone w) email (randomPassword w)
          fullName "user" true default_rememberMe images.

(** POST /authWithGoogle.  [findOne({ email })] with no email in the body
    selects the documents that have none.  [isNew] is read after [save()],
    which has reset it, and is false on a fetched document. *)
Definition post_authWithGoogle (req : Req.t) : Db -> Db * Res.t :=
  try_catch
    (let b := Req.body req in
     found <- findOne (fun u => Js.strict_eq (User.email u) (Body.email b)) ;;
     existingUser <-
       match found with
       | Some u => ret u
       | None =>
           match Body.fullName b with
           | None => throw TypeError
           | Some fullName =>
               let u := new_google_user fullName (Body.email b) (Body.images b) in
               insert u ;;; ret u
           end
       end ;;
     token <- lift (generateToken penv w existingUser) ;;
     let isNew := false in
     ret (set_session_cookie token
            (Res.send 200
               (JObj [ ("success", JBool true);
                       ("message", JStr (if isNew then "Đăng ký thành công."
                                         else "Đăng nhập thành công."));
                       ("user", User.toObject existingUser) ]))))
    (fun _ => Res.send 500 (failure "Có lỗi xảy ra. Vui lòng thử lại sau.")).

(** [updatedData] of the profile update, applied to the stored document. *)
Definition updatedData (b : Body.t) (updatedAvatar hashedPassword : option string)
    (user : User.t) : User.t :=
  User.mk (User._id user)
          (Js.or_default (Body.username b) (User.username user))
          (Js.or_default (Body.phone b) (User.phone user))
          (Js.or_else (Body.email b) (User.email user))
          (if Js.truthy_opt hashedPassword then the hashedPassword else User.password user)
          (Js.or_default (Body.fullName b) (User.fullName user))
          (Js.or_default (Body.role b) (User.role user))
          (match Body.isActive b with None => User.isActive user | Some a => a end)
          (User.rememberMe user)
          updatedAvatar.

(** PUT /:id, after its middlewares *)
Definition put_user (req : Req.t) : Db -> Db * Res.t :=
  try_catch
    (id <- param_id req ;;
     let b := Req.body req in
     if negb (ObjectId_isValid id) then ret (Res.send 400 (failure "ID không hợp lệ."))
     else
       user <- findById id ;;
       match user with
       | None => ret (Res.send 404 (failure "Không tìm thấy người dùng."))
       | Some user =>
           taken <-
             (if Js.truthy_opt (Body.username b)
                 && negb (String.eqb (the (Body.username b)) (User.username user))
              then findOne (fun u => String.eqb (User.username u) (the (Body.username b)))
              else ret None) ;;
           match taken with
           | Some _ =>
               ret (Res.send 400 (failure "Username đã tồn tại. Vui lòng chọn tên khác."))
           | None =>
               taken <-
                 (if Js.truthy_opt (Body.phone b)
                     && negb (String.eqb (the (Body.phone b)) (User.phone user))
                  then findOne (fun u => String.eqb (User.phone u) (the (Body.phone b)))
                  else ret None) ;;
               if match taken with
                  | Some existingUser => negb (String.eqb (User._id existingUser) id)
                  | None => false
                  end
               then ret (Res.send 400
                           (failure "Số điện thoại đã tồn tại. Vui lòng chọn số khác."))
               else if Js.truthy_opt (Body.email b) && negb (isValidEmail (the (Body.email b)))
               then ret (Res.send 400 (failure "Email không hợp lệ."))
               else if Js.truthy_opt (Body.phone b) && negb (isValidPhone (the (Body.phone b)))
               then ret (Res.send 400 (failure "Số điện thoại không hợp lệ."))
               else if Js.truthy_opt (Body.password b)
                       && negb (Js.truthy_array (isValidPassword (the (Body.password b))))
               then ret (Res.send 400 (failure "Mật khẩu không hợp lệ."))
               else
                 let hashedPassword :=
                   if Js.truthy_opt (Body.password b)
                   then Some (hashPassword (bcrypt_salt w) (the (Body.password b)))
                   else None in
                 let finish (updatedAvatar : option string) : M Res.t :=
                   updatedUser <-
                     findByIdAndUpdate id (updatedData b updatedAvatar hashedPassword) ;;
                   ret (Res.send 200
                          (JObj [ ("success", JBool true);
                                  ("message",
                                   JStr "Cập nhật thông tin người dùng thành công.");
                                  ("user", match updatedUser with
                                           | Some u => User.without_password u
                                           | None => JNull
                                           end) ])) in
                 match Req.file req with
                 | None => finish (User.avatar user)
                 | Some _ =>
                     match cloudinary_upload w with
                     | Some secure_url => finish (Some secure_url)
                     | None =>
                         ret (Res.send 500 (failure_with "Không thể tải lên ảnh avatar."
                                                         CloudinaryError))
                     end
                 end
           end
       end)
    handleError.

(** PUT /change-password/:id, after its middlewares *)
Definition put_change_password (req : Req.t) : Db -> Db * Res.t :=
  try_catch
    (id <- param_id req ;;
     let b := Req.body req in
     if negb (Js.truthy_opt (Body.currentPassword b)) then
       ret (Res.send 400 (failure "Mật khẩu hiện tại là bắt buộc."))
     else if negb (Js.truthy_opt (Body.newPassword b)) then
       ret (Res.send 400 (failure "Mật khẩu mới là bắt buộc."))
     else
       let currentPassword := the (Body.currentPassword b) in
       let newPassword := the (Body.newPassword b) in
       user <- findById id ;;
       match user with
       | None => ret (Res.send 404 (failure "Không tìm thấy người dùng."))
       | Some user =>
           let isCurrentPasswordCorrect :=
             bcrypt_compare currentPassword (User.password user) in
           if negb isCurrentPasswordCorrect then
             ret (Res.send 400 (failure "Mật khẩu hiện tại không đúng."))
           else if negb (Js.truthy_array (isValidPassword newPassword)) then
             ret (Res.send 400 (failure "Mật khẩu mới không hợp lệ."))
           else
             let hashedNewPassword := bcrypt_hash newPassword (bcrypt_salt w) in
             save (User.set_password hashedNewPassword user) ;;;
             ret (Res.send 200
                    (JObj [ ("success", JBool true);
                            ("message", JStr "Mật khẩu đã được thay đổi thành công.") ]))
       end)
    (fun _ => Res.send 500 (failure "Lỗi khi thay đổi mật khẩu.")).

(** [try { step } catch (e) { return res... }] inside a handler. *)
Definition attempt (m : M unit) (on_error : Res.t) (k : M Res.t) : M Res.t :=
  fun db =>
    match m db with
    | (db', Ok _) => k db'
    | (db', Throw _) => (db', Ok on_error)
    end.

(** DELETE /delete-user/:id, after its middlewares *)
Definition delete_user_and_orders (req : Req.t) : Db -> Db * Res.t :=
  try_catch
    (id <- param_id req ;;
     user <- findById id ;;
     match user with
     | None => ret (Res.send 404 (failure "Người dùng không tồn tại."))
     | Some user =>
         userOrders <- orders_of id ;;
         attempt
           (if (0 <? List.length userOrders)%nat then deleteMany_orders w id else ret tt)
           (Res.send 500 (failure "Không thể xóa các đơn hàng liên quan đến người dùng."))
           (attempt
              (if Js.truthy_opt (User.avatar user) then cloudinary_uploader_destroy w
               else ret tt)
              (Res.send 500 (failure "Không thể xóa ảnh avatar trên Cloudinary."))
              (findByIdAndDelete id ;;;
               ret (Res.send 200
                      (JObj [ ("success", JBool true);
                              ("message",
                               JStr "Người dùng và các đơn hàng liên quan đã được xóa thành công.")
                            ]))))
     end)
    (fun _ => Res.send 500 (failure "Đã xảy ra lỗi khi xóa người dùng.")).

(** GET /me, after its middleware *)
Definition get_me (req : Req.t) : Db -> Db * Res.t :=
  try_catch
    (match Req.user req with
     | None => throw TypeError
     | Some claims =>
         user <- findById (Jwt.id claims) ;;
         match user with
         | None => ret (Res.send 404 (failure "User not found"))
         | Some user =>
             ret (Res.send 200 (JObj [ ("success", JBool true);
                                       ("user", User.without_password user) ]))
         end
     end)
    (fun _ => Res.send 500 (failure "Server error")).

(** POST /signout *)
Definition post_signout (req : Req.t) (db : Db) : Db * Res.t :=
  (db, Res.with_cookie (ClearCookie "token" (clear_options penv))
         (Res.send 200 (JObj [ ("success", JBool true);
                               ("message", JStr "Đăng xuất thành công") ]))).

(** *** The router

    Routes are tried in the order of their declaration; a path is the list
    of its segments.  Route paths match without regard to case, and [:id]
    matches one segment. *)

Inductive method : Type := GET | POST | PUT | DELETE.

(** What the client gets. *)
Inductive reply : Type :=
| Sent (res : Res.t)
| Hung (e : exn)      (* a middleware threw and nothing was sent *)
| Failed (e : exn)    (* a middleware passed an error on to the application *)
| NoRoute.            (* the router passed the request on *)

(** The middlewares of a route, then its handler. *)
Fixpoint run (middlewares : list (Req.t -> step)) (handler : Req.t -> Db -> Db * Res.t)
    (req : Req.t) (db : Db) : Db * reply :=
  match middlewares with
  | [] => let (db', res) := handler req db in (db', Sent res)
  | m :: rest =>
      match m req with
      | Next req' => run rest handler req' db
      | Done res => (db, Sent res)
      | Crash e => (db, Hung e)
      end
  end.

(** [upload.single("avatar")].  [middlewares/multer] is not among the
    sources, so what it makes of a request is a parameter: it calls
    [next()], the file, if any, being [req.file], or it refuses the upload
    and calls [next(err)], which leaves the router for the error handler of
    the application. *)
Definition upload_single (req : Req.t) : result Req.t :=
  if upload_refused w then Throw MulterError else Ok req.

Definition literal (text segment : string) : bool :=
  String.eqb (Js.toLowerCase segment) (Js.toLowerCase text).

Definition with_id (id : string) (req : Req.t) : Req.t := Req.set_params_id (Some id) req.
Definition no_params (req : Req.t) : Req.t := Req.set_params_id None req.

Definition router (m : method) (path : list string) (req : Req.t) (db : Db)
  : Db * reply :=
  let protected := [verifyToken penv w; checkAdminOrOwner] in
  match m, path with
  | GET, [s] =>
      if literal "users" s then run protected get_users (no_params req) db
      else if Js.truthy s then run [] get_user (with_id s req) db
      else if literal "me" s then       (* declared after "/:id", which answers first *)
        run [verifyToken penv w] get_me (no_params req) db
      else (db, NoRoute)
  | DELETE, [s] =>
      if Js.truthy s then run protected delete_user (with_id s req) db
      else (db, NoRoute)
  | POST, [s] =>
      if literal "signup" s then
        run [authLimiter w; validateSignup] post_signup (no_params req) db
      else if literal "signin" s then
        run [authLimiter w; validateSignin] post_signin (no_params req) db
      else if literal "authWithGoogle" s then run [] post_authWithGoogle (no_params req) db
      else if literal "signout" s then run [] post_signout (no_params req) db
      else (db, NoRoute)
  | POST, [a; s] =>
      if literal "authentication" a && literal "signin" s
      then run [] post_admin_signin (no_params req) db
      else (db, NoRoute)
  | PUT, [s] =>
      if Js.truthy s then
        match upload_single (with_id s req) with
        | Ok req' => run protected put_user req' db
        | Throw e => (db, Failed e)
        end
      else (db, NoRoute)
  | PUT, [a; s] =>
      if literal "change-password" a && Js.truthy s
      then run protected put_change_password (with_id s req) db
      else (db, NoRoute)
  | DELETE, [a; s] =>
      if literal "delete-user" a && Js.truthy s
      then run protected delete_user_and_orders (with_id s req) db
      else (db, NoRoute)
  | _, _ => (db, NoRoute)
  end.

End UserRoutes.

(** A request as it arrives: nothing has set [req.user] or [req.params]. *)
Definition incoming (cookie authorization : option string) (b : Body.t) : Req.t :=
  Req.mk cookie authorization None None b None None.

(** ** Sequences of requests *)

Record call : Type := {
  call_world : World;
  call_method : method;
  call_path : list string;
  call_req : Req.t
}.

Section Serving.

Context {L : Libraries}.
Variable penv : ProcessEnv.

(** The collections after the router has served the calls, one after the
    other. *)
Fixpoint serve (calls : list call) (db : Db) : Db :=
  match calls with
  | [] => db
  | c :: rest =>
      serve rest (fst (router penv (call_world c) (call_method c) (call_path c)
                              (call_req c) db))
  end.

(** The claims [verifyToken] attaches to a request, if it lets it through. *)
Definition requester (w : World) (req : Req.t) : option Jwt.claims :=
  match verifyToken penv w req with
  | Next req' => Req.user req'
  | _ => None
  end.

End Serving.

(** The strings a rejection lists: the entries of the arrays [errors] and
    [details] of its body. *)
Definition strings_of (j : option json) : list string :=
  match j with
  | Some (JArr l) =>
      flat_map (fun e => match e with JStr s => [s] | _ => [] end) l
  | _ => []
  end.

Definition listed (res : Res.t) : list string :=
  strings_of (obj_get "errors" (Res.body res))
  ++ strings_of (obj_get "details" (Res.body res)).

(** ** Vocabulary of the statements *)

(** The two rejections of [verifyToken]. *)
Definition please_sign_in : Res.t :=
  Res.send 401 (JObj [ ("success", JBool false);
                       ("message", JStr msg_please_sign_in);
                       ("type", JStr "error") ]).

Definition session_rejected (penv : ProcessEnv) : Res.t :=
  Res.with_cookie (ClearCookie "token" (clear_options penv))
    (Res.send 401 (JObj [ ("success", JBool false);
                          ("message", JStr msg_session_invalid) ])).

(** What the validation of a sign-up lists for the fields other than the
    password and its confirmation. *)
Definition other_details (b : Body.t) : list detail :=
  joi_string "username" true [joi_alphanum; joi_min 3; joi_max 30] (Body.username b)
  ++ joi_string "phone" false [joi_pattern phone_pattern None] (Body.phone b)
  ++ joi_string "fullName" true [joi_min 3; joi_max 100] (Body.fullName b).

(** The middleware passed the request on with [claims] for its [req.user]
    and nothing else changed. *)
Definition attached (claims : Jwt.claims) (req r : Req.t) : Prop :=
  Req.user r = Some claims
  /\ Req.cookies_token r = Req.cookies_token req
  /\ Req.authorization r = Req.authorization req
  /\ Req.params_id r = Req.params_id req
  /\ Req.query_page r = Req.query_page req
  /\ Req.body r = Req.body req
  /\ Req.file r = Req.file req.

(** The token [generateToken] builds for a user, with a given life span in
    seconds, before it is serialized. *)
Definition issued (w : World) (user : User.t) (key : string) (seconds : Z) : Jwt.t :=
  Jwt.mk (Jwt.mkClaims (User._id user) (User.username user) (User.role user)
                       (clock w) (Some (clock w + seconds)%Z))
         key "HS256".

(** What a request did to the user collection: nothing, or one document was
    added under the id [fresh], which was not in use, or the document of one
    id was replaced by one that [allowed] admits, or the documents of a
    [removable] id were deleted. *)
Inductive change (fresh : string) (allowed : User.t -> User.t -> Prop)
    (removable : string -> Prop) (l : list User.t) : list User.t -> Prop :=
| Same : change fresh allowed removable l l
| Added x :
    User._id x = fresh -> existsb (has_id (User._id x)) l = false ->
    change fresh allowed removable l (l ++ [x])
| Updated user x :
    In user l -> User._id x = User._id user -> allowed user x ->
    change fresh allowed removable l (replace x l)
| Removed oid : removable oid -> change fresh allowed removable l (others oid l).

Definition keeping_role (user x : User.t) : Prop := User.role x = User.role user.

Definition never (oid : string) : Prop := False.

(** Every document under the id of [u] has the role of [u]. *)
Definition role_kept (u : User.t) (db' : Db) : Prop :=
  forall u', In u' (users db') -> User._id u' = User._id u -> User.role u' = User.role u.

(** The ObjectId that the [:id] of a route denotes. *)
Definition targets {L : Libraries} (id oid : string) : Prop := ObjectId_cast id = Some oid.

(** The request carries a token that verifies, of an admin or of the
    identity [oid] itself. *)
Definition may_touch {L : Libraries} (penv : ProcessEnv) (w : World) (req : Req.t)
    (oid : string) : Prop :=
  exists claims,
    requester penv w req = Some claims
    /\ (Jwt.role claims = "admin" \/ ObjectId_cast (Jwt.id claims) = Some oid).

(** The route of the profile update, PUT /:id. *)
Definition profile_update (m : method) (path : list string) : bool :=
  match m, path with
  | PUT, [s] => Js.truthy s
  | _, _ => false
  end.

(** The call is a profile update with the verified token of an admin or of
    the identity [oid] itself. *)
Definition updates_profile {L : Libraries} (penv : ProcessEnv) (oid : string) (c : call)
  : Prop :=
  profile_update (call_method c) (call_path c) = true
  /\ may_touch penv (call_world c) (call_req c) oid.

(** A body that holds a [role] and nothing else. *)
Definition role_only (role : string) : Body.t :=
  Body.mk None None None None None None None None None (Some role) None None None.

(** ** A concrete installation

    Stand-ins for the packages, a configuration and a few documents, on
    which the statements below are exercised. *)

Module Sample.

Definition alice_id : string := "64b7f3a2c9e1d4f5a6b7c8d9".
Definition bob_id : string := "64b7f3a2c9e1d4f5a6b7c8da".

Definition digest (salt data : string) : string := "$2b$10$" ++ salt ++ "/" ++ data.

(** The packages; [token] is what the one serialized token decodes to. *)
Definition libraries (token : Jwt.t) : Libraries := {|
  bcrypt_hash := fun data salt => digest salt data;
  bcrypt_compare := fun data hash => String.eqb hash (digest "salt" data);
  jwt_encode := fun _ => "header.payload.signature";
  jwt_decode := fun s =>
    if String.eqb s "header.payload.signature" then Some token else None;
  ms_configured := fun _ => None;
  validator_isEmail := fun _ => true;
  validator_isMobilePhone_viVN := fun s => Regex.accepts (Regex.times 10 (Regex.Chr Regex.digit)) s;
  objectid_other := fun _ => None;
  schema_accepts := fun _ _ => true;
  default_role := "user";
  default_isActive := true;
  default_rememberMe := None;
  default_avatar := None;
  joi_message := fun key code => key ++ ": " ++ code;
  exn_message := fun _ => "error";
  unicode_toLowerCase := Js.toLowerCase
|}.

Definition penv : ProcessEnv :=
  {| JWT_SECRET := Some "secret"; TOKEN_EXPIRATION := None; NODE_ENV := None |}.

(** The world at a time given in milliseconds. *)
Definition world (now : Z) : World :=
  {| Date_now := now;
     new_ObjectId := "64b7f3a2c9e1d4f5a6b7c8db";
     bcrypt_salt := "salt";
     randomPhone := "0341234567";
     randomPassword := "k3j2h1g0";
     rate_limited := false;
     upload_refused := false;
     cloudinary_destroy := true;
     cloudinary_upload := None;
     orders_deleteMany := true |}.

Definition alice : User.t :=
  User.mk alice_id "alice" "0912345678" (Some "alice@example.com")
          (digest "salt" "Alice#2024") "Alice Nguyen" "user" true None None.

Definition bob : User.t :=
  User.mk bob_id "bob" "0987654321" (Some "bob@example.com")
          (digest "salt" "Bob#2024x") "Bob Tran" "user" true None None.

Definition db : Db := {| users := [alice; bob]; orders := [] |}.

(** Alice's session token, issued at second 1000 for one hour. *)
Definition alice_claims : Jwt.claims := Jwt.mkClaims alice_id "alice" "user" 1000 (Some 4600%Z).
Definition alice_token : Jwt.t := Jwt.mk alice_claims "secret" "HS256".

(** The token [generateToken] issues at second 1000 for Alice once she has
    asked to be remembered. *)
Definition remembered : User.t := User.set_rememberMe (Some true) alice.
Definition remembered_token : Jwt.t :=
  Jwt.mk (Jwt.mkClaims alice_id "alice" "user" 1000 (Some 605800%Z)) "secret" "HS256".

(** Bob's session token. *)
Definition bob_claims : Jwt.claims := Jwt.mkClaims bob_id "bob" "user" 1000 (Some 4600%Z).
Definition bob_token : Jwt.t := Jwt.mk bob_claims "secret" "HS256".

Definition with_cookie (b : Body.t) : Req.t :=
  incoming (Some "header.payload.signature") None b.

(** A body that asks for the role [admin]. *)
Definition promote : Body.t :=
  Body.mk None None None None None None None None None (Some "admin") None None None.

End Sample.

(** ** More of the sources

    The patterns read as sets of strings, the two authenticators of
    [helper/authHelpers.js] that no route of the user router mounts, the
    query checks of the search router, and the vocabulary of the further
    properties. *)

(** The strings a pattern denotes. *)
Inductive lang : Regex.t -> string -> Prop :=
| LEps : lang Regex.Eps ""
| LChr p c : p c = true -> lang (Regex.Chr p) (String c "")
| LSeq r s u v : lang r u -> lang s v -> lang (Regex.Seq r s) (u ++ v)
| LAltL r s u : lang r u -> lang (Regex.Alt r s) u
| LAltR r s u : lang s u -> lang (Regex.Alt r s) u
| LStar0 r : lang (Regex.Star r) ""
| LStarS r u v : lang r u -> lang (Regex.Star r) v -> lang (Regex.Star r) (u ++ v)
| LBoth r s u : lang r u -> lang s u -> lang (Regex.Both r s) u.

(** Some character of the string is in the class. *)
Fixpoint has (p : ascii -> bool) (s : string) : bool :=
  match s with
  | EmptyString => false
  | String c s' => p c || has p s'
  end.

(** ** helper/authHelpers.js: the other two authenticators *)

Section OtherAuthenticators.

Context {L : Libraries}.

(** [authJwt()]: the middleware it returns.  It asks [jwt.verify] for
    [{ algorithms: ["HS256"] }]. *)
Definition authJwt (penv : ProcessEnv) (w : World) (req : Req.t) : step :=
  let secret := JWT_SECRET penv in
  let token := Js.or_else (Req.cookies_token req) (tokenFromHeader req) in
  if negb (Js.truthy_opt token) then
    Done (Res.send 401 (JObj [ ("message", JStr "Token không được cung cấp.") ]))
  else
    match jwt_verify_with ["HS256"] (the token) secret w with
    | Throw _ =>
        Done (Res.send 401 (JObj [ ("message", JStr "Token không hợp lệ hoặc đã hết hạn.") ]))
    | Ok decoded => Next (Req.set_user decoded req)
    end.

Definition isAdmin (penv : ProcessEnv) (w : World) (req : Req.t) : step :=
  let token := Js.or_else (Req.cookies_token req) (tokenFromHeader req) in
  if negb (Js.truthy_opt token) then
    Done (Res.send 401 (failure "Không có token xác thực."))
  else
    match jwt_verify (the token) (JWT_SECRET penv) w with
    | Ok decoded =>
        if negb (String.eqb (Jwt.role decoded) "admin") then
          Done (Res.send 403 (failure "Bạn không có quyền truy cập."))
        else Next (Req.set_user decoded req)
    | Throw _ => Done (Res.send 401 (failure "Token không hợp lệ hoặc đã hết hạn."))
    end.

End OtherAuthenticators.

(** The algorithm that the header of the presented token names. *)
Definition token_alg {L : Libraries} (req : Req.t) : option string :=
  match token_of req with
  | Some t => option_map Jwt.alg (jwt_decode t)
  | None => None
  end.

(** The routes mounted behind [verifyToken] and [checkAdminOrOwner], and the
    [:id] of those that have one. *)
Definition guarded (m : method) (path : list string) : bool :=
  match m, path with
  | GET, [s] => literal "users" s
  | DELETE, [s] => Js.truthy s
  | PUT, [s] => Js.truthy s
  | PUT, [a; s] => literal "change-password" a && Js.truthy s
  | DELETE, [a; s] => literal "delete-user" a && Js.truthy s
  | _, _ => false
  end.

Definition guarded_id (m : method) (path : list string) : option string :=
  match m, path with
  | DELETE, [s] => if Js.truthy s then Some s else None
  | PUT, [s] => if Js.truthy s then Some s else None
  | PUT, [a; s] => if literal "change-password" a && Js.truthy s then Some s else None
  | DELETE, [a; s] => if literal "delete-user" a && Js.truthy s then Some s else None
  | _, _ => None
  end.

(** No identity in the body of the response has a password field. *)
Definition hides_password (res : Res.t) : Prop :=
  (forall u, obj_get "user" (Res.body res) = Some u -> has_field "password" u = false)
  /\ (forall l, obj_get "users" (Res.body res) = Some (JArr l) ->
                forall u, In u l -> has_field "password" u = false).

(** The response touches no cookie but the session cookie: it sets it, with
    the session options and on a success status, or it clears it. *)
Definition session_cookie_only (penv : ProcessEnv) (res : Res.t) : Prop :=
  forall op, In op (Res.cookies res) ->
    (exists token, op = SetCookie "token" token (session_options penv)
                   /\ (Res.status res = 200%Z \/ Res.status res = 201%Z))
    \/ op = ClearCookie "token" (clear_options penv).

(** What every response is checked for. *)
Definition well_formed (penv : ProcessEnv) (res : Res.t) : Prop :=
  hides_password res /\ session_cookie_only penv res.

(** The routes that only read. *)
Definition reading (m : method) (path : list string) : bool :=
  match m, path with
  | GET, _ => true
  | POST, [s] => literal "signin" s || literal "signout" s
  | _, _ => false
  end.

(** The page a listing shows: [perPage] documents from the [(page - 1) *
    perPage]-th on. *)
Definition page_of (page : Z) (l : list User.t) : list User.t :=
  firstn 12 (skipn (Z.to_nat ((page - 1) * 12)) l).

(** The document the sign-up handler stores for a body with these fields. *)
Definition signup_account {L : Libraries} (w : World)
    (username phone password fullName : string) : User.t :=
  User.mk (new_ObjectId w) username phone
          (Some ("temp_" ++ Js.of_int (Date_now w) ++ "@example.com"))
          (bcrypt_hash password (bcrypt_salt w)) fullName
          default_role default_isActive default_rememberMe default_avatar.

(** The response of a successful sign-in. *)
Definition signed_in {L : Libraries} (penv : ProcessEnv) (token : string) (user : User.t)
  : Res.t :=
  set_session_cookie penv token
    (Res.send 200 (JObj [ ("success", JBool true);
                          ("message", JStr "Đăng nhập thành công.");
                          ("user", User.without_password user);
                          ("token", JStr token) ])).

(** ** The product search route: what it does with the query

    [GET /] of the search router, up to the condition it hands to
    [ProductModel.find]: the checks of [req.query.q] and the pattern
    [safeQuery] it builds.  The pagination and the store's own matching of
    the pattern are not part of this development. *)

(** [req.query.q] when the query string has a [q]: a string, or the array
    or object that the query parser makes of [q[]=a] and of [q[a]=b]. *)
Inductive query_value : Type :=
| Text (s : string)
| Structured.

(** The class of [specialCharsRegex]. *)
Definition specialChars : ascii -> bool := Regex.one_of "\.*+?^${}()|[]".

Definition isOnlyWildcard (query : string) : bool :=
  let cleanedQuery := Js.remove_spaces query in
  Regex.accepts (Regex.plus (Regex.Chr specialChars)) cleanedQuery.

(** [query.replace(specialCharsRegex, '\\$&')]: the replacement is a
    backslash followed by the character that matched. *)
Fixpoint safeQuery (query : string) : string :=
  match query with
  | EmptyString => EmptyString
  | String c s' =>
      if specialChars c then String "\" (String c (safeQuery s'))
      else String c (safeQuery s')
  end.

(** The checks of the trimmed query. *)
Definition search_checks (query : string) : Res.t + string :=
  if negb (Js.truthy query) || (Js.length query <? 2)%nat then
    inl (Res.send 400 (failure_typed "Vui lòng cung cấp truy vấn tìm kiếm hợp lệ (tối thiểu 2 ký tự)."))
  else if isOnlyWildcard query then
    inl (Res.send 400 (failure_typed "Truy vấn tìm kiếm không được chứa chỉ các ký tự đặc biệt."))
  else inr (safeQuery query).

(** The handler up to [searchCondition]: the response it sends at once, or
    the [$regex] of the condition.  An array or an object is truthy and has
    no [trim]: the call throws, and the [catch] of the handler answers. *)
Definition search_condition {L : Libraries} (q : option query_value) : Res.t + string :=
  match q with
  | None => search_checks ""
  | Some (Text s) => search_checks (if Js.truthy s then Js.trim s else "")
  | Some Structured =>
      inl (Res.send 500
             (failure_typed ("An error occurred while searching for products: "
                             ++ exn_message TypeError)))
  end.

(** Every character of the string is in the class. *)
Fixpoint all (p : ascii -> bool) (s : string) : bool :=
  match s with
  | EmptyString => true
  | String c s' => p c && all p s'
  end.

(** One character of an escaped pattern: an ordinary character, or a
    backslash and the special character it quotes. *)
Definition quoted_char : Regex.t :=
  Regex.Alt (Regex.Chr (fun c => negb (specialChars c)))
            (Regex.Seq (Regex.Chr (Ascii.eqb "\")) (Regex.Chr specialChars)).

(** More requests and collections for the installation of [Sample]. *)
Module Cases.

Definition signin_body (name password : string) : Body.t :=
  Body.mk None None (Some password) None None (Some name) None None None None None
          None None.

Definition signup_body (username phone password fullName : string) : Body.t :=
  Body.mk (Some username) (Some phone) (Some password) (Some fullName) (Some password)
          None None None None None None None None.

Definition carol : Body.t := signup_body "carol" "0911222333" "Carol#2024" "Carol Le".

(** A body that asks for another username. *)
Definition rename (username : string) : Body.t :=
  Body.mk (Some username) None None None None None None None None None None None None.

Definition root : User.t :=
  User.mk "64b7f3a2c9e1d4f5a6b7c8dc" "root" "0900000000" None
          (Sample.digest "salt" "Root#2024") "Root" "admin" true None None.

Definition staff : Db := {| users := [Sample.alice; root]; orders := [] |}.

(** An installation without [JWT_SECRET]. *)
Definition no_key : ProcessEnv :=
  {| JWT_SECRET := None; TOKEN_EXPIRATION := None; NODE_ENV := None |}.

(** The world in which the upload middleware refuses the request. *)
Definition refusing (w : World) : World :=
  {| Date_now := Date_now w;
     new_ObjectId := new_ObjectId w;
     bcrypt_salt := bcrypt_salt w;
     randomPhone := randomPhone w;
     randomPassword := randomPassword w;
     rate_limited := rate_limited w;
     upload_refused := true;
     cloudinary_destroy := cloudinary_destroy w;
     cloudinary_upload := cloudinary_upload w;
     orders_deleteMany := orders_deleteMany w |}.

(** A request that a router has given the [:id] of its path. *)
Definition at_id (id : string) (b : Body.t) : Req.t :=
  Req.set_params_id (Some id) (incoming None None b).

End Cases.

(** * Properties *)

(** ** JavaScript values and patterns *)

Lemma strict_eq_true (a b : option string) : Js.strict_eq a b = true <-> a = b.
Proof.
  destruct a as [x|], b as [y|]; simpl; split; intro H;
    try discriminate; try reflexivity.
  - apply String.eqb_eq in H. now subst.
  - injection H as ->. apply String.eqb_refl.
Qed.

Lemma or_else_truthy (a b : option string) :
  Js.truthy_opt a = true -> Js.or_else a b = a.
Proof. unfold Js.or_else. now intros ->. Qed.

Lemma or_else_falsy (a b : option string) :
  Js.truthy_opt a = false -> Js.or_else a b = b.
Proof. unfold Js.or_else. now intros ->. Qed.

(** A string without the separator is the only piece of its split. *)
Lemma split_without_separator (sep : ascii) (s : string) :
  Regex.one_of s sep = false -> Js.split sep s = [s].
Proof.
  induction s as [|c s IH]; simpl; intro H.
  - reflexivity.
  - apply orb_false_iff in H as [Hc Hs].
    rewrite Ascii.eqb_sym, Hc, (IH Hs). reflexivity.
Qed.

Lemma accepts_Void (s : string) : Regex.accepts Regex.Void s = false.
Proof. induction s; simpl; auto. Qed.

Lemma alt_Void_r (r : Regex.t) : Regex.alt r Regex.Void = r.
Proof. destruct r; reflexivity. Qed.

Lemma seq_Eps_l (r : Regex.t) : Regex.seq Regex.Eps r = r.
Proof. destruct r; reflexivity. Qed.

(** [^p{n}$] accepts only strings of [n] characters. *)
Lemma accepts_times (p : ascii -> bool) (n : nat) (s : string) :
  Regex.accepts (Regex.times n (Regex.Chr p)) s = true -> String.length s = n.
Proof.
  revert s. induction n as [|n IH]; intros [|c s]; simpl; try discriminate; auto.
  - now rewrite accepts_Void.
  - rewrite alt_Void_r. destruct (p c).
    + rewrite seq_Eps_l. intro H. f_equal. now apply IH.
    + simpl. rewrite accepts_Void. discriminate.
Qed.

Lemma toLowerCase_length (s : string) : String.length (Js.toLowerCase s) = String.length s.
Proof. induction s; simpl; auto. Qed.

(** ** The authorization policy *)

(** C1. The admin-or-owner check lets a request through exactly when the
    role of its claims is [admin] or the id of its claims is the [:id] of
    the route; otherwise it answers 403 and does not call the next handler. *)
Theorem checkAdminOrOwner_allows_iff_admin_or_owner :
  forall (req : Req.t) (claims : Jwt.claims),
    let req' := Req.set_user claims req in
    (checkAdminOrOwner req' = Next req'
     <-> (Jwt.role claims = "admin" \/ Some (Jwt.id claims) = Req.params_id req))
    /\ (checkAdminOrOwner req' = Next req'
        \/ checkAdminOrOwner req' = Done (Res.send 403 (failure msg_forbidden))).
Proof.
  intros req claims req'. unfold checkAdminOrOwner, req'.
  cbn -[Js.strict_eq String.eqb].
  destruct (String.eqb_spec (Jwt.role claims) "admin") as [Ha|Ha];
    cbn -[Js.strict_eq String.eqb].
  - split; [split; auto | left; reflexivity].
  - destruct (Js.strict_eq (Some (Jwt.id claims)) (Req.params_id req)) eqn:E.
    + apply strict_eq_true in E. split; [split; auto | left; reflexivity].
    + split; [| right; reflexivity].
      split; [discriminate |].
      intros [H|H]; [contradiction |].
      apply strict_eq_true in H. congruence.
Qed.

(** ** The request authenticator *)

Section Authenticator.

Context {L : Libraries}.
Variable penv : ProcessEnv.
Variable w : World.

(** What [verifyToken] does, by the token it picked. *)
Lemma verifyToken_cases (req : Req.t) :
  verifyToken penv w req =
  match token_of req with
  | Some t =>
      if Js.truthy t then
        match jwt_verify t (JWT_SECRET penv) w with
        | Ok decoded => Next (Req.set_user decoded req)
        | Throw _ => Done (session_rejected penv)
        end
      else Done please_sign_in
  | None => Done please_sign_in
  end.
Proof. reflexivity. Qed.

Lemma verifyToken_Next (req r : Req.t) :
  verifyToken penv w req = Next r ->
  exists t decoded,
    token_of req = Some t
    /\ Js.truthy t = true
    /\ jwt_verify t (JWT_SECRET penv) w = Ok decoded
    /\ r = Req.set_user decoded req.
Proof.
  rewrite verifyToken_cases.
  destruct (token_of req) as [t|]; [| discriminate].
  destruct (Js.truthy t) eqn:Et; [| discriminate].
  destruct (jwt_verify t (JWT_SECRET penv) w) as [d|e] eqn:E; [| discriminate].
  intro H. injection H as <-. now exists t, d.
Qed.

(** The parameters of the route play no part in it. *)
Lemma verifyToken_params (i : option string) (req : Req.t) :
  verifyToken penv w (Req.set_params_id i req) =
  match verifyToken penv w req with
  | Next r => Next (Req.set_params_id i r)
  | other => other
  end.
Proof.
  rewrite !verifyToken_cases.
  change (token_of (Req.set_params_id i req)) with (token_of req).
  destruct (token_of req) as [t|]; [| reflexivity].
  destruct (Js.truthy t); [| reflexivity].
  destruct (jwt_verify t (JWT_SECRET penv) w); reflexivity.
Qed.

Lemma requester_Some (req : Req.t) (claims : Jwt.claims) :
  requester penv w req = Some claims ->
  verifyToken penv w req = Next (Req.set_user claims req).
Proof.
  unfold requester. destruct (verifyToken penv w req) as [r| |] eqn:E; try discriminate.
  apply verifyToken_Next in E as (t & d & _ & _ & _ & ->). simpl.
  intro H. injection H as ->. reflexivity.
Qed.

Lemma requester_None (req : Req.t) :
  requester penv w req = None -> exists res, verifyToken penv w req = Done res.
Proof.
  unfold requester. destruct (verifyToken penv w req) as [r|res|e] eqn:E.
  - apply verifyToken_Next in E as (t & d & _ & _ & _ & ->). discriminate.
  - intros _. now exists res.
  - rewrite verifyToken_cases in E.
    destruct (token_of req) as [t|]; [| discriminate].
    destruct (Js.truthy t); [| discriminate].
    destruct (jwt_verify t (JWT_SECRET penv) w); discriminate.
Qed.

(** The header [Authorization: Bearer t] yields [t]. *)
Lemma tokenFromHeader_Bearer (req : Req.t) (t : string) :
  Req.authorization req = Some ("Bearer " ++ t) ->
  Regex.one_of t " "%char = false ->
  tokenFromHeader req = Some t.
Proof.
  intros H Ht. unfold tokenFromHeader. rewrite H.
  cbn. now rewrite (split_without_separator _ _ Ht).
Qed.

End Authenticator.

(** C4. The authenticator takes the token from the cookie [token] when it
    holds one and otherwise from the bearer header; without a token it
    answers 401 and asks to sign in; when verification fails, for whatever
    reason, it clears the cookie and answers 401; only when verification
    succeeds does it call the next handler, and the request it hands on
    has the decoded claims, the id, username and role of the token, for its
    [req.user] and is otherwise the request it received. *)
Theorem verifyToken_authenticates :
  forall {L : Libraries} (penv : ProcessEnv) (w : World) (req : Req.t),
    (forall t, Req.cookies_token req = Some t -> Js.truthy t = true ->
               token_of req = Some t)
    /\ (forall t, Js.truthy_opt (Req.cookies_token req) = false ->
                  Req.authorization req = Some ("Bearer " ++ t) ->
                  Regex.one_of t " "%char = false ->
                  token_of req = Some t)
    /\ (Js.truthy_opt (token_of req) = false ->
        verifyToken penv w req = Done please_sign_in)
    /\ (forall t e, token_of req = Some t -> Js.truthy t = true ->
                    jwt_verify t (JWT_SECRET penv) w = Throw e ->
                    verifyToken penv w req = Done (session_rejected penv))
    /\ (forall t decoded, token_of req = Some t -> Js.truthy t = true ->
                          jwt_verify t (JWT_SECRET penv) w = Ok decoded ->
                          exists r, verifyToken penv w req = Next r
                                    /\ attached decoded req r)
    /\ (forall r, verifyToken penv w req = Next r ->
                  exists t decoded,
                    token_of req = Some t
                    /\ Js.truthy t = true
                    /\ jwt_verify t (JWT_SECRET penv) w = Ok decoded
                    /\ attached decoded req r)
    /\ Res.status please_sign_in = 401%Z
    /\ Res.cookies please_sign_in = []
    /\ obj_get "message" (Res.body please_sign_in) = Some (JStr msg_please_sign_in)
    /\ Res.status (session_rejected penv) = 401%Z
    /\ Res.cookies (session_rejected penv) = [ClearCookie "token" (clear_options penv)].
Proof.
  intros L penv w req. repeat split.
  - intros t Hc Ht. unfold token_of. rewrite or_else_truthy; [exact Hc |].
    now rewrite Hc.
  - intros t Hc Hh Ht. unfold token_of. rewrite or_else_falsy by exact Hc.
    now apply tokenFromHeader_Bearer.
  - intro H. rewrite verifyToken_cases.
    destruct (token_of req) as [t|]; [| reflexivity].
    simpl in H. now rewrite H.
  - intros t e Ht Htt Hv. rewrite verifyToken_cases, Ht, Htt, Hv. reflexivity.
  - intros t d Ht Htt Hv. rewrite verifyToken_cases, Ht, Htt, Hv.
    eexists. split; [reflexivity |]. repeat split.
  - intros r Hr. apply verifyToken_Next in Hr as (t & d & Ht & Htt & Hv & ->).
    exists t, d. repeat split; assumption.
Qed.

(** An expired token and a token signed with another key raise different
    exceptions, which the authenticator answers alike. *)
Lemma jwt_verify_failures :
  forall {L : Libraries} (w : World) (token key : string) (t : Jwt.t) (e : Z),
    Js.truthy key = true ->
    jwt_decode token = Some t ->
    existsb (String.eqb (Jwt.alg t)) ["HS256"; "HS384"; "HS512"] = true ->
    Jwt.exp (Jwt.payload t) = Some e ->
    (Jwt.signed_with t <> key -> jwt_verify token (Some key) w = Throw JsonWebTokenError)
    /\ (Jwt.signed_with t = key -> (e <= clock w)%Z ->
        jwt_verify token (Some key) w = Throw TokenExpiredError)
    /\ (Jwt.signed_with t = key -> (clock w < e)%Z ->
        jwt_verify token (Some key) w = Ok (Jwt.payload t)).
Proof.
  intros L w token key t e Hk Hd Ha He. unfold jwt_verify, jwt_verify_with.
  rewrite Hk, Hd, Ha, He.
  repeat split.
  - intro H. apply String.eqb_neq in H. now rewrite H.
  - intros -> H. rewrite String.eqb_refl. apply Z.leb_le in H. now rewrite H.
  - intros -> H. rewrite String.eqb_refl. apply Z.leb_gt in H. now rewrite H.
Qed.

Lemma verifyToken_authenticates_witness :
  let L := Sample.libraries Sample.alice_token in
  let req := Sample.with_cookie Body.empty in
  (exists r,
      verifyToken Sample.penv (Sample.world 2000000) req = Next r
      /\ Req.user r
         = Some (Jwt.mkClaims Sample.alice_id "alice" "user" 1000 (Some 4600%Z))
      /\ Req.body r = Body.empty)
  /\ verifyToken Sample.penv (Sample.world 5000000) req
     = Done (session_rejected Sample.penv).
Proof.
  intros L req. split.
  - destruct (verifyToken_authenticates (L := L) Sample.penv (Sample.world 2000000) req)
      as (_ & _ & _ & _ & H & _).
    destruct (H "header.payload.signature" Sample.alice_claims eq_refl eq_refl eq_refl)
      as (r & Hr & Huser & _ & _ & _ & _ & Hbody & _).
    exists r. split; [exact Hr |]. split; [exact Huser | exact Hbody].
  - apply (verifyToken_authenticates (L := L) Sample.penv (Sample.world 5000000) req)
      with (t := "header.payload.signature") (e := TokenExpiredError); reflexivity.
Defined.

(** C9. On a route without [:id], such as GET /users, the admin-or-owner
    check answers 403 to every requester whose role is not [admin],
    whatever the id in the token. *)
Theorem no_id_route_is_admin_only :
  forall {L : Libraries} (penv : ProcessEnv) (w : World) (req : Req.t) (db : Db)
         (claims : Jwt.claims),
    requester penv w req = Some claims ->
    Jwt.role claims <> "admin" ->
    checkAdminOrOwner (Req.set_user claims (no_params req))
    = Done (Res.send 403 (failure msg_forbidden))
    /\ router penv w GET ["users"] req db
       = (db, Sent (Res.send 403 (failure msg_forbidden))).
Proof.
  intros L penv w req db claims Hreq Hrole.
  assert (Hcheck : checkAdminOrOwner (Req.set_user claims (no_params req))
                   = Done (Res.send 403 (failure msg_forbidden))).
  { unfold checkAdminOrOwner. cbn -[String.eqb].
    apply String.eqb_neq in Hrole. now rewrite Hrole. }
  split; [exact Hcheck |].
  apply requester_Some in Hreq.
  unfold router. change (literal "users" "users") with true. cbv iota.
  unfold run, no_params. rewrite verifyToken_params, Hreq.
  change (Req.set_params_id None (Req.set_user claims req))
    with (Req.set_user claims (no_params req)).
  now rewrite Hcheck.
Qed.

Lemma no_id_route_is_admin_only_witness :
  let L := Sample.libraries Sample.alice_token in
  router Sample.penv (Sample.world 2000000) GET ["users"]
         (Sample.with_cookie Body.empty) Sample.db
  = (Sample.db, Sent (Res.send 403 (failure msg_forbidden))).
Proof.
  intro L.
  apply (no_id_route_is_admin_only (L := L) Sample.penv (Sample.world 2000000)
           (Sample.with_cookie Body.empty) Sample.db Sample.alice_claims).
  - reflexivity.
  - discriminate.
Defined.

(** ** Session tokens *)

(** C5. With a signing key configured, the token of an identity that asked
    to be remembered expires 7 days after it is issued; otherwise it expires
    after the configured window, which is one hour when [TOKEN_EXPIRATION]
    is not set.  Hence a remember-me token that the codec reads back
    verifies as long as less than 7 days have passed, at 6 days in
    particular, and is rejected as expired from 7 days on. *)
Theorem generateToken_expiry :
  forall {L : Libraries} (penv : ProcessEnv) (w : World) (user : User.t) (key : string),
    JWT_SECRET penv = Some key ->
    Js.truthy key = true ->
    (User.rememberMe user = Some true ->
     generateToken penv w user
     = Ok (jwt_encode (issued w user key (7 * 24 * 60 * 60))))
    /\ (User.rememberMe user <> Some true ->
        Js.truthy_opt (TOKEN_EXPIRATION penv) = false ->
        generateToken penv w user = Ok (jwt_encode (issued w user key (60 * 60))))
    /\ (forall configured span,
          User.rememberMe user <> Some true ->
          TOKEN_EXPIRATION penv = Some configured ->
          Js.truthy configured = true ->
          ms configured = Some span ->
          generateToken penv w user = Ok (jwt_encode (issued w user key (span / 1000))))
    /\ (forall token later,
          User.rememberMe user = Some true ->
          generateToken penv w user = Ok token ->
          jwt_decode token = Some (issued w user key (7 * 24 * 60 * 60)) ->
          ((clock later < clock w + 7 * 24 * 60 * 60)%Z ->
           jwt_verify token (JWT_SECRET penv) later
           = Ok (Jwt.payload (issued w user key (7 * 24 * 60 * 60))))
          /\ ((clock later = clock w + 6 * 24 * 60 * 60)%Z ->
              jwt_verify token (JWT_SECRET penv) later
              = Ok (Jwt.payload (issued w user key (7 * 24 * 60 * 60))))
          /\ ((clock w + 7 * 24 * 60 * 60 <= clock later)%Z ->
              jwt_verify token (JWT_SECRET penv) later = Throw TokenExpiredError)).
Proof.
  intros L penv w user key Hkey Htruthy.
  assert (Hsign : forall expiresIn span,
             ms expiresIn = Some span ->
             jwt_sign (User._id user) (User.username user) (User.role user)
                      (JWT_SECRET penv) expiresIn w
             = Ok (jwt_encode (issued w user key (span / 1000)))).
  { intros e span Hms. unfold jwt_sign. now rewrite Hkey, Htruthy, Hms. }
  assert (Hverify : forall token later,
             jwt_decode token = Some (issued w user key (7 * 24 * 60 * 60)) ->
             ((clock later < clock w + 7 * 24 * 60 * 60)%Z ->
              jwt_verify token (JWT_SECRET penv) later
              = Ok (Jwt.payload (issued w user key (7 * 24 * 60 * 60))))
             /\ ((clock w + 7 * 24 * 60 * 60 <= clock later)%Z ->
                 jwt_verify token (JWT_SECRET penv) later = Throw TokenExpiredError)).
  { intros token later Hd. rewrite Hkey.
    destruct (jwt_verify_failures later token key _ _ Htruthy Hd eq_refl eq_refl)
      as (_ & Hexp & Hok).
    split; intro H; [apply Hok | apply Hexp]; auto. }
  split; [| split; [| split]].
  - intro Hr. unfold generateToken, expirationTime. rewrite Hr.
    now rewrite (Hsign "7d" (7 * 24 * 60 * 60 * 1000)%Z).
  - intros Hr Hunset. unfold generateToken.
    replace (expirationTime penv user) with "1h".
    + now rewrite (Hsign "1h" (60 * 60 * 1000)%Z).
    + unfold expirationTime, Js.or_default.
      destruct (User.rememberMe user) as [[|]|]; try congruence;
        destruct (TOKEN_EXPIRATION penv) as [s|]; simpl in Hunset;
        try rewrite Hunset; reflexivity.
  - intros s span Hr Hs Hst Hms. unfold generateToken.
    replace (expirationTime penv user) with s.
    + now apply Hsign.
    + unfold expirationTime, Js.or_default. rewrite Hs, Hst.
      destruct (User.rememberMe user) as [[|]|]; congruence.
  - intros token later _ _ Hd.
    destruct (Hverify token later Hd) as [Hok Hexp].
    split; [exact Hok | split; [| exact Hexp]].
    intro H. apply Hok. lia.
Qed.

Lemma generateToken_expiry_witness :
  let L := Sample.libraries Sample.remembered_token in
  let day := (24 * 60 * 60 * 1000)%Z in
  generateToken Sample.penv (Sample.world 1000000) Sample.remembered
  = Ok "header.payload.signature"
  /\ jwt_verify "header.payload.signature" (Some "secret")
                (Sample.world (1000000 + 6 * day))
     = Ok (Jwt.payload Sample.remembered_token)
  /\ jwt_verify "header.payload.signature" (Some "secret")
                (Sample.world (1000000 + 7 * day))
     = Throw TokenExpiredError.
Proof.
  intros L day.
  pose proof (generateToken_expiry (L := L) Sample.penv (Sample.world 1000000)
                Sample.remembered "secret" eq_refl eq_refl) as (H7 & _ & _ & Hv).
  split; [apply H7; reflexivity |].
  split.
  - apply (Hv "header.payload.signature" (Sample.world (1000000 + 6 * day)));
      reflexivity.
  - apply (Hv "header.payload.signature" (Sample.world (1000000 + 7 * day)));
      first [reflexivity | vm_compute; discriminate].
Defined.

(** ** Sign-in *)

(** C8. The sign-in handler answers a lookup that finds no identity and a
    password that does not verify with the same response: status 400 and
    the same body. *)
Theorem signin_failures_indistinguishable :
  forall {L : Libraries} (penv : ProcessEnv) (w : World) (req req' : Req.t)
         (db db' : Db) (user : User.t) (name name' password password' : string),
    Body.usernameOrPhone (Req.body req) = Some name ->
    Body.password (Req.body req) = Some password ->
    Js.truthy name = true -> Js.truthy password = true ->
    Body.usernameOrPhone (Req.body req') = Some name' ->
    Body.password (Req.body req') = Some password' ->
    Js.truthy name' = true -> Js.truthy password' = true ->
    snd (find_by_usernameOrPhone name db) = Ok None ->
    snd (find_by_usernameOrPhone name' db') = Ok (Some user) ->
    checkPassword password' (User.password user) = false ->
    post_signin penv w req db = (db, Res.send 400 (failure msg_credentials))
    /\ post_signin penv w req' db' = (db', Res.send 400 (failure msg_credentials))
    /\ snd (post_signin penv w req db) = snd (post_signin penv w req' db').
Proof.
  intros L penv w req req' db db' user name name' password password'
         Hn Hp Htn Htp Hn' Hp' Htn' Htp' Hmiss Hhit Hbad.
  assert (H1 : post_signin penv w req db = (db, Res.send 400 (failure msg_credentials))).
  { unfold post_signin, try_catch, bind. rewrite Hn, Hp. cbn [Js.truthy_opt the].
    rewrite Htn, Htp. cbn [negb].
    unfold find_by_usernameOrPhone, findOne in *. cbn [snd] in Hmiss.
    injection Hmiss as Hmiss. rewrite Hmiss. reflexivity. }
  assert (H2 : post_signin penv w req' db' = (db', Res.send 400 (failure msg_credentials))).
  { unfold post_signin, try_catch, bind. rewrite Hn', Hp'. cbn [Js.truthy_opt the].
    rewrite Htn', Htp'. cbn [negb].
    unfold find_by_usernameOrPhone, findOne in *. cbn [snd] in Hhit.
    injection Hhit as Hhit. rewrite Hhit, Hbad. reflexivity. }
  rewrite H1, H2. auto.
Qed.

Lemma signin_failures_indistinguishable_witness :
  let L := Sample.libraries Sample.alice_token in
  let body name password :=
    Body.mk None None (Some password) None None (Some name) None None None None None
            None None in
  snd (post_signin Sample.penv (Sample.world 2000000)
         (incoming None None (body "carol" "Alice#2024")) Sample.db)
  = snd (post_signin Sample.penv (Sample.world 2000000)
           (incoming None None (body "alice" "Alice#2025")) Sample.db).
Proof.
  intros L body.
  apply (signin_failures_indistinguishable (L := L) Sample.penv (Sample.world 2000000)
           (incoming None None (body "carol" "Alice#2024"))
           (incoming None None (body "alice" "Alice#2025"))
           Sample.db Sample.db Sample.alice
           "carol" "alice" "Alice#2024" "Alice#2025");
    reflexivity.
Defined.

(** ** Reading a profile *)

Lemma obj_get_delete (k : string) (o : json) : obj_get k (obj_delete k o) = None.
Proof.
  destruct o as [| | | | |fs]; try reflexivity. simpl.
  induction fs as [|[k' v] fs IH]; simpl; [reflexivity |].
  destruct (String.eqb k' k) eqn:E; simpl; [exact IH |].
  now rewrite E.
Qed.

Lemma without_password_has_none (u : User.t) :
  has_field "password" (User.without_password u) = false.
Proof. unfold has_field, User.without_password. now rewrite obj_get_delete. Qed.

(** What stays of a document without its password: every other field. *)
Lemma without_password_fields (u : User.t) :
  let profile := User.without_password u in
  obj_get "_id" profile = Some (JStr (User._id u))
  /\ obj_get "username" profile = Some (JStr (User.username u))
  /\ obj_get "phone" profile = Some (JStr (User.phone u))
  /\ obj_get "email" profile = option_map JStr (User.email u)
  /\ obj_get "fullName" profile = Some (JStr (User.fullName u))
  /\ obj_get "role" profile = Some (JStr (User.role u))
  /\ obj_get "isActive" profile = Some (JBool (User.isActive u))
  /\ obj_get "rememberMe" profile = option_map JBool (User.rememberMe u)
  /\ obj_get "avatar" profile = option_map JStr (User.avatar u).
Proof.
  unfold User.without_password, User.toObject.
  destruct (User.email u), (User.rememberMe u), (User.avatar u); cbn; repeat split.
Qed.

Lemma hex24_length (id : string) : Regex.accepts hex24 id = true -> String.length id = 24%nat.
Proof. apply accepts_times. Qed.

Lemma hex24_not_literal (text id : string) :
  String.length (Js.toLowerCase text) <> 24%nat ->
  Regex.accepts hex24 id = true -> literal text id = false.
Proof.
  intros Hlen Hhex. unfold literal. apply String.eqb_neq. intro E.
  apply hex24_length in Hhex. apply Hlen.
  now rewrite <- E, toLowerCase_length.
Qed.

Lemma truthy_of_length (s : string) (n : nat) :
  String.length s = S n -> Js.truthy s = true.
Proof. destruct s; [discriminate | reflexivity]. Qed.

(** C10. GET /:id with the id of a stored identity returns that identity's
    record, every field of the stored document but the password, whatever
    the request carries: the route has no authentication middleware, so a
    request with no session token reads it as well. *)
Theorem get_user_needs_no_token :
  forall {L : Libraries} (penv : ProcessEnv) (w : World) (req : Req.t) (db : Db)
         (user : User.t),
    Regex.accepts hex24 (User._id user) = true ->
    Js.toLowerCase (User._id user) = User._id user ->
    find (has_id (User._id user)) (users db) = Some user ->
    let profile := User.without_password user in
    router penv w GET [User._id user] req db
    = (db, Sent (Res.send 200
                   (JObj [ ("success", JBool true);
                           ("message", JStr "Lấy thông tin người dùng thành công.");
                           ("user", profile) ])))
    /\ has_field "password" profile = false
    /\ obj_get "_id" profile = Some (JStr (User._id user))
    /\ obj_get "username" profile = Some (JStr (User.username user))
    /\ obj_get "phone" profile = Some (JStr (User.phone user))
    /\ obj_get "email" profile = option_map JStr (User.email user)
    /\ obj_get "fullName" profile = Some (JStr (User.fullName user))
    /\ obj_get "role" profile = Some (JStr (User.role user))
    /\ obj_get "isActive" profile = Some (JBool (User.isActive user))
    /\ obj_get "rememberMe" profile = option_map JBool (User.rememberMe user)
    /\ obj_get "avatar" profile = option_map JStr (User.avatar user).
Proof.
  intros L penv w req db user Hhex Hlow Hfind profile.
  split; [| split; [apply without_password_has_none |
                    unfold profile; apply without_password_fields]].
  unfold router.
  rewrite (hex24_not_literal "users" _ ltac:(vm_compute; discriminate) Hhex).
  rewrite (truthy_of_length _ _ (hex24_length _ Hhex)).
  unfold run, get_user, try_catch, bind, param_id, with_id, ret.
  cbn [Req.params_id Req.set_params_id]. rewrite Hhex. cbn [negb].
  unfold findById, ObjectId_cast. rewrite Hhex, Hlow, Hfind. reflexivity.
Qed.

Lemma get_user_needs_no_token_witness :
  let L := Sample.libraries Sample.alice_token in
  router Sample.penv (Sample.world 2000000) GET [Sample.bob_id]
         (incoming None None Body.empty) Sample.db
  = (Sample.db,
     Sent (Res.send 200
             (JObj [ ("success", JBool true);
                     ("message", JStr "Lấy thông tin người dùng thành công.");
                     ("user",
                      JObj [ ("_id", JStr Sample.bob_id);
                             ("username", JStr "bob");
                             ("phone", JStr "0987654321");
                             ("email", JStr "bob@example.com");
                             ("fullName", JStr "Bob Tran");
                             ("role", JStr "user");
                             ("isActive", JBool true) ]) ]))).
Proof.
  intro L.
  apply (get_user_needs_no_token (L := L) Sample.penv (Sample.world 2000000)
           (incoming None None Body.empty) Sample.db Sample.bob);
    reflexivity.
Defined.

(** ** Passwords *)

Lemma toObject_password (u : User.t) :
  obj_get "password" (User.toObject u) = Some (JStr (User.password u)).
Proof. unfold User.toObject. destruct (User.email u); reflexivity. Qed.

(** C6, as the code has it.  Once the current password has verified, the
    handler hashes and stores the new password whatever [isValidPassword]
    says of it: the array it returns is always truthy, so the rejection
    guarded by its negation is never taken. *)
Theorem change_password_skips_policy :
  forall {L : Libraries} (w : World) (req : Req.t) (db : Db) (id current new : string)
         (user : User.t),
    Req.params_id req = Some id ->
    Body.currentPassword (Req.body req) = Some current ->
    Body.newPassword (Req.body req) = Some new ->
    Js.truthy current = true ->
    Js.truthy new = true ->
    snd (findById id db) = Ok (Some user) ->
    bcrypt_compare current (User.password user) = true ->
    schema_accepts (others (User._id user) (users db))
                   (User.set_password (bcrypt_hash new (bcrypt_salt w)) user) = true ->
    put_change_password w req db
    = (set_users (replace (User.set_password (bcrypt_hash new (bcrypt_salt w)) user)
                          (users db)) db,
       Res.send 200 (JObj [ ("success", JBool true);
                            ("message", JStr "Mật khẩu đã được thay đổi thành công.") ])).
Proof.
  intros L w req db id current new user Hid Hc Hn Htc Htn Hfind Hcur Hok.
  unfold put_change_password, try_catch, bind, param_id, ret.
  rewrite Hid, Hc, Hn. cbn [Js.truthy_opt the]. rewrite Htc, Htn. cbn [negb].
  unfold findById in *. destruct (ObjectId_cast id); [| discriminate].
  cbn [snd] in Hfind. injection Hfind as Hfind. rewrite Hfind, Hcur.
  cbn [negb Js.truthy_array]. unfold save.
  change (User._id (User.set_password (bcrypt_hash new (bcrypt_salt w)) user))
    with (User._id user).
  now rewrite Hok.
Qed.

Lemma change_password_skips_policy_witness :
  let L := Sample.libraries Sample.alice_token in
  let body := Body.mk None None None None None None None None None None None
                      (Some "Alice#2024") (Some "a") in
  let req := Req.set_params_id (Some Sample.alice_id) (incoming None None body) in
  isValidPassword "a" = [msg_minLength; msg_uppercase; msg_digit; msg_special]
  /\ put_change_password (Sample.world 2000000) req Sample.db
     = ({| users := [User.set_password (Sample.digest "salt" "a") Sample.alice; Sample.bob];
           orders := [] |},
        Res.send 200 (JObj [ ("success", JBool true);
                             ("message", JStr "Mật khẩu đã được thay đổi thành công.") ])).
Proof.
  intros L body req. split; [reflexivity |].
  apply (change_password_skips_policy (L := L) (Sample.world 2000000) req Sample.db
           Sample.alice_id "Alice#2024" "a" Sample.alice);
    reflexivity.
Defined.

(** C3, as the code has it.  The federated sign-in stores the random
    password of a new identity as it was drawn, without hashing it, and
    sends the whole document, password field included, in its response;
    for an identity that exists it sends the stored password field. *)
Theorem authWithGoogle_exposes_password :
  forall {L : Libraries} (penv : ProcessEnv) (w : World) (req : Req.t) (db : Db),
    (forall fullName token,
        let user := new_google_user w fullName (Body.email (Req.body req))
                                    (Body.images (Req.body req)) in
        Body.fullName (Req.body req) = Some fullName ->
        find (fun u => Js.strict_eq (User.email u) (Body.email (Req.body req))) (users db)
        = None ->
        existsb (has_id (new_ObjectId w)) (users db) = false ->
        schema_accepts (users db) user = true ->
        generateToken penv w user = Ok token ->
        exists res,
          post_authWithGoogle penv w req db = (set_users (users db ++ [user]) db, res)
          /\ User.password user = randomPassword w
          /\ Res.status res = 200%Z
          /\ obj_get "user" (Res.body res) = Some (User.toObject user)
          /\ obj_get "password" (User.toObject user) = Some (JStr (randomPassword w)))
    /\ (forall user token,
           find (fun u => Js.strict_eq (User.email u) (Body.email (Req.body req))) (users db)
           = Some user ->
           generateToken penv w user = Ok token ->
           exists res,
             post_authWithGoogle penv w req db = (db, res)
             /\ Res.status res = 200%Z
             /\ obj_get "user" (Res.body res) = Some (User.toObject user)
             /\ obj_get "password" (User.toObject user) = Some (JStr (User.password user))).
Proof.
  intros L penv w req db. split.
  - intros fullName token user Hname Hfind Hfresh Hok Htoken.
    unfold post_authWithGoogle, try_catch, bind, findOne, ret, lift, insert.
    rewrite Hfind, Hname. fold user.
    change (User._id user) with (new_ObjectId w). rewrite Hfresh, Hok, Htoken.
    eexists. split; [reflexivity |].
    repeat split. apply toObject_password.
  - intros user token Hfind Htoken.
    unfold post_authWithGoogle, try_catch, bind, findOne, ret, lift.
    rewrite Hfind, Htoken.
    eexists. split; [reflexivity |].
    repeat split. apply toObject_password.
Qed.

Lemma authWithGoogle_exposes_password_witness :
  let L := Sample.libraries Sample.alice_token in
  let body := Body.mk None None None (Some "Carol Le") None None None
                      (Some "carol@example.com") None None None None None in
  exists res,
    snd (post_authWithGoogle Sample.penv (Sample.world 2000000)
           (incoming None None body) Sample.db) = res
    /\ obj_get "user" (Res.body res)
       = Some (User.toObject
                 (User.mk "64b7f3a2c9e1d4f5a6b7c8db" "temp_carolle" "0341234567"
                          (Some "carol@example.com") "k3j2h1g0" "Carol Le" "user" true
                          None None)).
Proof.
  intros L body.
  destruct (proj1 (authWithGoogle_exposes_password (L := L) Sample.penv
                     (Sample.world 2000000) (incoming None None body) Sample.db)
                  "Carol Le" "header.payload.signature"
                  eq_refl eq_refl eq_refl eq_refl eq_refl)
    as (res & Hrun & _ & _ & Huser & _).
  exists res. split; [now rewrite Hrun | exact Huser].
Defined.

(** ** Sign-up *)

Lemma signup_details_abc12345 (b : Body.t) :
  Body.password b = Some "abc12345" ->
  signup_details b
  = (other_details b ++ [Custom msg_password_pattern]
     ++ joi_confirm (Some "abc12345") (Body.confirmPassword b))%list.
Proof.
  intro H. unfold signup_details, other_details. rewrite H.
  change (joi_string "password" false
            [joi_min 8; joi_max 64; joi_pattern password_pattern (Some msg_password_pattern)]
            (Some "abc12345"))
    with [Custom msg_password_pattern].
  now rewrite <- !app_assoc.
Qed.

(** C7, amended.  When the limiter of the route lets it through, a sign-up
    whose password is [abc12345] is rejected with status 400 by the
    validation middleware, before the handler runs, and the password
    contributes exactly one entry to the details of that response, the
    message for the whole pattern (an upper-case letter, a lower-case letter
    and a digit); when the other fields are valid that message is all the
    response lists, so that neither the missing upper-case letter nor the
    missing special character has an entry of its own.  The list by class is
    what [isValidPassword] returns, for [abc12345] the two entries for the
    upper-case letter and the special character; the handler sends that
    list, as [errors], for a request that reaches its password check. *)
Theorem signup_rejects_abc12345 :
  forall {L : Libraries} (penv : ProcessEnv) (w : World) (req : Req.t) (db : Db),
    (rate_limited w = false ->
     Body.password (Req.body req) = Some "abc12345" ->
     let details :=
       (other_details (Req.body req) ++ [Custom msg_password_pattern]
        ++ joi_confirm (Some "abc12345") (Body.confirmPassword (Req.body req)))%list in
     router penv w POST ["signup"] req db = (db, Sent (invalid msg_signup_invalid details))
     /\ Res.status (invalid msg_signup_invalid details) = 400%Z
     /\ (other_details (Req.body req) = [] ->
         Body.confirmPassword (Req.body req) = Some "abc12345" ->
         listed (invalid msg_signup_invalid details) = [msg_password_pattern]
         /\ ~ In msg_minLength (listed (invalid msg_signup_invalid details))
         /\ ~ In msg_uppercase (listed (invalid msg_signup_invalid details))
         /\ ~ In msg_special (listed (invalid msg_signup_invalid details))))
    /\ isValidPassword "abc12345" = [msg_uppercase; msg_special]
    /\ (forall username phone password fullName,
           Body.username (Req.body req) = Some username ->
           Body.phone (Req.body req) = Some phone ->
           Body.password (Req.body req) = Some password ->
           Body.fullName (Req.body req) = Some fullName ->
           Body.confirmPassword (Req.body req) = Some password ->
           Js.truthy username = true -> Js.truthy phone = true ->
           Js.truthy password = true -> Js.truthy fullName = true ->
           isValidPhone phone = true ->
           isValidPassword password <> [] ->
           post_signup penv w req db
           = (db, Res.send 400 (JObj [ ("success", JBool false);
                                       ("message", JStr "Mật khẩu không hợp lệ.");
                                       ("errors", JArr (map JStr (isValidPassword password)));
                                       ("type", JStr "error") ]))).
Proof.
  intros L penv w req db. split; [| split; [reflexivity |]].
  - intros Hlimit Hpw details.
    pose proof (signup_details_abc12345 (Req.body req) Hpw) as Hd. fold details in Hd.
    split; [| split; [reflexivity |]].
    + unfold router. change (literal "signup" "signup") with true. cbv iota.
      unfold run, authLimiter, validateSignup. rewrite Hlimit.
      change (Req.body (no_params req)) with (Req.body req). rewrite Hd.
      destruct details eqn:E; [| reflexivity].
      unfold details in E. now destruct (other_details (Req.body req)).
    + intros Hothers Hconfirm. unfold details. rewrite Hothers, Hconfirm.
      split; [reflexivity |].
      repeat split; intros [H | []]; discriminate H.
  - intros username phone password fullName Hu Hph Hpw Hf Hc Htu Htph Htpw Htf Hvalid Herr.
    unfold post_signup, try_catch, ret.
    rewrite Hu, Hph, Hpw, Hf, Hc. cbn [checkRequiredFields Js.truthy_opt the].
    rewrite Htu, Htph, Htpw, Htf. cbn [negb].
    replace (Js.strict_eq (Some password) (Some password)) with true
      by (symmetry; now apply strict_eq_true).
    cbn [negb]. rewrite Hvalid. cbn [negb].
    destruct (isValidPassword password); [contradiction | reflexivity].
Qed.

Lemma signup_rejects_abc12345_witness :
  let L := Sample.libraries Sample.alice_token in
  let body password :=
    Body.mk (Some "carol") (Some "0911222333") (Some password) (Some "Carol Le")
            (Some password) None None None None None None None None in
  router Sample.penv (Sample.world 2000000) POST ["signup"]
         (incoming None None (body "abc12345")) Sample.db
  = (Sample.db, Sent (invalid msg_signup_invalid [Custom msg_password_pattern]))
  /\ listed (invalid msg_signup_invalid [Custom msg_password_pattern])
     = [msg_password_pattern]
  /\ post_signup Sample.penv (Sample.world 2000000)
                 (incoming None None (body "Abc12345")) Sample.db
     = (Sample.db,
        Res.send 400 (JObj [ ("success", JBool false);
                             ("message", JStr "Mật khẩu không hợp lệ.");
                             ("errors", JArr [JStr msg_special]);
                             ("type", JStr "error") ])).
Proof.
  intros L body.
  destruct (proj1 (signup_rejects_abc12345 (L := L) Sample.penv (Sample.world 2000000)
                     (incoming None None (body "abc12345")) Sample.db)
                  eq_refl eq_refl) as (Hrun & _ & Hlist).
  split; [exact Hrun |]. split; [exact (proj1 (Hlist eq_refl eq_refl)) |].
  apply (proj2 (proj2 (signup_rejects_abc12345 (L := L) Sample.penv
                         (Sample.world 2000000)
                         (incoming None None (body "Abc12345")) Sample.db))
           "carol" "0911222333" "Abc12345" "Carol Le");
    first [reflexivity | discriminate].
Defined.

(** C7 as it was stated does not hold: for a sign-up with the password
    [abc12345] and its other fields valid, the rejection lists neither the
    missing upper-case letter nor the missing special character as an entry
    of its own. *)
Lemma signup_abc12345_classes_not_listed :
  let L := Sample.libraries Sample.alice_token in
  let body :=
    Body.mk (Some "carol") (Some "0911222333") (Some "abc12345") (Some "Carol Le")
            (Some "abc12345") None None None None None None None None in
  ~ (exists res,
        router Sample.penv (Sample.world 2000000) POST ["signup"]
               (incoming None None body) Sample.db = (Sample.db, Sent res)
        /\ In msg_uppercase (listed res)
        /\ In msg_special (listed res)).
Proof.
  intros L body (res & Hrun & _ & Hspecial).
  vm_compute in Hrun. injection Hrun as <-.
  vm_compute in Hspecial. destruct Hspecial as [H|[]]. discriminate H.
Qed.

(** ** Who may change a role *)

(** Case analysis on every test a handler makes, innermost first. *)
Ltac case_split :=
  repeat (cbn [fst snd users set_users] in *;
  match goal with
  | |- context [match ?x with _ => _ end] =>
      lazymatch x with
      | context [match _ with _ => _ end] => fail
      | _ => destruct x eqn:?
      end
  end).

Lemma change_weaken fresh (a a' : User.t -> User.t -> Prop) (r r' : string -> Prop) l l' :
  (forall u x, a u x -> a' u x) -> (forall o, r o -> r' o) ->
  change fresh a r l l' -> change fresh a' r' l l'.
Proof. intros Ha Hr []; econstructor; eauto. Qed.

Lemma has_id_true oid u : has_id oid u = true <-> User._id u = oid.
Proof. apply String.eqb_eq. Qed.

Lemma find_has_id oid l u : find (has_id oid) l = Some u -> In u l /\ User._id u = oid.
Proof.
  intro H. apply find_some in H as [Hin Hid]. split; [exact Hin|].
  now apply has_id_true.
Qed.

Lemma existsb_has_id oid l : existsb (has_id oid) l = false -> ~ In oid (map User._id l).
Proof.
  intros H Hin. apply in_map_iff in Hin as (u & Hu & Hin).
  assert (existsb (has_id oid) l = true); [| congruence].
  apply existsb_exists. exists u. split; [exact Hin | now apply has_id_true].
Qed.

Lemma ids_replace x l : map User._id (replace x l) = map User._id l.
Proof.
  unfold replace. rewrite map_map. apply map_ext. intro v.
  destruct (has_id (User._id x) v) eqn:E; [| reflexivity].
  apply has_id_true in E. now symmetry.
Qed.

Lemma ids_others oid l :
  map User._id (others oid l) = filter (fun i => negb (String.eqb i oid)) (map User._id l).
Proof.
  induction l as [|v l IH]; simpl; [reflexivity |].
  unfold has_id at 1. destruct (String.eqb (User._id v) oid); simpl; now rewrite IH.
Qed.

Lemma same_id_same_doc l u v :
  NoDup (map User._id l) -> In u l -> In v l -> User._id u = User._id v -> u = v.
Proof.
  induction l as [|a l IH]; simpl; intros Hnd Hu Hv E; [contradiction |].
  inversion Hnd as [|? ? Hnotin Hnd']; subst.
  destruct Hu as [->|Hu], Hv as [->|Hv]; auto.
  - exfalso. apply Hnotin. rewrite E. now apply in_map.
  - exfalso. apply Hnotin. rewrite <- E. now apply in_map.
Qed.

Lemma In_replace_other x l u : In u l -> User._id u <> User._id x -> In u (replace x l).
Proof.
  intros Hin Hne. unfold replace. apply in_map_iff. exists u. split; [| exact Hin].
  destruct (has_id (User._id x) u) eqn:E; [| reflexivity].
  apply has_id_true in E. contradiction.
Qed.

Lemma In_replace_same x l u : In u l -> User._id u = User._id x -> In x (replace x l).
Proof.
  intros Hin He. unfold replace. apply in_map_iff. exists u. split; [| exact Hin].
  destruct (has_id (User._id x) u) eqn:E; [reflexivity |].
  apply not_true_iff_false in E. exfalso. apply E. now apply has_id_true.
Qed.

Lemma In_others oid l u : In u l -> User._id u <> oid -> In u (others oid l).
Proof.
  intros Hin Hne. unfold others. apply filter_In. split; [exact Hin |].
  apply negb_true_iff. apply not_true_iff_false. intro E. now apply has_id_true in E.
Qed.

(** A change keeps the role of the documents under [oid] when it may
    replace them only by documents of the same role. *)
Lemma change_keeps_role fresh (allowed : User.t -> User.t -> Prop)
    (removable : string -> Prop) l l' (oid role : string) :
  change fresh allowed removable l l' ->
  fresh <> oid ->
  (forall user x, allowed user x -> User._id user = oid -> User.role x = User.role user) ->
  (forall v, In v l -> User._id v = oid -> User.role v = role) ->
  forall v', In v' l' -> User._id v' = oid -> User.role v' = role.
Proof.
  intros [ | x Hx Hfresh | user x Hin Hid Hallowed | o Hrem] Hne Hsame Hl v' Hv' E.
  - now apply Hl.
  - apply in_app_or in Hv' as [Hv' | [<- | []]]; [now apply Hl |].
    exfalso. apply Hne. congruence.
  - unfold replace in Hv'. apply in_map_iff in Hv' as (v & Hv & Hvin).
    destruct (has_id (User._id x) v); [| subst v'; now apply Hl].
    subst v'. rewrite (Hsame user x Hallowed) by congruence.
    apply Hl; [exact Hin | congruence].
  - unfold others in Hv'. apply filter_In in Hv' as [Hv' _]. now apply Hl.
Qed.

Section Effects.

Context {L : Libraries}.
Variable penv : ProcessEnv.
Variable w : World.

Ltac unfold_handler :=
  unfold try_catch, attempt, bind, param_id, ret, throw, lift,
    find_by_usernameOrPhone, findById, findOne, findByIdAndUpdate, findByIdAndDelete,
    insert, save, countDocuments, find_page, orders_of, deleteMany_orders,
    cloudinary_uploader_destroy;
  cbv zeta.

Lemma get_users_reads req db : fst (get_users req db) = db.
Proof. unfold get_users. unfold_handler. case_split; reflexivity. Qed.

Lemma get_user_reads req db : fst (get_user req db) = db.
Proof. unfold get_user. unfold_handler. case_split; reflexivity. Qed.

Lemma get_me_reads req db : fst (get_me req db) = db.
Proof. unfold get_me. unfold_handler. case_split; reflexivity. Qed.

Lemma post_signin_reads req db : fst (post_signin penv w req db) = db.
Proof. unfold post_signin. unfold_handler. case_split; reflexivity. Qed.

Lemma post_signup_change req db :
  change (new_ObjectId w) keeping_role never
         (users db) (users (fst (post_signup penv w req db))).
Proof.
  unfold post_signup. unfold_handler.
  case_split; try apply Same; (apply Added; [reflexivity | assumption]).
Qed.

Lemma post_authWithGoogle_change req db :
  change (new_ObjectId w) keeping_role never
         (users db) (users (fst (post_authWithGoogle penv w req db))).
Proof.
  unfold post_authWithGoogle. unfold_handler.
  case_split; try apply Same; (apply Added; [reflexivity | assumption]).
Qed.

Lemma post_admin_signin_change req db :
  change (new_ObjectId w) keeping_role never
         (users db) (users (fst (post_admin_signin penv w req db))).
Proof.
  unfold post_admin_signin. unfold_handler. case_split; try apply Same.
  all: match goal with
       | H : find _ _ = Some ?u |- _ =>
           apply find_some in H as [H _];
           apply (Updated _ _ _ _ u); [exact H | reflexivity | reflexivity]
       end.
Qed.

(** The change of password writes only after the current password has
    verified against the stored hash. *)
Lemma change_password_requires_current req db :
  fst (put_change_password w req db) = db
  \/ exists id user,
       Req.params_id req = Some id
       /\ snd (findById id db) = Ok (Some user)
       /\ bcrypt_compare (the (Body.currentPassword (Req.body req))) (User.password user)
          = true
       /\ fst (put_change_password w req db)
          = set_users
              (replace (User.set_password
                          (bcrypt_hash (the (Body.newPassword (Req.body req))) (bcrypt_salt w))
                          user)
                       (users db)) db.
Proof.
  unfold put_change_password. unfold_handler.
  destruct (Req.params_id req) as [id|]; [| now left].
  case_split; try (now left).
  right. exists id. eexists. split; [reflexivity |].
  match goal with H : negb (bcrypt_compare _ _) = false |- _ =>
    apply negb_false_iff in H; rewrite H end.
  repeat match goal with H : _ = Some _ |- _ => rewrite H end.
  auto.
Qed.

Lemma delete_user_change req db id :
  Req.params_id req = Some id ->
  change (new_ObjectId w) keeping_role (targets id)
         (users db) (users (fst (delete_user w req db))).
Proof.
  intro Hid. unfold delete_user. unfold_handler. rewrite Hid.
  case_split; try apply Same; now apply Removed.
Qed.

Lemma delete_user_and_orders_change req db id :
  Req.params_id req = Some id ->
  change (new_ObjectId w) keeping_role (targets id)
         (users db) (users (fst (delete_user_and_orders w req db))).
Proof.
  intro Hid. unfold delete_user_and_orders. unfold_handler. rewrite Hid.
  case_split; try apply Same; now apply Removed.
Qed.

(** The profile update is the one handler that replaces a document by one
    of another role. *)
Lemma put_user_change req db id :
  Req.params_id req = Some id ->
  change (new_ObjectId w) (fun user _ => targets id (User._id user)) never
         (users db) (users (fst (put_user w req db))).
Proof.
  intro Hid. unfold put_user. unfold_handler. rewrite Hid.
  case_split; try apply Same.
  all: match goal with
       | H : find (has_id _) _ = Some ?u |- _ =>
           apply find_has_id in H as [H E];
           apply (Updated _ _ _ _ u); [exact H | reflexivity | unfold targets; congruence]
       end.
Qed.

Lemma put_change_password_change req db id :
  Req.params_id req = Some id ->
  change (new_ObjectId w) keeping_role never
         (users db) (users (fst (put_change_password w req db))).
Proof.
  intro Hid. unfold put_change_password. unfold_handler. rewrite Hid.
  case_split; try apply Same.
  all: match goal with
       | H : find (has_id _) _ = Some ?u |- _ =>
           apply find_has_id in H as [H E];
           apply (Updated _ _ _ _ u); [exact H | reflexivity | reflexivity]
       end.
Qed.

End Effects.

Section Routing.

Context {L : Libraries}.
Variable penv : ProcessEnv.
Variable w : World.

Lemma requester_params (i : option string) (req : Req.t) :
  requester penv w (Req.set_params_id i req) = requester penv w req.
Proof.
  unfold requester. rewrite verifyToken_params.
  destruct (verifyToken penv w req); reflexivity.
Qed.

Lemma checkAdminOrOwner_Next (req r : Req.t) :
  checkAdminOrOwner req = Next r ->
  r = req
  /\ exists claims,
       Req.user req = Some claims
       /\ (Jwt.role claims = "admin" \/ Some (Jwt.id claims) = Req.params_id req).
Proof.
  unfold checkAdminOrOwner. destruct (Req.user req) as [claims|]; [| discriminate].
  destruct (String.eqb_spec (Jwt.role claims) "admin") as [Ha|Ha];
    cbn -[Js.strict_eq].
  - intro H. injection H as <-. split; [reflexivity |]. exists claims. auto.
  - destruct (Js.strict_eq (Some (Jwt.id claims)) (Req.params_id req)) eqn:E;
      [| discriminate].
    intro H. injection H as <-. split; [reflexivity |]. exists claims.
    apply strict_eq_true in E. auto.
Qed.

(** A handler behind [verifyToken] and [checkAdminOrOwner] on a route with
    [:id] acts on the documents of [:id] only for a requester that may touch
    them. *)
Lemma run_protected (P : Prop) (h : Req.t -> Db -> Db * Res.t) (req : Req.t) (db : Db)
    (id : string) :
  (forall r d, Req.params_id r = Some id ->
               change (new_ObjectId w)
                      (fun user x => keeping_role user x
                                     \/ (P /\ targets id (User._id user)))
                      (targets id)
                      (users d) (users (fst (h r d)))) ->
  change (new_ObjectId w)
         (fun user x => keeping_role user x \/ (P /\ may_touch penv w req (User._id user)))
         (may_touch penv w req)
         (users db)
         (users (fst (run [verifyToken penv w; checkAdminOrOwner] h (with_id id req) db))).
Proof.
  intro Hh. unfold run, with_id.
  destruct (verifyToken penv w (Req.set_params_id (Some id) req)) as [r|res|e] eqn:Ev;
    try apply Same.
  assert (Hreq : requester penv w req = Req.user r).
  { rewrite <- (requester_params (Some id)). unfold requester. now rewrite Ev. }
  apply verifyToken_Next in Ev as (t & d & _ & _ & _ & ->).
  destruct (checkAdminOrOwner _) as [r'|res|e] eqn:Ec; try apply Same.
  apply checkAdminOrOwner_Next in Ec as (-> & claims & Hu & Hallowed).
  cbn in Hu, Hallowed, Hreq. injection Hu as ->.
  assert (Hmay : forall oid, targets id oid -> may_touch penv w req oid).
  { intros oid Ht. exists claims. split; [exact Hreq |].
    destruct Hallowed as [Ha|Ho]; [now left | right].
    injection Ho as ->. exact Ht. }
  destruct (h _ db) as [db' res] eqn:Eh.
  change db' with (fst (db', res)). rewrite <- Eh.
  eapply change_weaken; [| | apply Hh; reflexivity]; cbv beta; [| auto].
  intros u x [H | [HP H]]; auto.
Qed.

Lemma run_open (h : Req.t -> Db -> Db * Res.t) (req : Req.t) (db : Db) :
  fst (run [] h req db) = fst (h req db).
Proof. unfold run. now destruct (h req db). Qed.

Lemma run_checked (limiter check : Req.t -> step) (h : Req.t -> Db -> Db * Res.t)
    (req : Req.t) (db : Db) :
  (forall r, limiter r = Next r \/ exists res, limiter r = Done res) ->
  (forall r, check r = Next r \/ exists res, check r = Done res) ->
  fst (run [limiter; check] h req db) = db
  \/ fst (run [limiter; check] h req db) = fst (h req db).
Proof.
  intros Hl Hc. unfold run.
  destruct (Hl req) as [->|[res ->]]; [| now left].
  destruct (Hc req) as [->|[res ->]]; [| now left].
  right. now destruct (h req db).
Qed.

Lemma authLimiter_steps (r : Req.t) :
  authLimiter w r = Next r \/ exists res, authLimiter w r = Done res.
Proof. unfold authLimiter. destruct (rate_limited w); eauto. Qed.

Lemma validateSignup_steps (r : Req.t) :
  validateSignup r = Next r \/ exists res, validateSignup r = Done res.
Proof. unfold validateSignup. destruct (signup_details _); eauto. Qed.

Lemma validateSignin_steps (r : Req.t) :
  validateSignin r = Next r \/ exists res, validateSignin r = Done res.
Proof. unfold validateSignin. destruct (signin_details _); eauto. Qed.

Lemma run_reads (ms : list (Req.t -> step)) (h : Req.t -> Db -> Db * Res.t)
    (req : Req.t) (db : Db) :
  (forall r d, fst (h r d) = d) -> fst (run ms h req db) = db.
Proof.
  intro Hh. revert req. induction ms as [|m ms IH]; intro req; simpl.
  - specialize (Hh req db). now destruct (h req db).
  - destruct (m req); auto.
Qed.

(** Who may change what: through the router, a document is replaced by one
    of the same role unless the route is the profile update and the
    requester may touch the document, and only documents the requester may
    touch are removed. *)
Lemma router_change (m : method) (path : list string) (req : Req.t) (db : Db) :
  change (new_ObjectId w)
         (fun user x => keeping_role user x
                        \/ (profile_update m path = true
                            /\ may_touch penv w req (User._id user)))
         (may_touch penv w req)
         (users db) (users (fst (router penv w m path req db))).
Proof.
  assert (Hopen : forall l l', change (new_ObjectId w) keeping_role never l l' ->
            change (new_ObjectId w)
                   (fun user x => keeping_role user x
                                  \/ (profile_update m path = true
                                      /\ may_touch penv w req (User._id user)))
                   (may_touch penv w req) l l').
  { intros l l'. apply change_weaken; [auto | intros o []]. }
  assert (Hkeep : forall (id : string) l l',
            change (new_ObjectId w) keeping_role (targets id) l l' ->
            change (new_ObjectId w)
                   (fun user x => keeping_role user x
                                  \/ (profile_update m path = true
                                      /\ targets id (User._id user)))
                   (targets id) l l').
  { intros id l l'. apply change_weaken; auto. }
  assert (Hpass : forall (id : string) l l',
            change (new_ObjectId w) keeping_role never l l' ->
            change (new_ObjectId w)
                   (fun user x => keeping_role user x
                                  \/ (profile_update m path = true
                                      /\ targets id (User._id user)))
                   (targets id) l l').
  { intros id l l'. apply change_weaken; [auto | intros o []]. }
  unfold router.
  destruct m, path as [|s [|s' [|s'' path]]]; cbn [fst]; try apply Same.
  - (* GET one segment *)
    destruct (literal "users" s).
    + rewrite run_reads; [apply Same | apply get_users_reads].
    + destruct (Js.truthy s).
      * rewrite run_reads; [apply Same | apply get_user_reads].
      * destruct (literal "me" s); [| apply Same].
        rewrite run_reads; [apply Same | apply get_me_reads].
  - (* POST one segment *)
    destruct (literal "signup" s).
    { destruct (run_checked (authLimiter w) validateSignup (post_signup penv w)
                  (no_params req) db (authLimiter_steps) validateSignup_steps) as [->| ->];
        [apply Same | apply Hopen, post_signup_change]. }
    destruct (literal "signin" s).
    { rewrite run_reads; [apply Same | apply post_signin_reads]. }
    destruct (literal "authWithGoogle" s).
    { rewrite run_open. apply Hopen, post_authWithGoogle_change. }
    destruct (literal "signout" s); [| apply Same].
    rewrite run_open. apply Same.
  - (* POST two segments *)
    destruct (literal "authentication" s && literal "signin" s'); [| apply Same].
    rewrite run_open. apply Hopen, post_admin_signin_change.
  - (* PUT one segment *)
    destruct (Js.truthy s) eqn:Es; [| apply Same].
    unfold upload_single. destruct (upload_refused w); [apply Same |].
    apply run_protected. intros r d Hr.
    eapply change_weaken; [| | apply (put_user_change w r d s Hr)]; cbv beta.
    + intros u x H. right. split; [exact Es | exact H].
    + intros o [].
  - (* PUT two segments *)
    destruct (literal "change-password" s && Js.truthy s'); [| apply Same].
    apply run_protected. intros r d Hr.
    apply Hpass, (put_change_password_change w r d s' Hr).
  - (* DELETE one segment *)
    destruct (Js.truthy s); [| apply Same].
    apply run_protected. intros r d Hr.
    apply Hkeep, (delete_user_change w r d s Hr).
  - (* DELETE two segments *)
    destruct (literal "delete-user" s && Js.truthy s'); [| apply Same].
    apply run_protected. intros r d Hr.
    apply Hkeep, (delete_user_and_orders_change w r d s' Hr).
Qed.

End Routing.

(** C2, as the code has it.  The profile update stores the [role] of the
    body for whoever passes [checkAdminOrOwner], the owner of the account
    included: an identity whose token carries a role other than [admin]
    gives itself the role it asks for. *)
Theorem owner_sets_own_role :
  forall {L : Libraries} (penv : ProcessEnv) (w : World) (req : Req.t) (db : Db)
         (id role : string) (claims : Jwt.claims) (user : User.t),
    let x := updatedData (role_only role) (User.avatar user) None user in
    requester penv w req = Some claims ->
    Jwt.role claims <> "admin" ->
    Jwt.id claims = id ->
    upload_refused w = false ->
    Js.truthy id = true ->
    ObjectId_cast id = Some (User._id user) ->
    find (has_id (User._id user)) (users db) = Some user ->
    Req.body req = role_only role ->
    Js.truthy role = true ->
    Req.file req = None ->
    schema_accepts (others (User._id user) (users db)) x = true ->
    router penv w PUT [id] req db
    = (set_users (replace x (users db)) db,
       Sent (Res.send 200
               (JObj [ ("success", JBool true);
                       ("message", JStr "Cập nhật thông tin người dùng thành công.");
                       ("user", User.without_password x) ])))
    /\ User._id x = User._id user
    /\ User.role x = role.
Proof.
  intros L penv w req db id role claims user x Hreq Hrole Hid Hup Htid Hcast Hfind Hbody
         Htrole Hfile Hok.
  split; [| split; [reflexivity | cbn; now rewrite Htrole]].
  unfold router. rewrite Htid. unfold upload_single. rewrite Hup.
  rewrite <- (requester_params penv w (Some id)) in Hreq.
  apply requester_Some in Hreq.
  unfold run, with_id. rewrite Hreq.
  unfold checkAdminOrOwner. cbn [Req.user Req.set_user Req.params_id Req.set_params_id].
  rewrite Hid.
  replace (Js.strict_eq (Some id) (Some id)) with true
    by (symmetry; now apply strict_eq_true).
  rewrite orb_true_r.
  unfold put_user, try_catch, bind, param_id, ret.
  cbn [Req.params_id Req.set_user Req.set_params_id Req.body Req.file].
  rewrite Hbody, Hfile. unfold ObjectId_isValid, findById, findByIdAndUpdate. rewrite Hcast.
  cbn [negb]. rewrite Hfind. cbn -[updatedData replace others User.without_password].
  rewrite Hfind. fold x. rewrite Hok. reflexivity.
Qed.

Lemma owner_sets_own_role_witness :
  let L := Sample.libraries Sample.alice_token in
  let promoted := updatedData (role_only "admin") None None Sample.alice in
  Jwt.role Sample.alice_claims = "user"
  /\ fst (router Sample.penv (Sample.world 2000000) PUT [Sample.alice_id]
                  (Sample.with_cookie (role_only "admin")) Sample.db)
     = {| users := [promoted; Sample.bob]; orders := [] |}
  /\ User.role promoted = "admin".
Proof.
  intros L promoted.
  destruct (owner_sets_own_role (L := L) Sample.penv (Sample.world 2000000)
              (Sample.with_cookie (role_only "admin")) Sample.db Sample.alice_id "admin"
              Sample.alice_claims Sample.alice)
    as (Hrun & _ & Hrole); try reflexivity; [discriminate |].
  split; [reflexivity |]. split; [| exact Hrole].
  now rewrite Hrun.
Defined.

(** The roles of the collection change through the profile update only. *)

Section Sequences.

Context {L : Libraries}.
Variable penv : ProcessEnv.

Lemma router_keeps_role (c : call) (db : Db) (u : User.t) :
  role_kept u db ->
  ~ updates_profile penv (User._id u) c ->
  new_ObjectId (call_world c) <> User._id u ->
  role_kept u (fst (router penv (call_world c) (call_method c) (call_path c)
                           (call_req c) db)).
Proof.
  intros Hkept Hno Hfresh v' Hv' E.
  refine (change_keeps_role _ _ _ _ _ (User._id u) (User.role u)
            (router_change penv (call_world c) (call_method c) (call_path c)
                           (call_req c) db) Hfresh _ Hkept v' Hv' E).
  intros user x [H | [Hp Hmay]] E'; [exact H |].
  exfalso. apply Hno. split; [exact Hp | now rewrite <- E'].
Qed.

End Sequences.

(** X29. Over every sequence of requests that the router serves one after
    the other, the documents under the id of an identity keep the role they
    had as long as no request is a profile update, PUT /:id, with the
    verified token of an admin or of that identity itself, and no new
    document is given that id.  Signing up, signing in, the federated and
    the admin sign-in, the change of password and the two deletions, by
    whomever, write no role over another. *)
Theorem roles_change_only_through_profile_updates :
  forall {L : Libraries} (penv : ProcessEnv) (calls : list call) (db : Db) (u : User.t),
    role_kept u db ->
    Forall (fun c => ~ updates_profile penv (User._id u) c
                     /\ new_ObjectId (call_world c) <> User._id u) calls ->
    role_kept u (serve penv calls db).
Proof.
  intros L penv calls. induction calls as [|c calls IH]; intros db u Hkept Hcalls.
  - exact Hkept.
  - inversion Hcalls as [|? ? [Hno Hfresh] Hrest]; subst. cbn [serve].
    apply IH; [| exact Hrest]. now apply router_keeps_role.
Qed.

Lemma roles_change_only_through_profile_updates_witness :
  let L := Sample.libraries Sample.alice_token in
  let own path body := {| call_world := Sample.world 2000000;
                          call_method := PUT;
                          call_path := path;
                          call_req := Sample.with_cookie body |} in
  let change_password :=
    Body.mk None None None None None None None None None (Some "admin") None
            (Some "Alice#2024") (Some "Alice#2025") in
  role_kept Sample.alice
    (serve Sample.penv
           [ own ["change-password"; Sample.alice_id] change_password;
             {| call_world := Sample.world 3000000;
                call_method := DELETE;
                call_path := [Sample.alice_id];
                call_req := Sample.with_cookie Body.empty |} ]
           Sample.db).
Proof.
  intros L own change_password.
  apply (roles_change_only_through_profile_updates (L := L)).
  - intros u' [<- | [<- | []]]; [reflexivity | discriminate].
  - repeat (apply Forall_cons; [split; [intros [H _]; discriminate H | discriminate] |]).
    apply Forall_nil.
Defined.

(** * Further properties of the code *)

(** ** Patterns and the strings they denote *)

Lemma lang_Void s : ~ lang Regex.Void s.
Proof. intro H. inversion H. Qed.

Lemma append_nil_inv (u v : string) : u ++ v = "" -> u = "" /\ v = "".
Proof. destruct u; simpl; [auto | discriminate]. Qed.

Lemma lang_Eps_inv w : lang Regex.Eps w -> w = "".
Proof. intro H. now inversion H. Qed.

Lemma lang_Chr_inv p w : lang (Regex.Chr p) w -> exists c, w = String c "" /\ p c = true.
Proof. intro H. inversion H; subst. eauto. Qed.

Lemma lang_Seq_inv r s w :
  lang (Regex.Seq r s) w -> exists u v, w = u ++ v /\ lang r u /\ lang s v.
Proof. intro H. inversion H; subst. eauto. Qed.

Lemma lang_Alt_inv r s w : lang (Regex.Alt r s) w -> lang r w \/ lang s w.
Proof. intro H. inversion H; subst; auto. Qed.

Lemma lang_Both_inv r s w : lang (Regex.Both r s) w -> lang r w /\ lang s w.
Proof. intro H. inversion H; subst; auto. Qed.

Lemma lang_Seq_nil r s : lang r "" -> lang s "" -> lang (Regex.Seq r s) "".
Proof. intros. change "" with ("" ++ ""). now constructor. Qed.

Lemma nullable_lang r : Regex.nullable r = true <-> lang r "".
Proof.
  induction r; simpl.
  - split; [discriminate | intro H; inversion H].
  - split; [constructor | reflexivity].
  - split; [discriminate | intro H; inversion H].
  - rewrite andb_true_iff, IHr1, IHr2. split.
    + intros [H1 H2]. now apply lang_Seq_nil.
    + intro H. apply lang_Seq_inv in H as (u & v & E & Hu & Hv).
      symmetry in E. apply append_nil_inv in E as [-> ->]. auto.
  - rewrite orb_true_iff, IHr1, IHr2. split.
    + intros [H|H]; [now apply LAltL | now apply LAltR].
    + apply lang_Alt_inv.
  - split; [constructor | reflexivity].
  - rewrite andb_true_iff, IHr1, IHr2. split.
    + intros [H1 H2]. now constructor.
    + apply lang_Both_inv.
Qed.

Lemma lang_seq r s w : lang (Regex.seq r s) w <-> lang (Regex.Seq r s) w.
Proof.
  split.
  - intro H.
    destruct r; try (simpl in H; now apply lang_Void in H);
      destruct s; simpl in H; try (now apply lang_Void in H); try exact H;
      change w with ("" ++ w); constructor; auto; constructor.
  - intro H. apply lang_Seq_inv in H as (u & v & -> & Hu & Hv).
    destruct r; try (now apply lang_Void in Hu);
      destruct s; try (now apply lang_Void in Hv); simpl;
      try (now constructor);
      apply lang_Eps_inv in Hu; subst; exact Hv.
Qed.

Lemma lang_alt r s w : lang (Regex.alt r s) w <-> lang (Regex.Alt r s) w.
Proof.
  split.
  - intro H.
    destruct r; try (simpl in H; now apply LAltR);
      destruct s; simpl in H; try exact H; now apply LAltL.
  - intro H. apply lang_Alt_inv in H as [H|H];
      destruct r; try (now apply lang_Void in H); simpl; try exact H;
      destruct s; try (now apply lang_Void in H); simpl; try exact H;
      first [now apply LAltL | now apply LAltR].
Qed.

Lemma lang_both r s w : lang (Regex.both r s) w <-> lang (Regex.Both r s) w.
Proof.
  split.
  - intro H.
    destruct r; try (simpl in H; now apply lang_Void in H);
      destruct s; simpl in H; try (now apply lang_Void in H); exact H.
  - intro H. apply lang_Both_inv in H as [H1 H2].
    destruct r; try (now apply lang_Void in H1);
      destruct s; try (now apply lang_Void in H2); simpl; now constructor.
Qed.

(** A non-empty member of [r*] starts with a non-empty member of [r]. *)
Lemma lang_Star_cons_aux R x :
  lang R x ->
  forall r c w, R = Regex.Star r -> x = String c w ->
  exists u v, w = u ++ v /\ lang r (String c u) /\ lang (Regex.Star r) v.
Proof.
  induction 1 as [| | | | | r0 | r0 u v Hu _ Hv IH |]; intros rr cc ww ER Ew;
    try discriminate.
  injection ER as ->.
  destruct u as [|d u].
  - simpl in Ew. now apply IH.
  - simpl in Ew. injection Ew as -> <-. eauto.
Qed.

Lemma lang_Star_cons r c w :
  lang (Regex.Star r) (String c w) ->
  exists u v, w = u ++ v /\ lang r (String c u) /\ lang (Regex.Star r) v.
Proof. intro H. now apply (lang_Star_cons_aux _ _ H). Qed.

Lemma deriv_lang r : forall c w, lang (Regex.deriv c r) w <-> lang r (String c w).
Proof.
  induction r; intros c w; simpl.
  - split; intro H; inversion H.
  - split; intro H; inversion H.
  - destruct (p c) eqn:E; split; intro H.
    + apply lang_Eps_inv in H. subst. now constructor.
    + apply lang_Chr_inv in H as (d & Hd & Hp). injection Hd as -> ->. constructor.
    + now apply lang_Void in H.
    + apply lang_Chr_inv in H as (d & Hd & Hp). injection Hd as -> _. congruence.
  - rewrite lang_alt. split; intro H.
    + apply lang_Alt_inv in H as [H|H].
      * apply lang_seq in H. apply lang_Seq_inv in H as (u & v & -> & Hu & Hv).
        apply IHr1 in Hu. change (String c (u ++ v)) with (String c u ++ v).
        now constructor.
      * destruct (Regex.nullable r1) eqn:N; [| now apply lang_Void in H].
        apply nullable_lang in N. apply IHr2 in H.
        change (String c w) with ("" ++ String c w). now constructor.
    + apply lang_Seq_inv in H as (u & v & E & Hu & Hv).
      destruct u as [|d u].
      * simpl in E. subst v. apply LAltR.
        apply nullable_lang in Hu. rewrite Hu. now apply IHr2.
      * simpl in E. injection E as <- ->. apply LAltL. apply lang_seq.
        constructor; [now apply IHr1 | exact Hv].
  - rewrite lang_alt. split; intro H.
    + apply lang_Alt_inv in H as [H|H]; [apply LAltL, IHr1 | apply LAltR, IHr2]; exact H.
    + apply lang_Alt_inv in H as [H|H]; [apply LAltL, IHr1 | apply LAltR, IHr2]; exact H.
  - rewrite lang_seq. split; intro H.
    + apply lang_Seq_inv in H as (u & v & -> & Hu & Hv).
      apply IHr in Hu. change (String c (u ++ v)) with (String c u ++ v).
      now constructor.
    + apply lang_Star_cons in H as (u & v & -> & Hu & Hv).
      constructor; [now apply IHr | exact Hv].
  - rewrite lang_both. split; intro H.
    + apply lang_Both_inv in H as [H1 H2]. constructor; [apply IHr1 | apply IHr2]; auto.
    + apply lang_Both_inv in H as [H1 H2]. constructor; [apply IHr1 | apply IHr2]; auto.
Qed.

(** The matcher decides the language of the pattern. *)
Lemma accepts_lang r w : Regex.accepts r w = true <-> lang r w.
Proof.
  revert r. induction w as [|c w IH]; intro r; simpl.
  - apply nullable_lang.
  - rewrite IH. apply deriv_lang.
Qed.

(** ** Validation *)

Lemma has_app p u v : has p (u ++ v) = has p u || has p v.
Proof. induction u; simpl; [reflexivity |]. now rewrite IHu, orb_assoc. Qed.

Lemma lang_Star_any w : lang (Regex.Star Regex.any) w.
Proof.
  induction w as [|c w IH]; [constructor |].
  change (String c w) with (String c "" ++ w). constructor; [now constructor | exact IH].
Qed.

Lemma has_split p w : has p w = true -> exists u c v, w = u ++ String c v /\ p c = true.
Proof.
  induction w as [|d w IH]; simpl; [discriminate |].
  destruct (p d) eqn:E; simpl.
  - intros _. now exists "", d, w.
  - intro H. destruct (IH H) as (u & c & v & -> & Hc). now exists (String d u), c, v.
Qed.

(** [/[class]/.test(s)] holds exactly when some character of [s] is in the
    class. *)
Lemma test_has p w : Regex.test (Regex.Chr p) w = has p w.
Proof.
  apply eq_true_iff_eq. unfold Regex.test. rewrite accepts_lang. split.
  - intro H. apply lang_Seq_inv in H as (u & v & -> & _ & H).
    apply lang_Seq_inv in H as (a & b & -> & Ha & _).
    apply lang_Chr_inv in Ha as (c & -> & Hc).
    rewrite !has_app. simpl. rewrite Hc. now rewrite orb_true_r.
  - intro H. apply has_split in H as (u & c & v & -> & Hc).
    constructor; [apply lang_Star_any |].
    change (String c v) with (String c "" ++ v).
    constructor; [now constructor | apply lang_Star_any].
Qed.

Lemma ahead_has p w : lang (Regex.ahead (Regex.Chr p)) w -> has p w = true.
Proof.
  intro H. apply lang_Seq_inv in H as (u & v & -> & _ & H).
  apply lang_Seq_inv in H as (a & b & -> & Ha & _).
  apply lang_Chr_inv in Ha as (c & -> & Hc).
  rewrite !has_app. simpl. rewrite Hc. now rewrite orb_true_r.
Qed.

Lemma isValidPassword_eq password :
  isValidPassword password =
  ((if (Js.length password <? 8)%nat then [msg_minLength] else [])
   ++ (if has Regex.upper password then [] else [msg_uppercase])
   ++ (if has Regex.lower password then [] else [msg_lowercase])
   ++ (if has Regex.digit password then [] else [msg_digit])
   ++ (if has special password then [] else [msg_special]))%list.
Proof.
  unfold isValidPassword, push_if. rewrite !test_has.
  destruct (Js.length password <? 8)%nat, (has Regex.upper password),
    (has Regex.lower password), (has Regex.digit password), (has special password);
    reflexivity.
Qed.

(** X1. [isValidPassword] reports each failed test by its own message and nothing
    else: the length message exactly when the password has fewer than 8
    UTF-16 code units, which is what [password.length] counts, and the
    upper-case, lower-case, digit and special-character messages exactly when
    the password has no character of that class.  No message is listed
    twice, and the list is empty exactly when all five tests pass. *)
Theorem isValidPassword_lists_each_failure :
  forall password : string,
    (In msg_minLength (isValidPassword password) <-> (Js.length password < 8)%nat)
    /\ (In msg_uppercase (isValidPassword password) <-> has Regex.upper password = false)
    /\ (In msg_lowercase (isValidPassword password) <-> has Regex.lower password = false)
    /\ (In msg_digit (isValidPassword password) <-> has Regex.digit password = false)
    /\ (In msg_special (isValidPassword password) <-> has special password = false)
    /\ NoDup (isValidPassword password)
    /\ (isValidPassword password = []
        <-> (8 <= Js.length password)%nat
            /\ has Regex.upper password = true
            /\ has Regex.lower password = true
            /\ has Regex.digit password = true
            /\ has special password = true).
Proof.
  intro password. rewrite isValidPassword_eq.
  destruct (Nat.ltb_spec (Js.length password) 8) as [Hl|Hl];
    destruct (has Regex.upper password), (has Regex.lower password),
      (has Regex.digit password), (has special password);
    cbn [app];
    repeat split;
    try (intro; lia); try discriminate; try reflexivity; try (intros; lia);
    try (intros _; simpl; tauto);
    try (simpl; intros H; repeat destruct H as [H|H]; try discriminate H; try contradiction);
    try (intros [? ?]; lia);
    try (intros (_ & ? & ? & ? & ?); discriminate);
    try (repeat constructor; simpl; intuition discriminate).
Qed.

Lemma isValidPassword_lists_each_failure_witness :
  In msg_minLength (isValidPassword "Aé1!aaa")
  /\ ~ In msg_uppercase (isValidPassword "Aé1!aaa")
  /\ isValidPassword "Aé1!aaaa" = [].
Proof.
  destruct (isValidPassword_lists_each_failure "Aé1!aaa") as (Hlen & Hup & _).
  destruct (isValidPassword_lists_each_failure "Aé1!aaaa") as (_ & _ & _ & _ & _ & _ & Hall).
  split; [apply Hlen; vm_compute; lia |].
  split; [intro H; apply Hup in H; discriminate H |].
  apply Hall. repeat split; first [reflexivity | vm_compute; lia].
Defined.

Lemma flat_map_nil {A B : Type} (f : A -> list B) (l : list A) :
  flat_map f l = [] -> forall a, In a l -> f a = [].
Proof.
  induction l as [|x l IH]; simpl; intros H a Ha; [contradiction |].
  apply app_eq_nil in H as [Hx Hl]. destruct Ha as [<-|Ha]; auto.
Qed.

Lemma joi_string_passes key trim rules value :
  joi_string key trim rules value = [] ->
  exists raw,
    value = Some raw
    /\ Js.truthy (if trim then Js.trim raw else raw) = true
    /\ forall r, In r rules -> holds r (if trim then Js.trim raw else raw) = true.
Proof.
  unfold joi_string. destruct value as [raw|]; [| discriminate].
  destruct (Js.truthy _) eqn:Et; [| discriminate].
  intro H. exists raw. repeat split; auto.
  intros r Hr. pose proof (flat_map_nil _ _ H r Hr) as Hf. cbv beta in Hf.
  destruct (holds r _); [reflexivity | destruct (message r); discriminate].
Qed.

Lemma trim_truthy s : Js.truthy (Js.trim s) = true -> Js.truthy s = true.
Proof. destruct s; [discriminate | reflexivity]. Qed.

(** X2. A request that [validateSignup] passes on is passed on unchanged, and
    its body holds [username], [phone], [password] and [fullName] with
    [confirmPassword] equal to [password]; the handler's own check of the
    required fields then finds none missing, the phone matches the pattern of
    the schema, and the password has 8 to 64 UTF-16 code units with an
    upper-case letter, a lower-case letter and a digit.  Of the five tests
    of [isValidPassword] only the one for a special character can still
    fail. *)
Theorem validateSignup_passes :
  forall {L : Libraries} (req r : Req.t),
    validateSignup req = Next r ->
    r = req
    /\ exists username phone password fullName,
         Body.username (Req.body req) = Some username
         /\ Body.phone (Req.body req) = Some phone
         /\ Body.password (Req.body req) = Some password
         /\ Body.fullName (Req.body req) = Some fullName
         /\ Body.confirmPassword (Req.body req) = Some password
         /\ checkRequiredFields [ ("username", Some username); ("phone", Some phone);
                                  ("password", Some password); ("fullName", Some fullName);
                                  ("confirmPassword", Some password) ] = None
         /\ Regex.accepts phone_pattern phone = true
         /\ (8 <= Js.length password <= 64)%nat
         /\ has Regex.upper password = true
         /\ has Regex.lower password = true
         /\ has Regex.digit password = true
         /\ (isValidPassword password = [] \/ isValidPassword password = [msg_special]).
Proof.
  intros L req r. unfold validateSignup.
  destruct (signup_details (Req.body req)) eqn:E; [| discriminate].
  intro H. injection H as <-. split; [reflexivity |].
  unfold signup_details in E.
  apply app_eq_nil in E as [Eu E]. apply app_eq_nil in E as [Eph E].
  apply app_eq_nil in E as [Ef E]. apply app_eq_nil in E as [Epw Ec].
  apply joi_string_passes in Eu as (username & Hu & Htu & _).
  apply joi_string_passes in Eph as (phone & Hph & Htph & Hrph).
  apply joi_string_passes in Ef as (fullName & Hf & Htf & _).
  apply joi_string_passes in Epw as (password & Hpw & Htpw & Hrpw).
  apply trim_truthy in Htu. apply trim_truthy in Htf.
  assert (Hc : Body.confirmPassword (Req.body req) = Some password).
  { unfold joi_confirm in Ec.
    destruct (Body.confirmPassword (Req.body req)) as [c|]; [| discriminate].
    destruct (Js.strict_eq (Some c) (Body.password (Req.body req))) eqn:Es; [| discriminate].
    apply strict_eq_true in Es. congruence. }
  pose proof (Hrph _ (or_introl eq_refl)) as Hphone. cbn [holds joi_pattern] in Hphone.
  pose proof (Hrpw _ (or_introl eq_refl)) as Hmin. cbn [holds joi_min] in Hmin.
  pose proof (Hrpw _ (or_intror (or_introl eq_refl))) as Hmax. cbn [holds joi_max] in Hmax.
  pose proof (Hrpw _ (or_intror (or_intror (or_introl eq_refl)))) as Hpat.
  cbn [holds joi_pattern] in Hpat.
  apply Nat.leb_le in Hmin, Hmax.
  apply accepts_lang in Hpat. unfold password_pattern in Hpat.
  apply lang_Both_inv in Hpat as [Hup Hpat]. apply lang_Both_inv in Hpat as [Hlo Hpat].
  apply lang_Both_inv in Hpat as [Hdi _].
  apply ahead_has in Hup, Hlo, Hdi.
  exists username, phone, password, fullName.
  repeat split; auto.
  - cbn [checkRequiredFields Js.truthy_opt]. now rewrite Htu, Htph, Htpw, Htf.
  - rewrite isValidPassword_eq, Hup, Hlo, Hdi.
    destruct (Nat.ltb_spec (Js.length password) 8); [lia |].
    destruct (has special password); auto.
Qed.

Lemma validateSignup_passes_witness :
  let L := Sample.libraries Sample.alice_token in
  let body :=
    Body.mk (Some "carol") (Some "0911222333") (Some "Abc12345") (Some "Carol Le")
            (Some "Abc12345") None None None None None None None None in
  isValidPassword "Abc12345" = [] \/ isValidPassword "Abc12345" = [msg_special].
Proof.
  intros L body.
  destruct (validateSignup_passes (L := L) (incoming None None body) (incoming None None body) eq_refl)
    as (_ & u & ph & pw & f & _ & _ & Hpw & _ & _ & _ & _ & _ & _ & _ & _ & H).
  injection Hpw as <-. exact H.
Defined.

(** X3. A request that [validateSignin] passes on is passed on unchanged; its
    [usernameOrPhone] is a non-empty string that matches the phone pattern or
    has 3 to 30 UTF-16 code units once trimmed, and its [password] has 6 to
    64 of them. *)
Theorem validateSignin_passes :
  forall {L : Libraries} (req r : Req.t),
    validateSignin req = Next r ->
    r = req
    /\ exists name password,
         Body.usernameOrPhone (Req.body req) = Some name
         /\ Body.password (Req.body req) = Some password
         /\ Js.truthy name = true
         /\ (6 <= Js.length password <= 64)%nat
         /\ (Regex.accepts phone_pattern name = true
             \/ (3 <= Js.length (Js.trim name) <= 30)%nat).
Proof.
  intros L req r. unfold validateSignin.
  destruct (signin_details (Req.body req)) eqn:E; [| discriminate].
  intro H. injection H as <-. split; [reflexivity |].
  unfold signin_details in E. apply app_eq_nil in E as [En Ep].
  apply joi_string_passes in Ep as (password & Hpw & Htpw & Hrpw).
  pose proof (Hrpw _ (or_introl eq_refl)) as Hmin. cbn [holds joi_min] in Hmin.
  pose proof (Hrpw _ (or_intror (or_introl eq_refl))) as Hmax. cbn [holds joi_max] in Hmax.
  apply Nat.leb_le in Hmin, Hmax.
  unfold joi_usernameOrPhone in En.
  destruct (Body.usernameOrPhone (Req.body req)) as [name|]; [| discriminate].
  exists name, password. split; [reflexivity |]. split; [exact Hpw |].
  destruct (joi_string "usernameOrPhone" true _ (Some name)) eqn:E1.
  - apply joi_string_passes in E1 as (raw & Hraw & Ht & Hr). injection Hraw as <-.
    split; [now apply trim_truthy |]. split; [lia |]. right.
    pose proof (Hr _ (or_intror (or_introl eq_refl))) as H3. cbn [holds joi_min] in H3.
    pose proof (Hr _ (or_intror (or_intror (or_introl eq_refl)))) as H30.
    cbn [holds joi_max] in H30. apply Nat.leb_le in H3, H30. lia.
  - destruct (joi_string "usernameOrPhone" false _ (Some name)) eqn:E2; [| discriminate].
    apply joi_string_passes in E2 as (raw & Hraw & Ht & Hr). injection Hraw as <-.
    split; [exact Ht |]. split; [lia |]. left.
    apply (Hr _ (or_introl eq_refl)).
Qed.

Lemma validateSignin_passes_witness :
  let L := Sample.libraries Sample.alice_token in
  let req := incoming None None (Cases.signin_body "alice" "Alice#2024") in
  exists name password,
    Body.usernameOrPhone (Req.body req) = Some name
    /\ Body.password (Req.body req) = Some password
    /\ Js.truthy name = true
    /\ (6 <= Js.length password <= 64)%nat
    /\ (Regex.accepts phone_pattern name = true
        \/ (3 <= Js.length (Js.trim name) <= 30)%nat).
Proof.
  intros L req.
  exact (proj2 (validateSignin_passes (L := L) req req eq_refl)).
Defined.

(** ** The other two authenticators *)

Lemma truthy_opt_Some (v : option string) :
  Js.truthy_opt v = true -> exists t, v = Some t /\ Js.truthy t = true.
Proof. destruct v as [t|]; simpl; [eauto | discriminate]. Qed.

Ltac settle :=
  intros;
  repeat match goal with
         | H : _ /\ _ |- _ => destruct H
         | H : exists _, _ |- _ => destruct H
         | H : Done _ = Done _ |- _ => injection H as <-
         | H : Next _ = Next _ |- _ => injection H as <-
         | H : Some _ = Some _ |- _ => injection H as <-
         end;
  try discriminate; cbn in *; try congruence; eauto 8.

Lemma jwt_verify_HS256 {L : Libraries} (t : string) (secret : option string) (w : World) :
  jwt_verify_with ["HS256"] t secret w
  = match option_map Jwt.alg (jwt_decode t) with
    | Some a => if String.eqb a "HS256" then jwt_verify t secret w
                else Throw JsonWebTokenError
    | None => Throw JsonWebTokenError
    end.
Proof.
  unfold jwt_verify, jwt_verify_with.
  destruct secret as [key|]; [| now destruct (option_map _ _) as [a|]; [destruct (_ =? _) |]].
  destruct (Js.truthy key);
    [| now destruct (option_map _ _) as [a|]; [destruct (_ =? _) |]].
  destruct (jwt_decode t) as [tok|]; [| reflexivity].
  cbn [option_map existsb]. destruct (Jwt.alg tok =? "HS256") eqn:E; reflexivity.
Qed.

(** X4. [authJwt] passes on exactly the requests that [verifyToken] passes on
    and whose token names the algorithm HS256, with the same [req.user]; a
    token of another algorithm that [verifyToken] accepts is answered 401.
    Every answer of [authJwt] has the status 401 and leaves the cookies
    alone, and what [verifyToken] answers itself [authJwt] answers too. *)
Theorem authJwt_accepts_HS256_only :
  forall {L : Libraries} (penv : ProcessEnv) (w : World) (req : Req.t),
    (forall r, authJwt penv w req = Next r
               <-> verifyToken penv w req = Next r /\ token_alg req = Some "HS256")
    /\ (forall r a, verifyToken penv w req = Next r ->
                    token_alg req = Some a -> a <> "HS256" ->
                    authJwt penv w req
                    = Done (Res.send 401
                              (JObj [ ("message",
                                       JStr "Token không hợp lệ hoặc đã hết hạn.") ])))
    /\ (forall res, authJwt penv w req = Done res ->
                    Res.status res = 401%Z /\ Res.cookies res = [])
    /\ (forall res, verifyToken penv w req = Done res ->
                    exists res', authJwt penv w req = Done res').
Proof.
  intros L penv w req.
  rewrite verifyToken_cases. unfold authJwt, token_alg, token_of.
  destruct (Js.or_else (Req.cookies_token req) (tokenFromHeader req)) as [t|];
    cbn [Js.truthy_opt negb the]; [| repeat split; settle].
  destruct (Js.truthy t); cbn [negb]; [| repeat split; settle].
  rewrite jwt_verify_HS256.
  destruct (option_map Jwt.alg (jwt_decode t)) as [a|] eqn:Ea.
  - destruct (String.eqb_spec a "HS256") as [-> | Hne].
    + destruct (jwt_verify t (JWT_SECRET penv) w) as [d|e]; repeat split; settle.
    + destruct (jwt_verify t (JWT_SECRET penv) w) as [d|e]; repeat split; settle.
  - destruct (jwt_verify t (JWT_SECRET penv) w) as [d|e] eqn:Ev; repeat split; settle.
    all: exfalso; unfold jwt_verify, jwt_verify_with in Ev;
      destruct (JWT_SECRET penv) as [k|]; [| discriminate];
      destruct (Js.truthy k); [| discriminate];
      destruct (jwt_decode t); discriminate.
Qed.

Lemma authJwt_accepts_HS256_only_witness :
  let L := Sample.libraries (Jwt.mk Sample.alice_claims "secret" "HS512") in
  let req := Sample.with_cookie Body.empty in
  verifyToken Sample.penv (Sample.world 2000000) req
  = Next (Req.set_user Sample.alice_claims req)
  /\ authJwt Sample.penv (Sample.world 2000000) req
     = Done (Res.send 401 (JObj [ ("message", JStr "Token không hợp lệ hoặc đã hết hạn.") ])).
Proof.
  intros L req. split; [reflexivity |].
  destruct (authJwt_accepts_HS256_only (L := L) Sample.penv (Sample.world 2000000) req)
    as (_ & H & _).
  apply (H (Req.set_user Sample.alice_claims req) "HS512"); [reflexivity | reflexivity |].
  discriminate.
Defined.

(** X5. [isAdmin] passes a request on exactly when [verifyToken] does and the
    role of the decoded claims is [admin].  A requester with a valid token
    and another role gets 403, a request without a valid token gets 401, and
    no answer of [isAdmin] touches a cookie. *)
Theorem isAdmin_admits_only_admins :
  forall {L : Libraries} (penv : ProcessEnv) (w : World) (req : Req.t),
    (forall r, isAdmin penv w req = Next r
               <-> verifyToken penv w req = Next r
                   /\ exists claims, Req.user r = Some claims /\ Jwt.role claims = "admin")
    /\ (forall claims, requester penv w req = Some claims ->
                       Jwt.role claims <> "admin" ->
                       isAdmin penv w req
                       = Done (Res.send 403 (failure "Bạn không có quyền truy cập.")))
    /\ (requester penv w req = None ->
        exists res, isAdmin penv w req = Done res /\ Res.status res = 401%Z)
    /\ (forall res, isAdmin penv w req = Done res -> Res.cookies res = []).
Proof.
  intros L penv w req. unfold requester. rewrite verifyToken_cases.
  unfold isAdmin, token_of.
  destruct (Js.or_else (Req.cookies_token req) (tokenFromHeader req)) as [t|];
    cbn [Js.truthy_opt negb the]; [| repeat split; settle].
  destruct (Js.truthy t); cbn [negb]; [| repeat split; settle].
  destruct (jwt_verify t (JWT_SECRET penv) w) as [d|e] eqn:Ev; [| repeat split; settle].
  destruct (String.eqb_spec (Jwt.role d) "admin") as [Ha|Ha]; cbn [negb];
    repeat split; settle.
Qed.

Lemma isAdmin_admits_only_admins_witness :
  let L := Sample.libraries Sample.alice_token in
  isAdmin Sample.penv (Sample.world 2000000) (Sample.with_cookie Body.empty)
  = Done (Res.send 403 (failure "Bạn không có quyền truy cập."))
  /\ exists res,
       isAdmin Sample.penv (Sample.world 2000000) (incoming None None Body.empty) = Done res
       /\ Res.status res = 401%Z.
Proof.
  intro L.
  destruct (isAdmin_admits_only_admins (L := L) Sample.penv (Sample.world 2000000)
              (Sample.with_cookie Body.empty)) as (_ & H403 & _).
  destruct (isAdmin_admits_only_admins (L := L) Sample.penv (Sample.world 2000000)
              (incoming None None Body.empty)) as (_ & _ & H401 & _).
  split; [apply (H403 Sample.alice_claims); [reflexivity | discriminate] |].
  apply H401. reflexivity.
Defined.

(** ** The routes behind the middlewares, and the shape of the responses *)

Ltac unfold_handlers :=
  unfold try_catch, attempt, bind, param_id, ret, throw, lift,
    find_by_usernameOrPhone, findById, findOne, findByIdAndUpdate, findByIdAndDelete,
    insert, save, countDocuments, find_page, orders_of, deleteMany_orders,
    cloudinary_uploader_destroy;
  cbv zeta.

Lemma verifyToken_Done (L : Libraries) penv w req res :
  verifyToken penv w req = Done res ->
  Res.status res = 401%Z
  /\ (res = please_sign_in \/ res = session_rejected penv).
Proof.
  rewrite verifyToken_cases.
  destruct (token_of req) as [t|]; [| intro H; injection H as <-; auto].
  destruct (Js.truthy t); [| intro H; injection H as <-; auto].
  destruct (jwt_verify _ _ _); [discriminate | intro H; injection H as <-; auto].
Qed.

Lemma verifyToken_no_Crash (L : Libraries) penv w req e : verifyToken penv w req <> Crash e.
Proof.
  rewrite verifyToken_cases.
  destruct (token_of req) as [t|]; [| discriminate].
  destruct (Js.truthy t); [| discriminate].
  destruct (jwt_verify _ _ _); discriminate.
Qed.

(** X6. On the routes behind [verifyToken] that can be reached (GET /users,
    DELETE /:id, PUT /:id, PUT /change-password/:id and DELETE
    /delete-user/:id) a request that carries no valid token is answered 401,
    by one of the two responses of [verifyToken], and the collections are left
    as they were.  The one exception is PUT /:id when the upload middleware,
    which runs first, refuses the request: the error then goes to the
    application, whatever the token. *)
Theorem guarded_routes_need_a_token :
  forall {L : Libraries} (penv : ProcessEnv) (w : World) (m : method) (path : list string)
         (req : Req.t) (db : Db),
    guarded m path = true ->
    requester penv w req = None ->
    if profile_update m path && upload_refused w
    then router penv w m path req db = (db, Failed MulterError)
    else exists res,
           router penv w m path req db = (db, Sent res)
           /\ Res.status res = 401%Z
           /\ (res = please_sign_in \/ res = session_rejected penv).
Proof.
  intros L penv w m path req db Hg Hreq.
  assert (Hv : forall i, exists res,
             verifyToken penv w (Req.set_params_id i req) = Done res
             /\ Res.status res = 401%Z
             /\ (res = please_sign_in \/ res = session_rejected penv)).
  { intro i. rewrite verifyToken_params.
    destruct (requester_None penv w req Hreq) as [res Hres]. rewrite Hres.
    exists res. split; [reflexivity |]. now apply (verifyToken_Done L penv w req). }
  unfold router.
  destruct m, path as [|s [|s' [|s'' path]]]; try discriminate Hg;
    cbn [guarded profile_update] in *; cbn [andb].
  - rewrite Hg. unfold run, no_params. destruct (Hv None) as (res & -> & H). eauto.
  - rewrite Hg. unfold upload_single. destruct (upload_refused w); cbn [andb];
      [reflexivity |].
    unfold run, with_id. destruct (Hv (Some s)) as (res & -> & H). eauto.
  - rewrite Hg. unfold run, with_id. destruct (Hv (Some s')) as (res & -> & H). eauto.
  - rewrite Hg. unfold run, with_id. destruct (Hv (Some s)) as (res & -> & H). eauto.
  - rewrite Hg. unfold run, with_id. destruct (Hv (Some s')) as (res & -> & H). eauto.
Qed.

Lemma guarded_routes_need_a_token_witness :
  let L := Sample.libraries Sample.alice_token in
  (exists res,
      router Sample.penv (Sample.world 2000000) PUT [Sample.bob_id]
             (incoming None None Body.empty) Sample.db
      = (Sample.db, Sent res)
      /\ Res.status res = 401%Z
      /\ (res = please_sign_in \/ res = session_rejected Sample.penv))
  /\ router Sample.penv (Cases.refusing (Sample.world 2000000)) PUT [Sample.bob_id]
            (incoming None None Body.empty) Sample.db
     = (Sample.db, Failed MulterError).
Proof.
  intro L. split.
  - apply (guarded_routes_need_a_token (L := L) Sample.penv (Sample.world 2000000) PUT
             [Sample.bob_id] (incoming None None Body.empty) Sample.db); reflexivity.
  - apply (guarded_routes_need_a_token (L := L) Sample.penv
             (Cases.refusing (Sample.world 2000000)) PUT
             [Sample.bob_id] (incoming None None Body.empty) Sample.db); reflexivity.
Defined.

(** X7. On the routes with [:id] behind [checkAdminOrOwner] (DELETE /:id, PUT
    /:id, PUT /change-password/:id and DELETE /delete-user/:id) a requester
    whose role is not [admin] and whose id is not the [:id] of the path is
    answered 403, and the collections are left as they were.  The one
    exception is PUT /:id when the upload middleware, which runs first,
    refuses the request: the error then goes to the application. *)
Theorem guarded_routes_stop_strangers :
  forall {L : Libraries} (penv : ProcessEnv) (w : World) (m : method) (path : list string)
         (req : Req.t) (db : Db) (id : string) (claims : Jwt.claims),
    guarded_id m path = Some id ->
    requester penv w req = Some claims ->
    Jwt.role claims <> "admin" ->
    Jwt.id claims <> id ->
    router penv w m path req db
    = (db, if profile_update m path && upload_refused w
           then Failed MulterError
           else Sent (Res.send 403 (failure msg_forbidden))).
Proof.
  intros L penv w m path req db id claims Hg Hreq Hrole Hid.
  apply requester_Some in Hreq.
  assert (Hrun : forall h,
             run [verifyToken penv w; checkAdminOrOwner] h (with_id id req) db
             = (db, Sent (Res.send 403 (failure msg_forbidden)))).
  { intro h. unfold run, with_id. rewrite verifyToken_params, Hreq.
    unfold checkAdminOrOwner. cbn -[String.eqb].
    apply String.eqb_neq in Hrole, Hid. now rewrite Hrole, Hid. }
  unfold router.
  destruct m, path as [|s [|s' [|s'' path]]]; try discriminate Hg;
    cbn [guarded_id profile_update] in *; cbn [andb].
  - destruct (Js.truthy s); [| discriminate]. injection Hg as ->.
    unfold upload_single. destruct (upload_refused w); cbn [andb]; [reflexivity |].
    apply Hrun.
  - destruct (literal "change-password" s && Js.truthy s'); [| discriminate].
    injection Hg as ->. apply Hrun.
  - destruct (Js.truthy s); [| discriminate]. injection Hg as ->. apply Hrun.
  - destruct (literal "delete-user" s && Js.truthy s'); [| discriminate].
    injection Hg as ->. apply Hrun.
Qed.

Lemma guarded_routes_stop_strangers_witness :
  let L := Sample.libraries Sample.alice_token in
  router Sample.penv (Sample.world 2000000) PUT [Sample.bob_id]
         (Sample.with_cookie Body.empty) Sample.db
  = (Sample.db, Sent (Res.send 403 (failure msg_forbidden)))
  /\ router Sample.penv (Cases.refusing (Sample.world 2000000)) PUT [Sample.bob_id]
            (Sample.with_cookie Body.empty) Sample.db
     = (Sample.db, Failed MulterError).
Proof.
  intro L. split.
  - apply (guarded_routes_stop_strangers (L := L) Sample.penv (Sample.world 2000000) PUT
             [Sample.bob_id] (Sample.with_cookie Body.empty) Sample.db
             Sample.bob_id Sample.alice_claims);
      first [reflexivity | discriminate].
  - apply (guarded_routes_stop_strangers (L := L) Sample.penv
             (Cases.refusing (Sample.world 2000000)) PUT
             [Sample.bob_id] (Sample.with_cookie Body.empty) Sample.db
             Sample.bob_id Sample.alice_claims);
      first [reflexivity | discriminate].
Defined.

(** *** What a response carries *)

Lemma has_field_delete k o : has_field k (obj_delete k o) = false.
Proof. unfold has_field. now rewrite obj_get_delete. Qed.

Lemma Some_eq {A : Type} (a b : A) : Some a = Some b -> a = b.
Proof. congruence. Qed.

Lemma Some_JArr_eq (l l' : list json) : Some (JArr l) = Some (JArr l') -> l = l'.
Proof. congruence. Qed.

Ltac shape :=
  unfold well_formed, hides_password, session_cookie_only, set_session_cookie,
    Res.with_cookie, User.without_password;
  cbn -[obj_delete has_field User.toObject session_options clear_options firstn skipn map
         Z.div Z.add Z.sub Z.mul Z.to_nat Z.of_nat];
  repeat split; intros;
  repeat match goal with
         | H : None = Some _ |- _ => discriminate H
         | H : Some (JArr _) = Some (JArr _) |- _ => apply Some_JArr_eq in H; try subst
         | H : Some _ = Some (JArr _) |- _ => discriminate H
         | H : Some _ = Some _ |- _ => apply Some_eq in H; try subst
         | H : False |- _ => destruct H
         | H : _ \/ _ |- _ => destruct H; try subst
         | H : In _ (map _ _) |- _ =>
             apply in_map_iff in H; destruct H as (? & ? & ?); try subst
         end;
  try discriminate;
  try apply has_field_delete;
  try match goal with
      | x : User.t |- has_field "password" _ = false =>
          exact (has_field_delete "password" (User.toObject x))
      end;
  try reflexivity;
  eauto 6.

Section Shapes.

Context {L : Libraries}.
Variable penv : ProcessEnv.
Variable w : World.

Lemma verifyToken_shape req res : verifyToken penv w req = Done res -> well_formed penv res.
Proof.
  intro H. apply (verifyToken_Done L) in H as [_ [-> | ->]];
    unfold please_sign_in, session_rejected; shape.
Qed.

Lemma checkAdminOrOwner_shape req res :
  checkAdminOrOwner req = Done res -> well_formed penv res.
Proof.
  unfold checkAdminOrOwner. destruct (Req.user req); [| discriminate].
  destruct (_ || _); [discriminate |]. intro H. injection H as <-. shape.
Qed.

Lemma authLimiter_shape req res : authLimiter w req = Done res -> well_formed penv res.
Proof.
  unfold authLimiter. destruct (rate_limited w); [| discriminate].
  intro H. injection H as <-. shape.
Qed.

Lemma validateSignup_shape req res : validateSignup req = Done res -> well_formed penv res.
Proof.
  unfold validateSignup. destruct (signup_details _); [discriminate |].
  intro H. injection H as <-. unfold invalid. shape.
Qed.

Lemma validateSignin_shape req res : validateSignin req = Done res -> well_formed penv res.
Proof.
  unfold validateSignin. destruct (signin_details _); [discriminate |].
  intro H. injection H as <-. unfold invalid. shape.
Qed.

Lemma get_users_shape req db : well_formed penv (snd (get_users req db)).
Proof. unfold get_users. unfold_handlers. case_split; shape. Qed.

Lemma get_user_shape req db : well_formed penv (snd (get_user req db)).
Proof. unfold get_user, handleError. unfold_handlers. case_split; shape. Qed.

Lemma get_me_shape req db : well_formed penv (snd (get_me req db)).
Proof. unfold get_me. unfold_handlers. case_split; shape. Qed.

Lemma delete_user_shape req db : well_formed penv (snd (delete_user w req db)).
Proof. unfold delete_user. unfold_handlers. case_split; shape. Qed.

Lemma delete_user_and_orders_shape req db :
  well_formed penv (snd (delete_user_and_orders w req db)).
Proof. unfold delete_user_and_orders. unfold_handlers. case_split; shape. Qed.

Lemma post_signup_shape req db : well_formed penv (snd (post_signup penv w req db)).
Proof. unfold post_signup, handleError. unfold_handlers. case_split; shape. Qed.

Lemma post_signin_shape req db : well_formed penv (snd (post_signin penv w req db)).
Proof. unfold post_signin, handleError. unfold_handlers. case_split; shape. Qed.

Lemma post_admin_signin_shape req db :
  well_formed penv (snd (post_admin_signin penv w req db)).
Proof. unfold post_admin_signin, handleError. unfold_handlers. case_split; shape. Qed.

Lemma put_user_shape req db : well_formed penv (snd (put_user w req db)).
Proof. unfold put_user, handleError. unfold_handlers. case_split; shape. Qed.

Lemma put_change_password_shape req db :
  well_formed penv (snd (put_change_password w req db)).
Proof. unfold put_change_password. unfold_handlers. case_split; shape. Qed.

Lemma post_signout_shape req db : well_formed penv (snd (post_signout penv req db)).
Proof. unfold post_signout. shape. Qed.

Lemma post_authWithGoogle_cookies req db :
  session_cookie_only penv (snd (post_authWithGoogle penv w req db)).
Proof.
  unfold post_authWithGoogle. unfold_handlers. case_split; shape.
Qed.

End Shapes.

Section RouterShape.

Context {L : Libraries}.
Variable penv : ProcessEnv.
Variable w : World.

Lemma run_Sent (P : Res.t -> Prop) (ms : list (Req.t -> step))
    (h : Req.t -> Db -> Db * Res.t) (req : Req.t) (db db' : Db) (res : Res.t) :
  (forall m r res', In m ms -> m r = Done res' -> P res') ->
  (forall r d, P (snd (h r d))) ->
  run ms h req db = (db', Sent res) -> P res.
Proof.
  intros Hms Hh. revert req. induction ms as [|m ms IH]; intro req; simpl.
  - specialize (Hh req db). destruct (h req db) as [d r0]. intro H.
    injection H as _ <-. exact Hh.
  - destruct (m req) as [r|r0|e] eqn:E.
    + apply IH. intros m' r' res' Hin. apply Hms. now right.
    + intro H. injection H as _ <-. apply (Hms m req); [now left | exact E].
    + discriminate.
Qed.

Lemma guards_shape (P : Res.t -> Prop) (m : Req.t -> step) (r : Req.t) (res : Res.t) :
  (forall res, well_formed penv res -> P res) ->
  In m [verifyToken penv w; checkAdminOrOwner; authLimiter w;
        validateSignup; validateSignin] ->
  m r = Done res -> P res.
Proof.
  intros HP Hin Hm. apply HP.
  repeat (destruct Hin as [<-|Hin]); try contradiction.
  - now apply (verifyToken_shape penv w r).
  - now apply (checkAdminOrOwner_shape penv r).
  - now apply (authLimiter_shape penv w r).
  - now apply (validateSignup_shape penv r).
  - now apply (validateSignin_shape penv r).
Qed.

Ltac by_route HP :=
  eapply run_Sent;
  [ intros ? ? ? Hin; apply (guards_shape _ _ _ _ HP); simpl in Hin; simpl; tauto
  | intros; apply HP; auto using get_users_shape, get_user_shape, get_me_shape,
      delete_user_shape, delete_user_and_orders_shape, post_signup_shape,
      post_signin_shape, post_admin_signin_shape, put_user_shape,
      put_change_password_shape, post_signout_shape ].

(** Every response of a route other than the federated sign-in is
    [well_formed]. *)
Lemma router_shape (m : method) (path : list string) (req : Req.t) (db db' : Db)
    (res : Res.t) :
  (forall s, m = POST -> path = [s] ->
             literal "signup" s = false -> literal "signin" s = false ->
             literal "authWithGoogle" s = false) ->
  router penv w m path req db = (db', Sent res) ->
  well_formed penv res.
Proof.
  intro Hnot.
  assert (HP : forall r, well_formed penv r -> well_formed penv r) by auto.
  unfold router.
  destruct m, path as [|s [|s' [|s'' path]]]; try discriminate.
  - destruct (literal "users" s); [by_route HP |].
    destruct (Js.truthy s); [by_route HP |].
    destruct (literal "me" s); [by_route HP | discriminate].
  - destruct (literal "signup" s) eqn:E1; [by_route HP |].
    destruct (literal "signin" s) eqn:E2; [by_route HP |].
    rewrite (Hnot s eq_refl eq_refl E1 E2).
    destruct (literal "signout" s); [by_route HP | discriminate].
  - destruct (_ && _); [by_route HP | discriminate].
  - destruct (Js.truthy s); [| discriminate].
    unfold upload_single. destruct (upload_refused w); [discriminate | by_route HP].
  - destruct (_ && _); [by_route HP | discriminate].
  - destruct (Js.truthy s); [by_route HP | discriminate].
  - destruct (_ && _); [by_route HP | discriminate].
Qed.

End RouterShape.

(** X8. Except on POST /authWithGoogle, no response of the router shows a
    password: the [user] of its body, and every entry of its [users], has no
    [password] field. *)
Theorem responses_hide_passwords :
  forall {L : Libraries} (penv : ProcessEnv) (w : World) (m : method) (path : list string)
         (req : Req.t) (db db' : Db) (res : Res.t),
    (forall s, m = POST -> path = [s] ->
               literal "signup" s = false -> literal "signin" s = false ->
               literal "authWithGoogle" s = false) ->
    router penv w m path req db = (db', Sent res) ->
    hides_password res.
Proof.
  intros L penv w m path req db db' res Hnot Hrun.
  now apply (router_shape penv w m path req db db' res Hnot).
Qed.

Lemma responses_hide_passwords_witness :
  let L := Sample.libraries Sample.alice_token in
  exists res,
    router Sample.penv (Sample.world 2000000) GET [Sample.alice_id]
           (incoming None None Body.empty) Sample.db
    = (Sample.db, Sent res)
    /\ hides_password res.
Proof.
  intro L. eexists. split; [reflexivity |].
  apply (responses_hide_passwords (L := L) Sample.penv (Sample.world 2000000) GET
           [Sample.alice_id] (incoming None None Body.empty) Sample.db Sample.db).
  - intros s Hm. discriminate Hm.
  - reflexivity.
Defined.

(** X9. Whatever the route, the only cookie operations of a response are setting
    the cookie [token], with the session options and on a status 200 or 201,
    and clearing it.  The session options are [httpOnly], a [maxAge] of 7
    days, [secure] in production only, and [sameSite] None in production and
    Lax otherwise. *)
Theorem responses_touch_only_the_session_cookie :
  forall {L : Libraries} (penv : ProcessEnv) (w : World) (m : method) (path : list string)
         (req : Req.t) (db db' : Db) (res : Res.t),
    router penv w m path req db = (db', Sent res) ->
    session_cookie_only penv res
    /\ httpOnly (session_options penv) = true
    /\ maxAge (session_options penv) = Some (7 * 24 * 60 * 60 * 1000)%Z
    /\ secure (session_options penv) = production penv
    /\ sameSite (session_options penv) = (if production penv then "None" else "Lax").
Proof.
  intros L penv w m path req db db' res Hrun.
  split; [| repeat split].
  destruct m, path as [|s [|s' [|s'' path]]];
    try (eapply router_shape; [| exact Hrun]; intros; discriminate).
  destruct (literal "signup" s) eqn:E1;
    [eapply router_shape; [| exact Hrun]; intros ? _ H; injection H as <-; congruence |].
  destruct (literal "signin" s) eqn:E2;
    [eapply router_shape; [| exact Hrun]; intros ? _ H; injection H as <-; congruence |].
  destruct (literal "authWithGoogle" s) eqn:E3;
    [| eapply router_shape; [| exact Hrun]; intros ? _ H; injection H as <-; congruence].
  unfold router in Hrun. rewrite E1, E2, E3 in Hrun.
  eapply (run_Sent (session_cookie_only penv)); [| | exact Hrun].
  - intros ? ? ? [].
  - intros. apply post_authWithGoogle_cookies.
Qed.

Lemma responses_touch_only_the_session_cookie_witness :
  let L := Sample.libraries Sample.alice_token in
  session_cookie_only Sample.penv
    (signed_in Sample.penv "header.payload.signature" Sample.alice).
Proof.
  intro L.
  apply (responses_touch_only_the_session_cookie (L := L) Sample.penv
           (Sample.world 2000000) POST ["signin"]
           (incoming None None (Cases.signin_body "alice" "Alice#2024"))
           Sample.db Sample.db).
  reflexivity.
Defined.

(** ** Reading routes *)

Lemma literal_exclusive (a b s : string) :
  Js.toLowerCase a <> Js.toLowerCase b -> literal a s = true -> literal b s = false.
Proof.
  unfold literal. intros Hab Ha. apply String.eqb_eq in Ha.
  apply String.eqb_neq. congruence.
Qed.

(** X10. Every GET route, POST /signin and POST /signout leave the collections as
    they were, whatever the request and whatever they answer. *)
Theorem reading_routes_write_nothing :
  forall {L : Libraries} (penv : ProcessEnv) (w : World) (m : method) (path : list string)
         (req : Req.t) (db : Db),
    reading m path = true ->
    fst (router penv w m path req db) = db.
Proof.
  intros L penv w m path req db Hr. unfold router.
  destruct m, path as [|s [|s' [|s'' path]]]; try discriminate Hr; try reflexivity.
  - destruct (literal "users" s); [apply run_reads, get_users_reads |].
    destruct (Js.truthy s); [apply run_reads, get_user_reads |].
    destruct (literal "me" s); [apply run_reads, get_me_reads | reflexivity].
  - cbn [reading] in Hr. apply orb_true_iff in Hr as [Hr|Hr].
    + rewrite (literal_exclusive "signin" "signup" s ltac:(vm_compute; discriminate) Hr).
      rewrite Hr. apply run_reads, post_signin_reads.
    + rewrite (literal_exclusive "signout" "signup" s ltac:(vm_compute; discriminate) Hr).
      rewrite (literal_exclusive "signout" "signin" s ltac:(vm_compute; discriminate) Hr).
      rewrite (literal_exclusive "signout" "authWithGoogle" s
                 ltac:(vm_compute; discriminate) Hr).
      rewrite Hr. now rewrite run_open.
Qed.

Lemma reading_routes_write_nothing_witness :
  let L := Sample.libraries Sample.alice_token in
  fst (router Sample.penv (Sample.world 2000000) POST ["signin"]
              (incoming None None (Cases.signin_body "alice" "Alice#2024")) Sample.db)
  = Sample.db.
Proof.
  intro L.
  apply (reading_routes_write_nothing (L := L)). reflexivity.
Defined.

(** X11. GET /s, for a non-empty segment [s] other than [users] that is not made
    of 24 hexadecimal digits, is answered 400 by the handler of GET /:id.
    This is the answer to GET /me, whose own handler is registered after GET
    /:id. *)
Theorem get_with_a_malformed_id :
  forall {L : Libraries} (penv : ProcessEnv) (w : World) (s : string) (req : Req.t) (db : Db),
    literal "users" s = false ->
    Js.truthy s = true ->
    Regex.accepts hex24 s = false ->
    router penv w GET [s] req db = (db, Sent (Res.send 400 (failure "ID không hợp lệ."))).
Proof.
  intros L penv w s req db Hu Ht Hx. unfold router. rewrite Hu, Ht.
  unfold run, get_user, try_catch, bind, param_id, ret, with_id.
  cbn [Req.params_id Req.set_params_id]. now rewrite Hx.
Qed.

Lemma get_with_a_malformed_id_witness :
  let L := Sample.libraries Sample.alice_token in
  router Sample.penv (Sample.world 2000000) GET ["me"] (Sample.with_cookie Body.empty)
         Sample.db
  = (Sample.db, Sent (Res.send 400 (failure "ID không hợp lệ."))).
Proof.
  intro L.
  apply (get_with_a_malformed_id (L := L) Sample.penv (Sample.world 2000000) "me");
    reflexivity.
Defined.

Lemma page_of_nonempty (page : Z) (l : list User.t) :
  (1 <= page)%Z ->
  (page <= (Z.of_nat (List.length l) + 12 - 1) / 12)%Z ->
  (1 <= List.length (page_of page l) <= 12)%nat.
Proof.
  intros H1 H2. unfold page_of. rewrite length_firstn, length_skipn.
  assert (12 * page <= Z.of_nat (List.length l) + 11)%Z.
  { pose proof (Z.mul_div_le (Z.of_nat (List.length l) + 12 - 1) 12 ltac:(lia)). nia. }
  assert (Z.to_nat ((page - 1) * 12) < List.length l)%nat by lia.
  lia.
Qed.

(** X12. The listing of GET /users, once its middlewares have passed the request
    on: a page below 1 is answered 400, a page beyond the last one 404, and a
    page from 1 to the number of pages 200, with the users of that page,
    between 1 and 12 of them and without their passwords, and the totals.  A
    missing or zero [page] counts as page 1.  The message [No users available]
    is never sent, and an empty collection is never answered 200. *)
Theorem get_users_pages :
  forall {L : Libraries} (req : Req.t) (db : Db),
    let res := snd (get_users req db) in
    let page := match Req.query_page req with
                | Some 0%Z | None => 1%Z
                | Some n => n
                end in
    let total := Z.of_nat (List.length (users db)) in
    let pages := ((total + 12 - 1) / 12)%Z in
    ((page < 1)%Z -> res = Res.send 400 (failure "Invalid page number"))
    /\ ((1 <= page)%Z -> (pages < page)%Z -> res = Res.send 404 (failure "Page not found"))
    /\ ((1 <= page <= pages)%Z ->
        res = Res.send 200 (JObj [ ("success", JBool true);
                                   ("users", JArr (map User.without_password
                                                       (page_of page (users db))));
                                   ("totalPages", JNum pages);
                                   ("currentPage", JNum page);
                                   ("totalItems", JNum total);
                                   ("perPage", JNum 12) ])
        /\ (1 <= List.length (page_of page (users db)) <= 12)%nat)
    /\ obj_get "message" (Res.body res) <> Some (JStr "No users available")
    /\ (users db = [] -> Res.status res <> 200%Z).
Proof.
  intros L req db res page total pages.
  assert (Hcases : (page < 1)%Z \/ ((1 <= page)%Z /\ (pages < page)%Z)
                   \/ (1 <= page <= pages)%Z) by lia.
  assert (H400 : (page < 1)%Z -> res = Res.send 400 (failure "Invalid page number")).
  { intro H. unfold res, get_users, try_catch, ret. fold page.
    apply Z.ltb_lt in H. now rewrite H. }
  assert (H404 : (1 <= page)%Z -> (pages < page)%Z ->
                 res = Res.send 404 (failure "Page not found")).
  { intros H1 H2. unfold res, get_users, try_catch, bind, ret, countDocuments. fold page.
    apply Z.ltb_ge in H1. rewrite H1. cbn [fst snd]. fold total. fold pages.
    apply Z.ltb_lt in H2. now rewrite H2. }
  assert (H200 : (1 <= page <= pages)%Z ->
                 res = Res.send 200 (JObj [ ("success", JBool true);
                                            ("users", JArr (map User.without_password
                                                                (page_of page (users db))));
                                            ("totalPages", JNum pages);
                                            ("currentPage", JNum page);
                                            ("totalItems", JNum total);
                                            ("perPage", JNum 12) ])
                 /\ (1 <= List.length (page_of page (users db)) <= 12)%nat).
  { intros [H1 H2].
    pose proof (page_of_nonempty page (users db) H1 H2) as Hlen.
    split; [| exact Hlen].
    unfold res, get_users, try_catch, bind, ret, countDocuments, find_page. fold page.
    apply Z.ltb_ge in H1. rewrite H1. cbn [fst snd]. fold total. fold pages.
    apply Z.ltb_ge in H2. rewrite H2.
    change (firstn (Z.to_nat 12) (skipn (Z.to_nat ((page - 1) * 12)) (users db)))
      with (page_of page (users db)).
    destruct (Nat.eqb_spec (List.length (page_of page (users db))) 0); [lia | reflexivity]. }
  split; [exact H400 |]. split; [exact H404 |]. split; [exact H200 |].
  split.
  - destruct Hcases as [H|[[H1 H2]|H]].
    + rewrite (H400 H). discriminate.
    + rewrite (H404 H1 H2). discriminate.
    + rewrite (proj1 (H200 H)). discriminate.
  - intro Hempty. destruct Hcases as [H|[[H1 H2]|H]].
    + rewrite (H400 H). discriminate.
    + rewrite (H404 H1 H2). discriminate.
    + exfalso. unfold pages, total in H. rewrite Hempty in H. simpl in H.
      change ((0 + 12 - 1) / 12)%Z with 0%Z in H. destruct H as [Ha Hb].
      apply (Z.le_trans _ _ _ Ha) in Hb. now apply Hb.
Qed.

(** ** Signing up *)

Ltac unnegb :=
  repeat match goal with
         | H : negb _ = false |- _ => apply negb_false_iff in H
         | H : negb _ = true |- _ => apply negb_true_iff in H
         end.

Lemma truthy_opt_the (v : option string) :
  Js.truthy_opt v = true -> v = Some (the v) /\ Js.truthy (the v) = true.
Proof. destruct v as [s|]; [auto | discriminate]. Qed.

Lemma not_positive_length {A : Type} (l : list A) : (0 <? List.length l)%nat = false -> l = [].
Proof. destruct l; [reflexivity | discriminate]. Qed.

Lemma find_none_forall {A : Type} (f : A -> bool) (l : list A) :
  find f l = None -> forall x, In x l -> f x = false.
Proof. intros H x Hx. now apply (find_none f l H). Qed.

Lemma find_none_intro {A : Type} (f : A -> bool) (l : list A) :
  (forall x, In x l -> f x = false) -> find f l = None.
Proof.
  induction l as [|a l IH]; simpl; intro H; [reflexivity |].
  rewrite (H a (or_introl eq_refl)). apply IH. auto.
Qed.

Lemma find_app_none {A : Type} (f : A -> bool) (l : list A) (x : A) :
  find f l = None -> find f (l ++ [x]) = if f x then Some x else None.
Proof.
  induction l as [|a l IH]; simpl; [reflexivity |].
  destruct (f a); [discriminate | exact IH].
Qed.

Section Signup.

Context {L : Libraries}.
Variable penv : ProcessEnv.
Variable w : World.

(** What the sign-up handler does, case by case. *)
Lemma post_signup_outcomes (req : Req.t) (db : Db) :
  (fst (post_signup penv w req db) = db
   /\ (Res.status (snd (post_signup penv w req db)) = 400%Z
       \/ Res.status (snd (post_signup penv w req db)) = 500%Z))
  \/ exists username phone password fullName,
       Body.username (Req.body req) = Some username
       /\ Body.phone (Req.body req) = Some phone
       /\ Body.password (Req.body req) = Some password
       /\ Body.fullName (Req.body req) = Some fullName
       /\ Body.confirmPassword (Req.body req) = Some password
       /\ Js.truthy username = true /\ Js.truthy phone = true
       /\ Js.truthy password = true /\ Js.truthy fullName = true
       /\ isValidPhone phone = true
       /\ isValidPassword password = []
       /\ find (fun u => String.eqb (User.username u) username) (users db) = None
       /\ find (fun u => String.eqb (User.username u) username
                         || String.eqb (User.phone u) phone) (users db) = None
       /\ existsb (has_id (new_ObjectId w)) (users db) = false
       /\ fst (post_signup penv w req db)
          = set_users (users db ++ [signup_account w username phone password fullName]) db
       /\ ((exists e, generateToken penv w (signup_account w username phone password fullName)
                      = Throw e
                      /\ snd (post_signup penv w req db) = handleError e)
           \/ (exists token,
                  generateToken penv w (signup_account w username phone password fullName)
                  = Ok token
                  /\ snd (post_signup penv w req db)
                     = set_session_cookie penv token
                         (Res.send 201
                            (JObj [ ("message", JStr "Đăng ký thành công");
                                    ("user", User.without_password
                                               (signup_account w username phone password
                                                               fullName));
                                    ("token", JStr token) ])))).
Proof.
  unfold post_signup, handleError, new_signup_user, hashPassword. unfold_handlers.
  destruct (Js.truthy_opt (Body.username (Req.body req))) eqn:Hu;
    [| cbn [checkRequiredFields negb]; rewrite Hu; cbn; auto].
  destruct (Js.truthy_opt (Body.phone (Req.body req))) eqn:Hph;
    [| cbn [checkRequiredFields negb]; rewrite Hu, Hph; cbn; auto].
  destruct (Js.truthy_opt (Body.password (Req.body req))) eqn:Hpw;
    [| cbn [checkRequiredFields negb]; rewrite Hu, Hph, Hpw; cbn; auto].
  destruct (Js.truthy_opt (Body.fullName (Req.body req))) eqn:Hf;
    [| cbn [checkRequiredFields negb]; rewrite Hu, Hph, Hpw, Hf; cbn; auto].
  destruct (Js.truthy_opt (Body.confirmPassword (Req.body req))) eqn:Hc;
    [| cbn [checkRequiredFields negb]; rewrite Hu, Hph, Hpw, Hf, Hc; cbn; auto].
  cbn [checkRequiredFields negb]. rewrite Hu, Hph, Hpw, Hf, Hc. cbn [negb].
  apply truthy_opt_the in Hu as [Hu Htu], Hph as [Hph Htph], Hpw as [Hpw Htpw],
    Hf as [Hf Htf].
  case_split; unnegb; try (left; cbn; auto; fail).
  all: right;
    exists (the (Body.username (Req.body req))), (the (Body.phone (Req.body req))),
           (the (Body.password (Req.body req))), (the (Body.fullName (Req.body req)));
    match goal with H : Js.strict_eq _ _ = true |- _ => apply strict_eq_true in H end;
    match goal with H : (0 <? _)%nat = false |- _ => apply not_positive_length in H end;
    repeat (split; [first [assumption | congruence | reflexivity] |]);
    first [left; eexists; split; [eassumption | reflexivity]
          | right; eexists; split; [eassumption | reflexivity]].
Qed.

End Signup.

(** X13. POST /signup, once its middlewares have passed the request on, either
    leaves the collections as they were or appends exactly one account: the
    one made of the body's [username], [phone] and [fullName], the bcrypt
    digest of the body's [password] and the defaults of the schema, the
    default role included.  It does so only when [confirmPassword] equals
    [password], the phone is valid, the password passes all five tests of
    [isValidPassword] and no stored account has that username or that phone. *)
Theorem signup_stores_only_checked_accounts :
  forall {L : Libraries} (penv : ProcessEnv) (w : World) (req : Req.t) (db : Db),
    fst (post_signup penv w req db) = db
    \/ exists username phone password fullName,
         Body.username (Req.body req) = Some username
         /\ Body.phone (Req.body req) = Some phone
         /\ Body.password (Req.body req) = Some password
         /\ Body.fullName (Req.body req) = Some fullName
         /\ Body.confirmPassword (Req.body req) = Some password
         /\ isValidPhone phone = true
         /\ isValidPassword password = []
         /\ (forall u, In u (users db) ->
                       User.username u <> username /\ User.phone u <> phone)
         /\ fst (post_signup penv w req db)
            = set_users (users db ++ [signup_account w username phone password fullName]) db
         /\ User.password (signup_account w username phone password fullName)
            = bcrypt_hash password (bcrypt_salt w)
         /\ User.role (signup_account w username phone password fullName) = default_role.
Proof.
  intros L penv w req db.
  destruct (post_signup_outcomes penv w req db) as [[H _]|H]; [now left | right].
  destruct H as (username & phone & password & fullName & Hu & Hph & Hpw & Hf & Hc
                 & _ & _ & _ & _ & Hvp & Hpol & _ & Hfind & _ & Hdb & _).
  exists username, phone, password, fullName.
  repeat (split; [assumption |]).
  split; [| auto].
  intros u Hin. pose proof (find_none_forall _ _ Hfind u Hin) as Hno. cbv beta in Hno.
  apply orb_false_iff in Hno as [H1 H2].
  apply String.eqb_neq in H1, H2. auto.
Qed.

Lemma NoDup_snoc {A : Type} (l : list A) (x : A) : NoDup l -> ~ In x l -> NoDup (l ++ [x]).
Proof.
  intros Hl Hx. apply NoDup_app; [exact Hl | repeat constructor; auto |].
  intros a Ha [<-|[]]. contradiction.
Qed.

(** X14. A POST /signup that is served on its own, with no other request
    writing between its look-ups and its save, keeps the usernames of the
    collection distinct, and likewise the phones and the ids.  Requests that
    interleave are outside this statement: for them the check of the handler
    guarantees nothing. *)
Theorem signup_keeps_names_distinct :
  forall {L : Libraries} (penv : ProcessEnv) (w : World) (req : Req.t) (db : Db),
    let db' := fst (post_signup penv w req db) in
    (NoDup (map User.username (users db)) -> NoDup (map User.username (users db')))
    /\ (NoDup (map User.phone (users db)) -> NoDup (map User.phone (users db')))
    /\ (NoDup (map User._id (users db)) -> NoDup (map User._id (users db'))).
Proof.
  intros L penv w req db db'. unfold db'.
  destruct (post_signup_outcomes penv w req db) as [[-> _]|H]; [auto |].
  destruct H as (username & phone & password & fullName & _ & _ & _ & _ & _
                 & _ & _ & _ & _ & _ & _ & _ & Hfind & Hfresh & -> & _).
  cbn [users set_users]. rewrite !map_app. cbn [map].
  assert (Hno : forall u, In u (users db) ->
                          User.username u <> username /\ User.phone u <> phone).
  { intros u Hin. pose proof (find_none_forall _ _ Hfind u Hin) as Hno. cbv beta in Hno.
    apply orb_false_iff in Hno as [H1 H2]. apply String.eqb_neq in H1, H2. auto. }
  repeat split; intro Hnd; apply NoDup_snoc; auto.
  - intro Hin. apply in_map_iff in Hin as (u & Hu & Hin).
    destruct (Hno u Hin). contradiction.
  - intro Hin. apply in_map_iff in Hin as (u & Hu & Hin).
    destruct (Hno u Hin). contradiction.
  - now apply existsb_has_id.
Qed.

Lemma generateToken_any_time {L : Libraries} penv (w w' : World) (u : User.t) (token : string) :
  generateToken penv w u = Ok token -> exists token', generateToken penv w' u = Ok token'.
Proof.
  unfold generateToken, jwt_sign. destruct (JWT_SECRET penv) as [k|]; [| discriminate].
  destruct (Js.truthy k); [| discriminate].
  destruct (ms _); [| discriminate]. eauto.
Qed.

(** X15. After a signup answered 201, a sign-in with the same username and
    password is answered 200, with the session cookie and a stored account of
    that username, provided the username is not a string of 10 to 15 digits,
    bcrypt verifies the password against its own digest and the schema makes
    new accounts active. *)
Theorem signup_then_signin :
  forall {L : Libraries} (penv : ProcessEnv) (w w' : World) (req req' : Req.t) (db : Db)
         (username password : string),
    Res.status (snd (post_signup penv w req db)) = 201%Z ->
    Body.username (Req.body req) = Some username ->
    Body.password (Req.body req) = Some password ->
    Body.usernameOrPhone (Req.body req') = Some username ->
    Body.password (Req.body req') = Some password ->
    Regex.accepts digits_10_15 username = false ->
    bcrypt_compare password (bcrypt_hash password (bcrypt_salt w)) = true ->
    default_isActive = true ->
    let db' := fst (post_signup penv w req db) in
    exists token account,
      post_signin penv w' req' db'
      = (db', set_session_cookie penv token
                (Res.send 200 (JObj [ ("success", JBool true);
                                      ("message", JStr "Đăng nhập thành công.");
                                      ("user", User.without_password account);
                                      ("token", JStr token) ])))
      /\ In account (users db')
      /\ User.username account = username.
Proof.
  intros L penv w w' req req' db username password H201 Hu Hpw Hu' Hpw' Hshape Hcmp Hact db'.
  unfold db'.
  destruct (post_signup_outcomes penv w req db) as [[_ [H|H]]|H];
    [rewrite H in H201; discriminate | rewrite H in H201; discriminate |].
  destruct H as (username0 & phone & password0 & fullName & Hu0 & _ & Hpw0 & _ & _
                 & Htu & _ & Htpw & _ & _ & _ & Hfind & _ & _ & -> & Hres).
  rewrite Hu in Hu0. injection Hu0 as <-. rewrite Hpw in Hpw0. injection Hpw0 as <-.
  destruct Hres as [(e & _ & Hres)|(token & Htoken & _)];
    [rewrite Hres in H201; discriminate |].
  destruct (generateToken_any_time penv w w' _ token Htoken) as [token' Htoken'].
  exists token', (signup_account w username phone password fullName).
  split; [| split; [cbn [users set_users]; apply in_or_app; right; now left | reflexivity]].
  unfold post_signin, try_catch, bind, find_by_usernameOrPhone, findOne, ret, lift.
  rewrite Hu', Hpw'. cbn [Js.truthy_opt the]. rewrite Htu, Htpw. cbn [negb].
  rewrite Hshape. cbn [users set_users].
  rewrite (find_app_none _ _ _ Hfind). cbn [User.username signup_account].
  rewrite String.eqb_refl.
  unfold checkPassword. cbn [User.password User.isActive signup_account].
  rewrite Hcmp, Hact. cbn [negb]. rewrite Htoken'. reflexivity.
Qed.

Lemma signup_then_signin_witness :
  let L := Sample.libraries Sample.alice_token in
  let db' := fst (post_signup Sample.penv (Sample.world 2000000)
                              (incoming None None Cases.carol) Sample.db) in
  exists token account,
    post_signin Sample.penv (Sample.world 3000000)
                (incoming None None (Cases.signin_body "carol" "Carol#2024")) db'
    = (db', signed_in Sample.penv token account)
    /\ In account (users db')
    /\ User.username account = "carol".
Proof.
  intros L db'.
  apply (signup_then_signin (L := L) Sample.penv (Sample.world 2000000)
           (Sample.world 3000000) (incoming None None Cases.carol)
           (incoming None None (Cases.signin_body "carol" "Carol#2024")) Sample.db
           "carol" "Carol#2024"); reflexivity.
Defined.

(** X16. A sign-in whose [usernameOrPhone] is a string of 10 to 15 digits is
    looked up by phone only: when no account has it as its phone the answer is
    the 400 of invalid credentials, whatever the usernames of the collection. *)
Theorem digit_usernames_cannot_sign_in :
  forall {L : Libraries} (penv : ProcessEnv) (w : World) (req : Req.t) (db : Db)
         (name password : string),
    Body.usernameOrPhone (Req.body req) = Some name ->
    Body.password (Req.body req) = Some password ->
    Js.truthy password = true ->
    Regex.accepts digits_10_15 name = true ->
    (forall u, In u (users db) -> User.phone u <> name) ->
    post_signin penv w req db = (db, Res.send 400 (failure msg_credentials)).
Proof.
  intros L penv w req db name password Hn Hp Htp Hdigits Hphones.
  assert (Htn : Js.truthy name = true).
  { destruct name; [discriminate Hdigits | reflexivity]. }
  unfold post_signin, try_catch, bind, find_by_usernameOrPhone, findOne, ret.
  rewrite Hn, Hp. cbn [Js.truthy_opt the]. rewrite Htn, Htp. cbn [negb]. rewrite Hdigits.
  replace (find _ (users db)) with (@None User.t); [reflexivity |].
  symmetry. apply find_none_intro. intros u Hin. apply String.eqb_neq. now apply Hphones.
Qed.

Lemma digit_usernames_cannot_sign_in_witness :
  let L := Sample.libraries Sample.alice_token in
  post_signin Sample.penv (Sample.world 2000000)
              (incoming None None (Cases.signin_body "0123456789" "Alice#2024")) Sample.db
  = (Sample.db, Res.send 400 (failure msg_credentials)).
Proof.
  intro L.
  apply (digit_usernames_cannot_sign_in (L := L) Sample.penv (Sample.world 2000000)
           (incoming None None (Cases.signin_body "0123456789" "Alice#2024")) Sample.db
           "0123456789" "Alice#2024"); try reflexivity.
  intros u [<- | [<- | []]]; discriminate.
Defined.

(** X17. Without [JWT_SECRET], [verifyToken] answers 401 to every request and
    [generateToken] throws; no signup is answered 201 and no sign-in 200.  A
    signup that passes every check still stores its account, and then answers
    with the response of [handleError]. *)
Theorem without_a_signing_key :
  forall {L : Libraries} (penv : ProcessEnv) (w : World) (req : Req.t) (db : Db),
    Js.truthy_opt (JWT_SECRET penv) = false ->
    (exists res, verifyToken penv w req = Done res /\ Res.status res = 401%Z)
    /\ (forall user, generateToken penv w user = Throw SignError)
    /\ Res.status (snd (post_signup penv w req db)) <> 201%Z
    /\ Res.status (snd (post_signin penv w req db)) <> 200%Z
    /\ (forall username phone password fullName,
           Body.username (Req.body req) = Some username ->
           Body.phone (Req.body req) = Some phone ->
           Body.password (Req.body req) = Some password ->
           Body.fullName (Req.body req) = Some fullName ->
           Body.confirmPassword (Req.body req) = Some password ->
           Js.truthy username = true -> Js.truthy phone = true ->
           Js.truthy password = true -> Js.truthy fullName = true ->
           isValidPhone phone = true ->
           isValidPassword password = [] ->
           (forall u, In u (users db) ->
                      User.username u <> username /\ User.phone u <> phone) ->
           existsb (has_id (new_ObjectId w)) (users db) = false ->
           schema_accepts (users db) (signup_account w username phone password fullName)
           = true ->
           post_signup penv w req db
           = (set_users (users db ++ [signup_account w username phone password fullName]) db,
              handleError SignError)).
Proof.
  intros L penv w req db Hkey.
  assert (Hgen : forall w0 user, generateToken penv w0 user = Throw SignError).
  { intros w0 user. unfold generateToken, jwt_sign.
    destruct (JWT_SECRET penv) as [k|]; [| reflexivity].
    cbn in Hkey. now rewrite Hkey. }
  assert (Hver : forall t, jwt_verify t (JWT_SECRET penv) w = Throw JsonWebTokenError).
  { intro t. unfold jwt_verify, jwt_verify_with.
    destruct (JWT_SECRET penv) as [k|]; [| reflexivity].
    cbn in Hkey. now rewrite Hkey. }
  split; [| split; [apply Hgen | split; [| split]]].
  - rewrite verifyToken_cases.
    destruct (token_of req) as [t|]; [| eexists; split; reflexivity].
    destruct (Js.truthy t); [| eexists; split; reflexivity].
    rewrite Hver. eexists; split; reflexivity.
  - destruct (post_signup_outcomes penv w req db) as [[_ [H|H]]|H];
      [rewrite H; discriminate | rewrite H; discriminate |].
    destruct H as (u & ph & pw & f & _ & _ & _ & _ & _ & _ & _ & _ & _ & _ & _ & _ & _ & _
                   & _ & [(e & _ & ->)|(token & Htoken & _)]);
      [discriminate | rewrite Hgen in Htoken; discriminate].
  - unfold post_signin, handleError. unfold_handlers.
    case_split; cbn; try discriminate.
    all: match goal with
         | H : generateToken _ _ _ = Ok _ |- _ => rewrite Hgen in H; discriminate H
         end.
  - intros username phone password fullName Hu Hph Hpw Hf Hc Htu Htph Htpw Htf Hvp Hpol
           Hnew Hfresh Hschema.
    unfold post_signup, try_catch, bind, findOne, insert, ret, lift.
    rewrite Hu, Hph, Hpw, Hf, Hc. cbn [checkRequiredFields Js.truthy_opt the].
    rewrite Htu, Htph, Htpw, Htf. cbn [negb].
    replace (Js.strict_eq (Some password) (Some password)) with true
      by (symmetry; now apply strict_eq_true).
    cbn [negb]. rewrite Hvp, Hpol. cbn [negb List.length Nat.ltb Nat.leb].
    replace (find (fun u => String.eqb (User.username u) username) (users db))
      with (@None User.t)
      by (symmetry; apply find_none_intro; intros u Hin; apply String.eqb_neq;
          now apply (Hnew u Hin)).
    replace (find (fun u => String.eqb (User.username u) username
                            || String.eqb (User.phone u) phone) (users db))
      with (@None User.t)
      by (symmetry; apply find_none_intro; intros u Hin; apply orb_false_iff;
          split; apply String.eqb_neq; now apply (Hnew u Hin)).
    change (new_signup_user w username phone (hashPassword (bcrypt_salt w) password) fullName
              ("temp_" ++ Js.of_int (Date_now w) ++ "@example.com"))
      with (signup_account w username phone password fullName).
    change (User._id (signup_account w username phone password fullName))
      with (new_ObjectId w).
    now rewrite Hfresh, Hschema, Hgen.
Qed.

Lemma without_a_signing_key_witness :
  let L := Sample.libraries Sample.alice_token in
  exists res,
    verifyToken Cases.no_key (Sample.world 2000000) (Sample.with_cookie Body.empty)
    = Done res
    /\ Res.status res = 401%Z.
Proof.
  intro L.
  apply (without_a_signing_key (L := L) Cases.no_key (Sample.world 2000000)
           (Sample.with_cookie Body.empty) Sample.db).
  reflexivity.
Defined.

(** ** Signing in, deleting an account, changing a password *)

(** X18. POST /signin answers 200, sets a cookie or sends a token only for a
    stored account found by the body's [usernameOrPhone], whose password
    bcrypt verifies and which is active; the response is then the signed-in
    response for that account and the token issued for it. *)
Theorem signin_needs_an_active_account :
  forall {L : Libraries} (penv : ProcessEnv) (w : World) (req : Req.t) (db : Db),
    let res := snd (post_signin penv w req db) in
    (Res.status res = 200%Z \/ Res.cookies res <> []
     \/ has_field "token" (Res.body res) = true) ->
    exists user token,
      snd (find_by_usernameOrPhone (the (Body.usernameOrPhone (Req.body req))) db)
      = Ok (Some user)
      /\ checkPassword (the (Body.password (Req.body req))) (User.password user) = true
      /\ User.isActive user = true
      /\ generateToken penv w user = Ok token
      /\ res = signed_in penv token user.
Proof.
  intros L penv w req db res. unfold res, post_signin, handleError. unfold_handlers.
  case_split; unnegb; cbn;
    try (intros [H|[H|H]]; first [discriminate H | now destruct H]).
  all: intros _; eexists; eexists;
    repeat (split; [first [eassumption | reflexivity] |]); reflexivity.
Qed.

Lemma signin_needs_an_active_account_witness :
  let L := Sample.libraries Sample.alice_token in
  exists user token,
    snd (find_by_usernameOrPhone "alice" Sample.db) = Ok (Some user)
    /\ checkPassword "Alice#2024" (User.password user) = true
    /\ User.isActive user = true
    /\ generateToken Sample.penv (Sample.world 2000000) user = Ok token
    /\ snd (post_signin Sample.penv (Sample.world 2000000)
              (incoming None None (Cases.signin_body "alice" "Alice#2024")) Sample.db)
       = signed_in Sample.penv token user.
Proof.
  intro L.
  apply (signin_needs_an_active_account (L := L) Sample.penv (Sample.world 2000000)
           (incoming None None (Cases.signin_body "alice" "Alice#2024")) Sample.db).
  left. reflexivity.
Defined.

(** X19. POST /authentication/signin changes the collection, answers 200 or sets
    a cookie only for a stored account whose password bcrypt verifies, which
    is active and whose role is [admin]; the collection then differs from the
    old one only by the [rememberMe] of that account, set to the one of the
    body. *)
Theorem admin_signin_needs_an_admin :
  forall {L : Libraries} (penv : ProcessEnv) (w : World) (req : Req.t) (db : Db),
    let out := post_admin_signin penv w req db in
    (fst out <> db \/ Res.status (snd out) = 200%Z \/ Res.cookies (snd out) <> []) ->
    exists user,
      snd (find_by_usernameOrPhone (the (Body.usernameOrPhone (Req.body req))) db)
      = Ok (Some user)
      /\ checkPassword (the (Body.password (Req.body req))) (User.password user) = true
      /\ User.isActive user = true
      /\ User.role user = "admin"
      /\ fst out
         = set_users (replace (User.set_rememberMe (Body.rememberMe (Req.body req)) user)
                              (users db)) db.
Proof.
  intros L penv w req db out. unfold out, post_admin_signin, handleError. unfold_handlers.
  case_split; unnegb; cbn;
    try (intros [H|[H|H]]; first [discriminate H | now destruct H]).
  all: intros _; eexists;
    repeat match goal with
           | H : String.eqb _ _ = true |- _ => apply String.eqb_eq in H
           end;
    repeat (split; [first [eassumption | reflexivity] |]); reflexivity.
Qed.

Lemma admin_signin_needs_an_admin_witness :
  let L := Sample.libraries Sample.alice_token in
  let out := post_admin_signin Sample.penv (Sample.world 2000000)
               (incoming None None (Cases.signin_body "root" "Root#2024")) Cases.staff in
  exists user,
    snd (find_by_usernameOrPhone "root" Cases.staff) = Ok (Some user)
    /\ checkPassword "Root#2024" (User.password user) = true
    /\ User.isActive user = true
    /\ User.role user = "admin"
    /\ fst out = set_users (replace (User.set_rememberMe None user) (users Cases.staff))
                           Cases.staff.
Proof.
  intros L out.
  apply (admin_signin_needs_an_admin (L := L) Sample.penv (Sample.world 2000000)
           (incoming None None (Cases.signin_body "root" "Root#2024")) Cases.staff).
  right. left. reflexivity.
Defined.

Lemma find_others_none (oid : string) (l : list User.t) :
  find (has_id oid) (others oid l) = None.
Proof.
  apply find_none_intro. intros u Hin. unfold others in Hin.
  apply filter_In in Hin as [_ H]. now apply negb_true_iff in H.
Qed.

Lemma filter_orders_twice (oid : string) (l : list string) :
  filter (String.eqb oid) l = [] ->
  filter (fun o => negb (String.eqb oid o)) l = l.
Proof.
  induction l as [|o l IH]; simpl; [reflexivity |].
  destruct (String.eqb oid o); [discriminate |]. intro H. simpl. now rewrite IH.
Qed.

(** X20. After DELETE /:id was answered 200 the account is gone: the users are
    the old ones without the documents of that id, the orders are untouched,
    [findById] finds nothing, and GET /:id is answered 404. *)
Theorem deleted_account_is_gone :
  forall {L : Libraries} (penv : ProcessEnv) (w : World) (req req' : Req.t) (db : Db)
         (id : string),
    Req.params_id req = Some id ->
    Res.status (snd (delete_user w req db)) = 200%Z ->
    let db' := fst (delete_user w req db) in
    (exists oid, ObjectId_cast id = Some oid
                 /\ users db' = others oid (users db)
                 /\ orders db' = orders db)
    /\ snd (findById id db') = Ok None
    /\ (Regex.accepts hex24 id = true ->
        literal "users" id = false ->
        router penv w GET [id] req' db'
        = (db', Sent (Res.send 404 (failure "Không tìm thấy người dùng.")))).
Proof.
  intros L penv w req req' db id Hid H200 db'.
  assert (H : exists oid, ObjectId_cast id = Some oid
                          /\ users db' = others oid (users db)
                          /\ orders db' = orders db).
  { revert H200. unfold db', delete_user. unfold_handlers. rewrite Hid.
    case_split; cbn; try discriminate; intros _; eexists; repeat split. }
  destruct H as (oid & Hcast & Husers & Horders).
  assert (Hfind : snd (findById id db') = Ok None).
  { unfold findById. rewrite Hcast. cbn [snd]. rewrite Husers.
    now rewrite find_others_none. }
  split; [eauto |]. split; [exact Hfind |].
  intros Hhex Hnot. unfold router. rewrite Hnot.
  rewrite (truthy_of_length _ _ (hex24_length _ Hhex)).
  unfold run, get_user, try_catch, bind, param_id, ret, with_id.
  cbn [Req.params_id Req.set_params_id]. rewrite Hhex. cbn [negb].
  unfold findById in *. rewrite Hcast in *. cbn [snd] in Hfind.
  injection Hfind as Hfind. now rewrite Hfind.
Qed.

Lemma deleted_account_is_gone_witness :
  let L := Sample.libraries Sample.alice_token in
  let db' := fst (delete_user (Sample.world 2000000)
                              (Cases.at_id Sample.bob_id Body.empty) Sample.db) in
  snd (findById Sample.bob_id db') = Ok None
  /\ router Sample.penv (Sample.world 3000000) GET [Sample.bob_id]
            (incoming None None Body.empty) db'
     = (db', Sent (Res.send 404 (failure "Không tìm thấy người dùng."))).
Proof.
  intros L db'.
  destruct (deleted_account_is_gone (L := L) Sample.penv (Sample.world 3000000)
              (Cases.at_id Sample.bob_id Body.empty) (incoming None None Body.empty)
              Sample.db Sample.bob_id eq_refl eq_refl) as (_ & Hgone & Hget).
  split; [exact Hgone | apply Hget; reflexivity].
Defined.

(** X21. DELETE /delete-user/:id, once its middlewares have passed the request
    on, either leaves both collections as they were and does not answer 200,
    or deletes the orders of that user and then either deletes the account and
    answers 200 or, when the avatar could not be removed from the image store,
    keeps the account and answers 500. *)
Theorem delete_user_and_orders_outcomes :
  forall {L : Libraries} (w : World) (req : Req.t) (db : Db) (id : string),
    Req.params_id req = Some id ->
    let db' := fst (delete_user_and_orders w req db) in
    let res := snd (delete_user_and_orders w req db) in
    (db' = db /\ Res.status res <> 200%Z)
    \/ exists oid,
         ObjectId_cast id = Some oid
         /\ orders db' = filter (fun o => negb (String.eqb oid o)) (orders db)
         /\ ((users db' = others oid (users db) /\ Res.status res = 200%Z)
             \/ (users db' = users db /\ Res.status res = 500%Z
                 /\ cloudinary_destroy w = false)).
Proof.
  intros L w req db id Hid db' res.
  unfold db', res, delete_user_and_orders. unfold_handlers. rewrite Hid.
  case_split; cbn [fst snd users orders set_users Res.status Res.send];
    try (left; split; [first [reflexivity | now destruct db] | discriminate]).
  all: right; eexists; split; [reflexivity |].
  all: repeat match goal with
              | H : (0 <? List.length ?l)%nat = false |- _ =>
                  apply not_positive_length in H
              end.
  all: first
         [ split; [reflexivity | auto]
         | split; [symmetry; apply filter_orders_twice; assumption | auto] ].
Qed.

Lemma delete_user_and_orders_outcomes_witness :
  let L := Sample.libraries Sample.alice_token in
  let out := delete_user_and_orders (Sample.world 2000000)
               (Cases.at_id Sample.bob_id Body.empty) Sample.db in
  (fst out = Sample.db /\ Res.status (snd out) <> 200%Z)
  \/ exists oid,
       ObjectId_cast Sample.bob_id = Some oid
       /\ orders (fst out) = filter (fun o => negb (String.eqb oid o)) (orders Sample.db)
       /\ ((users (fst out) = others oid (users Sample.db) /\ Res.status (snd out) = 200%Z)
           \/ (users (fst out) = users Sample.db /\ Res.status (snd out) = 500%Z
               /\ cloudinary_destroy (Sample.world 2000000) = false)).
Proof.
  intros L out.
  apply (delete_user_and_orders_outcomes (L := L) (Sample.world 2000000)
           (Cases.at_id Sample.bob_id Body.empty) Sample.db Sample.bob_id).
  reflexivity.
Defined.

(** X22. PUT /change-password/:id, once its middlewares have passed the request
    on, changes at most the [password] of stored accounts, to the bcrypt
    digest of the body's [newPassword]: the ids of the users and the orders
    stay as they are, and every account of the new collection is an old one or
    an old one with that digest as its password. *)
Theorem change_password_changes_one_field :
  forall {L : Libraries} (w : World) (req : Req.t) (db : Db),
    let db' := fst (put_change_password w req db) in
    let digest := bcrypt_hash (the (Body.newPassword (Req.body req))) (bcrypt_salt w) in
    map User._id (users db') = map User._id (users db)
    /\ orders db' = orders db
    /\ forall u', In u' (users db') ->
         exists u, In u (users db)
                   /\ (u' = u \/ u' = User.set_password digest u).
Proof.
  intros L w req db db' digest. unfold db', digest.
  destruct (change_password_requires_current w req db) as [->|H].
  - repeat split. intros u' Hin. exists u'. auto.
  - destruct H as (id & user & Hid & Hfind & Hcur & ->).
    cbn [users orders set_users]. split; [apply ids_replace |]. split; [reflexivity |].
    intros u' Hin. unfold replace in Hin. apply in_map_iff in Hin as (v & Hv & Hin).
    destruct (has_id _ v) eqn:E.
    + subst u'. exists user. split; [| now right].
      unfold findById in Hfind. destruct (ObjectId_cast id); [| discriminate].
      cbn [snd] in Hfind. injection Hfind as Hfind. now apply find_has_id in Hfind.
    + subst u'. exists v. auto.
Qed.

(** X23. With a signing key and no [TOKEN_EXPIRATION], the token of an identity
    that did not ask to be remembered lasts one hour while the session cookie
    has a [maxAge] of 7 days: given a codec that reads the token back,
    [verifyToken] passes a request with that cookie on during the first hour
    and from then on answers it 401 and clears the cookie. *)
Theorem session_cookie_outlives_default_token :
  forall {L : Libraries} (penv : ProcessEnv) (w later : World) (user : User.t) (key : string)
         (req : Req.t),
    JWT_SECRET penv = Some key ->
    Js.truthy key = true ->
    User.rememberMe user <> Some true ->
    Js.truthy_opt (TOKEN_EXPIRATION penv) = false ->
    let token := jwt_encode (issued w user key (60 * 60)) in
    jwt_decode token = Some (issued w user key (60 * 60)) ->
    Js.truthy token = true ->
    Req.cookies_token req = Some token ->
    generateToken penv w user = Ok token
    /\ maxAge (session_options penv) = Some (7 * 24 * 60 * 60 * 1000)%Z
    /\ ((clock later < clock w + 60 * 60)%Z ->
        verifyToken penv later req
        = Next (Req.set_user (Jwt.payload (issued w user key (60 * 60))) req))
    /\ ((clock w + 60 * 60 <= clock later)%Z ->
        verifyToken penv later req = Done (session_rejected penv)).
Proof.
  intros L penv w later user key req Hkey Htk Hrem Hunset token Hdec Htt Hcookie.
  assert (Htoken : token_of req = Some token).
  { unfold token_of. rewrite or_else_truthy; rewrite Hcookie; auto. }
  destruct (jwt_verify_failures later token key _ _ Htk Hdec eq_refl eq_refl) as (_ & Hexp & Hok).
  repeat split.
  - unfold generateToken, jwt_sign. rewrite Hkey, Htk.
    replace (expirationTime penv user) with "1h"; [reflexivity |].
    unfold expirationTime, Js.or_default.
    destruct (User.rememberMe user) as [[|]|]; try congruence;
      destruct (TOKEN_EXPIRATION penv) as [s|]; simpl in Hunset;
      try rewrite Hunset; reflexivity.
  - intro H. rewrite verifyToken_cases, Htoken, Htt, Hkey, Hok; auto.
  - intro H. rewrite verifyToken_cases, Htoken, Htt, Hkey, Hexp; auto.
Qed.

Lemma session_cookie_outlives_default_token_witness :
  let L := Sample.libraries Sample.alice_token in
  let hour := (60 * 60 * 1000)%Z in
  generateToken Sample.penv (Sample.world 1000000) Sample.alice
  = Ok "header.payload.signature"
  /\ maxAge (session_options Sample.penv) = Some (7 * 24 * hour)%Z
  /\ verifyToken Sample.penv (Sample.world (1000000 + 2 * hour))
                 (Sample.with_cookie Body.empty)
     = Done (session_rejected Sample.penv).
Proof.
  intros L hour.
  destruct (session_cookie_outlives_default_token (L := L) Sample.penv
              (Sample.world 1000000) (Sample.world (1000000 + 2 * hour)) Sample.alice
              "secret" (Sample.with_cookie Body.empty))
    as (Hgen & Hage & _ & Hlate); try reflexivity.
  - discriminate.
  - split; [exact Hgen |]. split; [exact Hage |]. apply Hlate. vm_compute. discriminate.
Defined.

(** X24. POST /authWithGoogle answers 200 or the 500 of its own [catch], whose
    body is not the one of [handleError].  It leaves the collections as they
    were or appends one account, made from the body's [fullName], [email] and
    [images], when no stored account has the body's email; that account has
    the role [user] and the username [temp_] followed by the full name
    without its spaces, in the lower case of the runtime's [toLowerCase].
    Without a [fullName], and with no account of that email, it stores
    nothing and answers 500. *)
Theorem authWithGoogle_outcomes :
  forall {L : Libraries} (penv : ProcessEnv) (w : World) (req : Req.t) (db : Db),
    let db' := fst (post_authWithGoogle penv w req db) in
    let res := snd (post_authWithGoogle penv w req db) in
    (Res.status res = 200%Z
     \/ res = Res.send 500 (failure "Có lỗi xảy ra. Vui lòng thử lại sau."))
    /\ (db' = db
        \/ exists fullName,
             Body.fullName (Req.body req) = Some fullName
             /\ (forall u, In u (users db) -> User.email u <> Body.email (Req.body req))
             /\ db' = set_users
                        (users db ++ [new_google_user w fullName (Body.email (Req.body req))
                                                      (Body.images (Req.body req))]) db
             /\ User.role (new_google_user w fullName (Body.email (Req.body req))
                                           (Body.images (Req.body req))) = "user"
             /\ User.username (new_google_user w fullName (Body.email (Req.body req))
                                               (Body.images (Req.body req)))
                = "temp_" ++ unicode_toLowerCase (Js.join (Js.split " "%char fullName)))
    /\ (Body.fullName (Req.body req) = None ->
        (forall u, In u (users db) -> User.email u <> Body.email (Req.body req)) ->
        db' = db /\ res = Res.send 500 (failure "Có lỗi xảy ra. Vui lòng thử lại sau."))
    /\ (forall e, Res.send 500 (failure "Có lỗi xảy ra. Vui lòng thử lại sau.")
                  <> handleError e).
Proof.
  intros L penv w req db db' res.
  assert (Hown : forall e, Res.send 500 (failure "Có lỗi xảy ra. Vui lòng thử lại sau.")
                           <> handleError e) by (intro e; discriminate).
  cut ((Res.status res = 200%Z
        \/ res = Res.send 500 (failure "Có lỗi xảy ra. Vui lòng thử lại sau."))
       /\ (db' = db
           \/ exists fullName,
                Body.fullName (Req.body req) = Some fullName
                /\ (forall u, In u (users db) -> User.email u <> Body.email (Req.body req))
                /\ db' = set_users
                           (users db ++ [new_google_user w fullName
                                           (Body.email (Req.body req))
                                           (Body.images (Req.body req))]) db
                /\ User.role (new_google_user w fullName (Body.email (Req.body req))
                                              (Body.images (Req.body req))) = "user"
                /\ User.username (new_google_user w fullName (Body.email (Req.body req))
                                                  (Body.images (Req.body req)))
                   = "temp_" ++ unicode_toLowerCase (Js.join (Js.split " "%char fullName)))
       /\ (Body.fullName (Req.body req) = None ->
           (forall u, In u (users db) -> User.email u <> Body.email (Req.body req)) ->
           db' = db
           /\ res = Res.send 500 (failure "Có lỗi xảy ra. Vui lòng thử lại sau."))).
  { intros (H1 & H2 & H3). auto. }
  clear Hown.
  unfold db', res, post_authWithGoogle. unfold_handlers.
  destruct (find _ (users db)) as [found|] eqn:Hfind.
  - split; [case_split; cbn; auto |]. split; [case_split; cbn; auto |].
    intros _ Hno. exfalso. apply find_some in Hfind as [Hin Heq].
    apply strict_eq_true in Heq. now apply (Hno found Hin).
  - assert (Hno : forall u, In u (users db) -> User.email u <> Body.email (Req.body req)).
    { intros u Hin Heq. apply (find_none_forall _ _ Hfind) in Hin. cbv beta in Hin.
      apply strict_eq_true in Heq. congruence. }
    destruct (Body.fullName (Req.body req)) as [fullName|].
    + split; [case_split; cbn; auto |]. split; [| discriminate].
      case_split; cbn; auto; right; exists fullName; auto.
    + cbn. auto.
Qed.

(** ** Updating a profile *)

Lemma or_default_same (v : option string) (x : string) :
  Js.truthy_opt v && negb (String.eqb (the v) x) = false -> Js.or_default v x = x.
Proof.
  destruct v as [s|]; cbn; [| reflexivity].
  destruct (Js.truthy s); cbn; [| reflexivity].
  intro H. apply negb_false_iff in H. now apply String.eqb_eq in H.
Qed.

Lemma or_default_the (v : option string) (x : string) :
  Js.truthy_opt v = true -> Js.or_default v x = the v.
Proof. destruct v as [s|]; cbn; [| discriminate]. now intros ->. Qed.

Section ProfileUpdate.

Context {L : Libraries}.
Variable w : World.

Lemma put_user_outcomes (req : Req.t) (db : Db) (id : string) :
  Req.params_id req = Some id ->
  fst (put_user w req db) = db
  \/ exists oid user avatar hashed,
       ObjectId_cast id = Some oid
       /\ find (has_id oid) (users db) = Some user
       /\ fst (put_user w req db)
          = set_users (replace (updatedData (Req.body req) avatar hashed user) (users db)) db
       /\ (hashed = None
           \/ (Js.truthy_opt (Body.password (Req.body req)) = true
               /\ hashed = Some (bcrypt_hash (the (Body.password (Req.body req)))
                                             (bcrypt_salt w))))
       /\ (Js.or_default (Body.username (Req.body req)) (User.username user)
           = User.username user
           \/ (Js.or_default (Body.username (Req.body req)) (User.username user)
               = the (Body.username (Req.body req))
               /\ find (fun u => String.eqb (User.username u)
                                            (the (Body.username (Req.body req))))
                       (users db) = None)).
Proof.
  intro Hid. unfold put_user, handleError, hashPassword. unfold_handlers. rewrite Hid.
  case_split; try (now left).
  all: right;
    repeat match goal with
           | H : Some _ = Some _ |- _ => injection H as H; try subst
           end;
    eexists; eexists; eexists; eexists;
    split; [reflexivity |];
    split; [eassumption |];
    split; [reflexivity |];
    split; [first [left; reflexivity | right; split; reflexivity] |].
  all: match goal with
       | H : Js.truthy_opt (Body.username _) && _ = false |- _ =>
           left; now apply or_default_same
       | H : Js.truthy_opt (Body.username _) && _ = true |- _ =>
           right; apply andb_true_iff in H as [H _];
           split; [now apply or_default_the | first [reflexivity | assumption]]
       end.
Qed.


End ProfileUpdate.

(** X25. PUT /:id, once its middlewares have passed the request on, leaves the
    orders and the ids of the users as they are.  Every account of the new
    collection is an old one, or has the id and the [rememberMe] of an old one
    and as its password either that account's or the bcrypt digest of the
    body's [password]. *)
Theorem profile_update_outcomes :
  forall {L : Libraries} (w : World) (req : Req.t) (db : Db) (id : string),
  Req.params_id req = Some id ->
  let db' := fst (put_user w req db) in
  orders db' = orders db
  /\ map User._id (users db') = map User._id (users db)
  /\ forall u', In u' (users db') ->
       In u' (users db)
       \/ exists u, In u (users db)
            /\ User._id u' = User._id u
            /\ User.rememberMe u' = User.rememberMe u
            /\ (User.password u' = User.password u
                \/ User.password u'
                   = bcrypt_hash (the (Body.password (Req.body req))) (bcrypt_salt w)).
Proof.
  intros L w req db id Hid db'. subst db'.
  destruct (put_user_outcomes w req db id Hid)
    as [-> | (oid & user & avatar & hashed & _ & Hfind & -> & Hhash & _)].
  { split; [reflexivity |]. split; [reflexivity |]. now left. }
  cbn [users orders set_users]. split; [reflexivity |].
  split; [apply ids_replace |].
  intros u' Hin. unfold replace in Hin. apply in_map_iff in Hin as (v & Hv & Hin).
  destruct (has_id _ v) eqn:E; [| left; now subst].
  right. exists user. subst u'.
  apply find_has_id in Hfind as [Huser Hoid].
  split; [exact Huser |]. cbn. split; [reflexivity |]. split; [reflexivity |].
  destruct Hhash as [-> | [_ ->]]; cbn; [now left |].
  destruct (Js.truthy _); [now right | now left].
Qed.

Lemma profile_update_outcomes_witness :
  let L := Sample.libraries Sample.alice_token in
  let db' := fst (put_user (Sample.world 2000000)
                           (Cases.at_id Sample.alice_id (Cases.rename "alicia")) Sample.db) in
  map User._id (users db') = map User._id (users Sample.db).
Proof.
  intros L db'.
  apply (profile_update_outcomes (L := L) (Sample.world 2000000)
           (Cases.at_id Sample.alice_id (Cases.rename "alicia")) Sample.db Sample.alice_id).
  reflexivity.
Defined.

Lemma replace_absent (x : User.t) (l : list User.t) :
  ~ In (User._id x) (map User._id l) -> replace x l = l.
Proof.
  unfold replace. induction l as [|a l IH]; cbn; intro Hno; [reflexivity |].
  destruct (has_id (User._id x) a) eqn:E.
  - apply has_id_true in E. exfalso. apply Hno. now left.
  - f_equal. apply IH. intro H. apply Hno. now right.
Qed.

Lemma names_replace (x user : User.t) (l : list User.t) :
  NoDup (map User._id l) -> NoDup (map User.username l) ->
  In user l -> User._id x = User._id user ->
  (User.username x = User.username user \/ ~ In (User.username x) (map User.username l)) ->
  NoDup (map User.username (replace x l)).
Proof.
  induction l as [|a l IH]; intros Hids Hnames Hin Hid Hname; [constructor |].
  cbn in Hids, Hnames. inversion Hids as [|? ? Hida Hids']; subst.
  inversion Hnames as [|? ? Hna Hnames']; subst.
  change (replace x (a :: l))
    with ((if has_id (User._id x) a then x else a) :: replace x l).
  destruct (has_id (User._id x) a) eqn:E.
  - apply has_id_true in E.
    assert (Ha : user = a).
    { destruct Hin as [<- | Hin]; [reflexivity |].
      exfalso. apply Hida. rewrite E, Hid. now apply in_map. }
    subst a. rewrite replace_absent by (now rewrite Hid).
    cbn. constructor; [| exact Hnames'].
    destruct Hname as [-> | Hno]; [exact Hna |].
    intro H. apply Hno. now right.
  - assert (Hin' : In user l).
    { destruct Hin as [<- | Hin]; [| exact Hin].
      rewrite Hid in E. unfold has_id in E. now rewrite String.eqb_refl in E. }
    cbn. constructor.
    + intro H. apply in_map_iff in H as (v & Hv & Hvin).
      unfold replace in Hvin. apply in_map_iff in Hvin as (v0 & Hv0 & Hv0in).
      destruct (has_id (User._id x) v0).
      * subst v. destruct Hname as [Hx | Hno].
        -- apply Hna. rewrite <- Hv, Hx. now apply in_map.
        -- apply Hno. left. now symmetry.
      * subst v0. apply Hna. rewrite <- Hv. now apply in_map.
    + apply IH; auto. destruct Hname as [Hx | Hno]; [now left | right].
      intro H. apply Hno. now right.
Qed.

(** X26. A PUT /:id that is served on its own, with no other request
    writing between its look-ups and its update, keeps the usernames distinct
    in a collection whose ids are distinct.  Requests that interleave are
    outside this statement. *)
Theorem profile_update_keeps_usernames_distinct :
  forall {L : Libraries} (w : World) (req : Req.t) (db : Db) (id : string),
  Req.params_id req = Some id ->
  NoDup (map User._id (users db)) ->
  NoDup (map User.username (users db)) ->
  NoDup (map User.username (users (fst (put_user w req db)))).
Proof.
  intros L w req db id Hid Hids Hnames.
  destruct (put_user_outcomes w req db id Hid)
    as [-> | (oid & user & avatar & hashed & _ & Hfind & -> & _ & Hname)];
    [exact Hnames |].
  cbn [users set_users]. apply find_has_id in Hfind as [Huser _].
  apply (names_replace _ user); auto.
  cbn [updatedData User.username]. destruct Hname as [-> | [-> Hnone]]; [now left | right].
  intro H. apply in_map_iff in H as (v & Hv & Hvin).
  pose proof (find_none _ _ Hnone v Hvin) as Hf. cbn in Hf.
  rewrite Hv in Hf. now rewrite String.eqb_refl in Hf.
Qed.

Lemma profile_update_keeps_usernames_distinct_witness :
  let L := Sample.libraries Sample.alice_token in
  NoDup (map User.username
             (users (fst (put_user (Sample.world 2000000)
                                   (Cases.at_id Sample.alice_id (Cases.rename "bob"))
                                   Sample.db)))).
Proof.
  intro L.
  apply (profile_update_keeps_usernames_distinct (L := L) (Sample.world 2000000)
           (Cases.at_id Sample.alice_id (Cases.rename "bob")) Sample.db Sample.alice_id).
  - reflexivity.
  - repeat constructor; cbn; intuition discriminate.
  - repeat constructor; cbn; intuition discriminate.
Defined.

(** ** The search route *)

Lemma accepts_star_class p s : Regex.accepts (Regex.Star (Regex.Chr p)) s = all p s.
Proof.
  induction s as [|c s IH]; [reflexivity |].
  cbn. destruct (p c); cbn; [exact IH |]. apply accepts_Void.
Qed.

Lemma accepts_plus_class p s :
  Regex.accepts (Regex.plus (Regex.Chr p)) s = all p s && Js.truthy s.
Proof.
  destruct s as [|c s]; [reflexivity |].
  cbn. destruct (p c); cbn.
  - rewrite andb_true_r. apply accepts_star_class.
  - apply accepts_Void.
Qed.

Lemma isOnlyWildcard_eq (query : string) :
  isOnlyWildcard query
  = all specialChars (Js.remove_spaces query) && Js.truthy (Js.remove_spaces query).
Proof. unfold isOnlyWildcard. cbv zeta. apply accepts_plus_class. Qed.

Lemma special_backslash : specialChars "\" = true.
Proof. reflexivity. Qed.

Lemma safeQuery_quoted (query : string) :
  lang (Regex.Star quoted_char) (safeQuery query).
Proof.
  induction query as [|c s IH]; [apply LStar0 |].
  cbn [safeQuery]. destruct (specialChars c) eqn:E.
  - apply (LStarS _ (String "\" (String c "")) _); [| exact IH].
    apply LAltR. apply (LSeq _ _ (String "\" "") (String c "")).
    + apply LChr. apply Ascii.eqb_refl.
    + now apply LChr.
  - apply (LStarS _ (String c "") _); [| exact IH].
    apply LAltL. apply LChr. now rewrite E.
Qed.

Lemma safeQuery_same (query : string) :
  safeQuery query = query <-> has specialChars query = false.
Proof.
  induction query as [|c s IH]; [now split |].
  cbn [safeQuery has]. destruct (specialChars c) eqn:E; cbn.
  - split; [| discriminate]. intro H. injection H as _ Hs. exfalso.
    assert (Hlen : forall q, String.length q <= String.length (safeQuery q)).
    { induction q as [|d q IHq]; cbn [safeQuery String.length]; [lia |].
      destruct (specialChars d); cbn [String.length]; lia. }
    pose proof (Hlen s) as Hl.
    assert (He : String.length (String c (safeQuery s)) = String.length s)
      by now rewrite Hs.
    cbn [String.length] in He. lia.
  - split.
    + intro H. injection H as H. now apply IH.
    + intro H. f_equal. now apply IH.
Qed.

Lemma safeQuery_injective (q q' : string) : safeQuery q = safeQuery q' -> q = q'.
Proof.
  revert q'. induction q as [|c s IH]; intros [|c' s']; cbn [safeQuery].
  - reflexivity.
  - destruct (specialChars c'); discriminate.
  - destruct (specialChars c); discriminate.
  - destruct (specialChars c) eqn:E, (specialChars c') eqn:E'; intro H.
    + injection H as -> H. f_equal. now apply IH.
    + injection H as <- _. now rewrite special_backslash in E'.
    + injection H as -> _. now rewrite special_backslash in E.
    + injection H as -> H. f_equal. now apply IH.
Qed.

(** X27. The pattern [safeQuery] that the search route builds from a query is a
    sequence of ordinary characters and of special characters each preceded
    by a backslash; it is the query itself exactly when the query has no
    special character, and two queries with the same pattern are the same
    query. *)
Theorem search_pattern_quotes_every_special_character (query : string) :
  lang (Regex.Star quoted_char) (safeQuery query)
  /\ (safeQuery query = query <-> has specialChars query = false)
  /\ forall query', safeQuery query = safeQuery query' -> query = query'.
Proof.
  split; [apply safeQuery_quoted |]. split; [apply safeQuery_same |].
  intro q'. apply safeQuery_injective.
Qed.

(** *** White space *)

Lemma strip_prefix_length p s t :
  Js.strip_prefix p s = Some t -> String.length s = (String.length p + String.length t)%nat.
Proof.
  revert s. induction p as [|a p IH]; intros [|b s]; cbn; try discriminate.
  - intro H. now injection H as <-.
  - intro H. now injection H as <-.
  - destruct (Ascii.eqb a b); [| discriminate]. intro H. now rewrite (IH _ H).
Qed.

Lemma strip_prefix_app p s t x :
  Js.strip_prefix p s = Some t -> Js.strip_prefix p (s ++ x) = Some (t ++ x).
Proof.
  revert s. induction p as [|a p IH]; intros [|b s]; cbn; try discriminate.
  - intro H. now injection H as <-.
  - intro H. now injection H as <-.
  - destruct (Ascii.eqb a b); [apply IH | discriminate].
Qed.

Lemma strip_first_app ps s t x :
  Js.strip_first ps s = Some t -> exists t', Js.strip_first ps (s ++ x) = Some t'.
Proof.
  induction ps as [|p ps IH]; cbn; [discriminate |].
  destruct (Js.strip_prefix p s) as [r|] eqn:E.
  - intros _. rewrite (strip_prefix_app _ _ _ x E). eauto.
  - intro H. destruct (Js.strip_prefix p (s ++ x)); eauto.
Qed.

Lemma strip_first_shorter ps s t :
  Forall (fun p => Js.truthy p = true) ps ->
  Js.strip_first ps s = Some t -> (String.length t < String.length s)%nat.
Proof.
  induction 1 as [|p ps Hp _ IH]; cbn; [discriminate |].
  destruct (Js.strip_prefix p s) as [r|] eqn:E; [| exact IH].
  intro H. injection H as <-. apply strip_prefix_length in E.
  destruct p; [discriminate |]. cbn in E. lia.
Qed.

Lemma after_space_shorter s t :
  Js.after_space s = Some t -> (String.length t < String.length s)%nat.
Proof.
  apply strip_first_shorter. unfold Js.white_space.
  apply Forall_forall. intros p Hp. apply in_map_iff in Hp as (l & <- & Hl).
  apply in_app_or in Hl as [Hl | Hl];
    [| apply in_app_or in Hl as [Hl | Hl];
       [apply in_map_iff in Hl as (n & <- & _); reflexivity |]];
    cbn in Hl; repeat (destruct Hl as [<- | Hl]; [reflexivity |]); contradiction.
Qed.

(** Stripping as many characters as the string has bytes leaves no white
    space at the start. *)
Lemma trim_start_upto_done n s :
  (String.length s <= n)%nat -> Js.after_space (Js.trim_start_upto n s) = None.
Proof.
  revert s. induction n as [|n IH]; intros s Hn.
  - destruct s; [reflexivity | cbn in Hn; lia].
  - cbn [Js.trim_start_upto]. destruct (Js.after_space s) as [t|] eqn:E; [| exact E].
    apply IH. apply after_space_shorter in E. lia.
Qed.

Lemma trim_start_done s : Js.after_space (Js.trim_start s) = None.
Proof. now apply trim_start_upto_done. Qed.

Lemma trim_end_prefix s : exists x, s = Js.trim_end s ++ x.
Proof.
  induction s as [|c s [x IH]]; [now exists "" |].
  cbn [Js.trim_end]. destruct (Js.blank (String c s)).
  - now exists (String c s).
  - exists x. cbn. now rewrite <- IH.
Qed.

Lemma trim_end_starts s : Js.after_space s = None -> Js.after_space (Js.trim_end s) = None.
Proof.
  intro H. destruct (Js.after_space (Js.trim_end s)) as [t|] eqn:E; [| reflexivity].
  destruct (trim_end_prefix s) as [x Hx].
  destruct (strip_first_app _ _ _ x E) as [t' Ht']. unfold Js.after_space in H.
  rewrite <- Hx in Ht'. congruence.
Qed.

Lemma trim_empty : Js.trim "" = "".
Proof. reflexivity. Qed.

(** What is left of a string by [trim()] does not start with white space:
    it does not vanish when its white space is removed. *)
Lemma trim_remove_spaces s :
  Js.truthy (Js.trim s) = true -> Js.truthy (Js.remove_spaces (Js.trim s)) = true.
Proof.
  unfold Js.trim. intro H.
  pose proof (trim_end_starts _ (trim_start_done s)) as Hno.
  destruct (Js.trim_end (Js.trim_start s)) as [|c t]; [discriminate |].
  unfold Js.remove_spaces. cbn [String.length Js.remove_spaces_upto]. now rewrite Hno.
Qed.

Lemma all_false_has p s : all p s = false <-> has (fun c => negb (p c)) s = true.
Proof.
  induction s as [|c s IH]; cbn; [now split |].
  destruct (p c); cbn; [exact IH | now split].
Qed.

Lemma length_truthy s : (1 <= Js.length s)%nat -> Js.truthy s = true.
Proof. destruct s; cbn; [lia | reflexivity]. Qed.

Lemma search_checks_iff (query pattern : string) :
  Js.truthy (Js.remove_spaces query) = true ->
  search_checks query = inr pattern
  <-> (2 <= Js.length query)%nat
      /\ has (fun c => negb (specialChars c)) (Js.remove_spaces query) = true
      /\ pattern = safeQuery query.
Proof.
  intro Hrs. unfold search_checks. rewrite isOnlyWildcard_eq, Hrs, andb_true_r. split.
  - destruct (Js.truthy query); [| discriminate]. cbn [negb orb].
    destruct (Nat.ltb_spec (Js.length query) 2) as [| Hlen]; [discriminate |].
    destruct (all specialChars (Js.remove_spaces query)) eqn:Ha; [discriminate |].
    intro H. injection H as <-. split; [exact Hlen |]. split; [| reflexivity].
    now apply all_false_has.
  - intros (Hlen & Hhas & ->).
    rewrite (length_truthy query) by lia. cbn [negb orb].
    destruct (Nat.ltb_spec (Js.length query) 2) as [| _]; [lia |].
    apply all_false_has in Hhas. now rewrite Hhas.
Qed.

(** X28. The search route gets as far as its search condition exactly when
    [req.query.q] is a string that, once trimmed, has at least 2 UTF-16 code
    units and, white space apart, a character that is not special; the
    pattern of the condition is then the [safeQuery] of the trimmed string.
    Every other request is answered at once: 500 when [q] is an array or an
    object, on which [trim] throws, and 400 otherwise. *)
Theorem search_reaches_the_store_iff :
  forall {L : Libraries} (q : option query_value),
    (forall pattern,
        search_condition q = inr pattern
        <-> exists raw,
              q = Some (Text raw)
              /\ (2 <= Js.length (Js.trim raw))%nat
              /\ has (fun c => negb (specialChars c)) (Js.remove_spaces (Js.trim raw)) = true
              /\ pattern = safeQuery (Js.trim raw))
    /\ (forall res, search_condition q = inl res ->
                    Res.status res = if match q with Some Structured => true | _ => false end
                                     then 500%Z else 400%Z).
Proof.
  intros L q. split.
  2: { intro res. unfold search_condition, search_checks.
       destruct q as [[s|]|]; [| intro H; now injection H as <- |].
       all: destruct (negb _ || _); [intro H; now injection H as <- |];
         destruct (isOnlyWildcard _); [intro H; now injection H as <- | discriminate]. }
  intro pattern. unfold search_condition. destruct q as [[raw|]|].
  - destruct (Js.truthy raw) eqn:Hraw.
    + destruct (Js.truthy (Js.trim raw)) eqn:Ht.
      * rewrite (search_checks_iff _ _ (trim_remove_spaces raw Ht)). split.
        -- intros (H1 & H2 & H3). exists raw. auto.
        -- intros (raw' & Hq & H). injection Hq as <-. exact H.
      * split.
        -- unfold search_checks. rewrite Ht. discriminate.
        -- intros (raw' & Hq & Hlen & _). injection Hq as <-.
           rewrite (length_truthy (Js.trim raw)) in Ht by lia. discriminate.
    + split; [discriminate |].
      intros (raw' & Hq & Hlen & _). injection Hq as <-.
      destruct raw; [cbn in Hlen; lia | discriminate].
  - split; [discriminate |]. intros (raw & Hq & _). discriminate.
  - split; [discriminate |]. intros (raw & Hq & _). discriminate.
Qed.

Lemma search_reaches_the_store_iff_witness :
  let L := Sample.libraries Sample.alice_token in
  search_condition (Some (Text "  a.b ")) = inr "a\.b"
  /\ (exists res, search_condition (Some (Text " .* ")) = inl res /\ Res.status res = 400%Z)
  /\ (exists res, search_condition (Some Structured) = inl res /\ Res.status res = 500%Z).
Proof.
  intro L.
  destruct (search_reaches_the_store_iff (L := L) (Some (Text "  a.b "))) as [Hyes _].
  destruct (search_reaches_the_store_iff (L := L) (Some (Text " .* "))) as [_ Hno].
  destruct (search_reaches_the_store_iff (L := L) (Some Structured)) as [_ Herr].
  split; [| split].
  - apply Hyes. exists "  a.b ".
    split; [reflexivity |]. split; [vm_compute; lia |]. split; reflexivity.
  - eexists. split; [reflexivity |]. apply Hno. reflexivity.
  - eexists. split; [reflexivity |]. apply Herr. reflexivity.
Defined.
